(** * AstrodbKit2: inventory assembly, JSON export and import

    A shallow embedding of [astrodbkit/astrodb.py]: the [Database] methods
    [_row_cleanup], [_inventory_query], [inventory], [save_json],
    [save_reference_table], [save_database], [load_table], [load_json] and
    [load_database], over a small model of the relational store and of the
    directory the JSON files live in; and the construction of a
    [Database]: [load_connection], [set_sqlite], [create_database] and
    [Database.__init__], over the calls they make into SQLAlchemy.

    Conventions of the model.
    - A Python [str] is a [string] whose characters are the code points
      0..255; [lower], [replace], [strip], [startswith] and [endswith] are
      written out below for those code points.
    - A Python [dict] used as a row is a [gmap string value]: rows are
      compared with [==], which ignores key order.  The inventory document
      and the table registry are association lists, because the code
      iterates over them in insertion order.
    - A float is carried by the text [repr] gives it, which is what
      [json.dumps] writes and [json.load] reads back.
    - The text layer of the [json] module is not modelled: a file holds the
      JSON value that was dumped into it.
    - The store keeps the rows of a table in the order it yields them; an
      insert appends.  It checks that a statement names columns of the
      table and, when foreign keys are enforced ([sqlite_foreign]), the
      declared foreign keys; column types, primary keys, uniqueness and
      NOT NULL are not modelled, so the store can refuse an insert the
      model accepts.
    - A file is written under a name of one path component; a derived
      file name with a path separator is outside the model.
      [metadata.sorted_tables] is SQLAlchemy's and is taken as given.
    - A method that raises is a computation that returns [Raise]; the state
      it leaves behind is kept, and a transaction that raises restores the
      store it started from.
    - The keyword arguments [reference_directory] and [source_directory]
      are at their defaults, [verbose] and the progress bar only print.
    - The construction of a [Database] is followed through the calls it
      makes: creating the engine, binding the metadata, registering the
      SQLite handler, creating and reflecting the tables.  What [reflect]
      finds is an argument of the model.  The queries that go through
      pandas, astropy or SQL text are not modelled. *)

From stdpp Require Import gmap strings list fin_maps pretty.
From Stdlib Require Import Ascii String ZArith NArith Lia.

Local Open Scope N_scope.

(* ================================================================== *)
(** ** Python string methods *)
(* ================================================================== *)

Definition code (c : ascii) : N := N_of_ascii c.

Definition in_range (lo hi n : N) : bool := (lo <=? n) && (n <=? hi).

(** [str.lower] on one code point: A-Z and the Latin-1 capitals. *)
Definition py_lower_char (c : ascii) : ascii :=
  let n := code c in
  if in_range 65 90 n || (in_range 192 222 n && negb (n =? 215))
  then ascii_of_N (n + 32)
  else c.

Fixpoint py_lower (s : string) : string :=
  match s with
  | EmptyString => EmptyString
  | String c s' => String (py_lower_char c) (py_lower s')
  end.

(** [str.isspace] on one code point. *)
Definition py_isspace (c : ascii) : bool :=
  let n := code c in
  in_range 9 13 n || in_range 28 32 n || (n =? 133) || (n =? 160).

Fixpoint py_lstrip (s : string) : string :=
  match s with
  | EmptyString => EmptyString
  | String c s' => if py_isspace c then py_lstrip s' else s
  end.

Fixpoint py_rstrip (s : string) : string :=
  match s with
  | EmptyString => EmptyString
  | String c s' =>
      match py_rstrip s' with
      | EmptyString => if py_isspace c then EmptyString else String c EmptyString
      | r => String c r
      end
  end.

Definition py_strip (s : string) : string := py_rstrip (py_lstrip s).

(** [str.replace(old, new)]: left to right, matches do not overlap.
    [skip] counts the characters of the current match still to drop. *)
Fixpoint replace_from (old new : string) (skip : nat) (s : string) : string :=
  match s with
  | EmptyString => EmptyString
  | String c s' =>
      match skip with
      | S k => replace_from old new k s'
      | O =>
          if String.prefix old s
          then new +:+ replace_from old new (String.length old - 1)%nat s'
          else String c (replace_from old new 0 s')
      end
  end.

Fixpoint intersperse_str (new s : string) : string :=
  match s with
  | EmptyString => new
  | String c s' => new +:+ String c (intersperse_str new s')
  end.

Definition py_replace (old new s : string) : string :=
  match old with
  | EmptyString => intersperse_str new s
  | _ => replace_from old new 0 s
  end.

Definition py_startswith (p s : string) : bool := String.prefix p s.

Definition py_endswith (p s : string) : bool :=
  (String.length p <=? String.length s)%nat &&
  String.eqb (String.substring (String.length s - String.length p) (String.length p) s) p.

(** The file name [save_json] gives a source:
    [source_name.lower().replace(" ", "_").replace("*", "").strip() + ".json"]. *)
Definition json_filename (source_name : string) : string :=
  py_strip (py_replace "*" "" (py_replace " " "_" (py_lower source_name))) +:+ ".json".

(** The slug rule in the words of the specification, character by
    character: lowercase, spaces to underscores, asterisks removed,
    leading and trailing whitespace stripped, [.json] appended. *)
Fixpoint string_map (f : ascii -> ascii) (s : string) : string :=
  match s with
  | EmptyString => EmptyString
  | String c s' => String (f c) (string_map f s')
  end.

Fixpoint string_filter (p : ascii -> bool) (s : string) : string :=
  match s with
  | EmptyString => EmptyString
  | String c s' => if p c then String c (string_filter p s') else string_filter p s'
  end.

Fixpoint drop_leading (p : ascii -> bool) (l : list ascii) : list ascii :=
  match l with
  | [] => []
  | c :: l' => if p c then drop_leading p l' else l
  end.

Definition spec_strip (s : string) : string :=
  string_of_list_ascii
    (rev (drop_leading py_isspace (rev (drop_leading py_isspace (list_ascii_of_string s))))).

Definition spec_slug (s : string) : string :=
  spec_strip
    (string_filter (fun c => negb (Ascii.eqb c "*"))
       (string_map (fun c => if Ascii.eqb c " " then "_"%char else c)
          (string_map py_lower_char s))) +:+ ".json".

(* ================================================================== *)
(** ** Scalar values, dates and times *)
(* ================================================================== *)

(** [datetime.date] and a naive [datetime.datetime]. *)
Record date := Date { d_year : N; d_month : N; d_day : N }.

Record datetime := DateTime {
  dt_date : date;
  dt_hour : N;
  dt_minute : N;
  dt_second : N;
  dt_microsecond : N
}.

(** What a cell of a row can hold. *)
Inductive value :=
| VNull
| VBool (b : bool)
| VInt (z : Z)
| VFloat (repr : string)
| VStr (s : string)
| VDate (d : date)
| VDateTime (t : datetime).

#[global] Instance date_eq_dec : EqDecision date.
Proof. solve_decision. Defined.

#[global] Instance datetime_eq_dec : EqDecision datetime.
Proof. solve_decision. Defined.

#[global] Instance value_eq_dec : EqDecision value.
Proof. solve_decision. Defined.

Definition is_leap (y : N) : bool :=
  (y mod 4 =? 0) && (negb (y mod 100 =? 0) || (y mod 400 =? 0)).

Definition days_in_month (y m : N) : N :=
  match m with
  | 1 | 3 | 5 | 7 | 8 | 10 | 12 => 31
  | 4 | 6 | 9 | 11 => 30
  | 2 => if is_leap y then 29 else 28
  | _ => 0
  end.

(** The dates and times Python can construct. *)
Definition valid_date (d : date) : bool :=
  in_range 1 9999 (d_year d) && in_range 1 12 (d_month d) &&
  in_range 1 (days_in_month (d_year d) (d_month d)) (d_day d).

Definition valid_datetime (t : datetime) : bool :=
  valid_date (dt_date t) && (dt_hour t <? 24) && (dt_minute t <? 60) &&
  (dt_second t <? 60) && (dt_microsecond t <? 1000000).

Definition digit_char (n : N) : ascii := ascii_of_N (48 + n).

Definition digit_val (c : ascii) : option N :=
  if in_range 48 57 (code c) then Some (code c - 48) else None.

(** ["%0wd" % n] for [n < 10^w]. *)
Fixpoint zero_pad (w : nat) (n : N) : string :=
  match w with
  | O => EmptyString
  | S w' => zero_pad w' (n / 10) +:+ String (digit_char (n mod 10)) EmptyString
  end.

(** [date.isoformat()]: YYYY-MM-DD. *)
Definition date_isoformat (d : date) : string :=
  zero_pad 4 (d_year d) +:+ "-" +:+ zero_pad 2 (d_month d) +:+ "-" +:+ zero_pad 2 (d_day d).

Definition time_isoformat (t : datetime) : string :=
  zero_pad 2 (dt_hour t) +:+ ":" +:+ zero_pad 2 (dt_minute t) +:+ ":" +:+
  zero_pad 2 (dt_second t) +:+
  (if dt_microsecond t =? 0 then EmptyString else "." +:+ zero_pad 6 (dt_microsecond t)).

(** [datetime.isoformat()]: the date, [T], the time, and the microseconds
    when they are not zero. *)
Definition datetime_isoformat (t : datetime) : string :=
  date_isoformat (dt_date t) +:+ "T" +:+ time_isoformat t.

(** Reads exactly [w] decimal digits off the front of [s]. *)
Fixpoint take_digits (w : nat) (s : string) : option (N * string) :=
  match w with
  | O => Some (0, s)
  | S w' =>
      match take_digits w' s with
      | Some (hi, String c rest) =>
          match digit_val c with
          | Some d => Some (10 * hi + d, rest)
          | None => None
          end
      | _ => None
      end
  end.

Definition expect (c : ascii) (s : string) : option string :=
  match s with
  | String c' rest => if Ascii.eqb c c' then Some rest else None
  | EmptyString => None
  end.

Definition parse_date_prefix (s : string) : option (date * string) :=
  '(y, s) ← take_digits 4 s;
  s ← expect "-" s;
  '(m, s) ← take_digits 2 s;
  s ← expect "-" s;
  '(d, s) ← take_digits 2 s;
  Some (Date y m d, s).

(** A string that is exactly YYYY-MM-DD and names a real date. *)
Definition parse_date (s : string) : option date :=
  match parse_date_prefix s with
  | Some (d, EmptyString) => if valid_date d then Some d else None
  | _ => None
  end.

Definition parse_fraction (s : string) : option N :=
  match s with
  | EmptyString => Some 0
  | _ =>
      s ← expect "." s;
      match take_digits 6 s with
      | Some (us, EmptyString) => Some us
      | _ => None
      end
  end.

(** A string that is exactly YYYY-MM-DDTHH:MM:SS, optionally followed by
    a dot and six digits, and names a real date and time. *)
Definition parse_datetime (s : string) : option datetime :=
  '(d, s) ← parse_date_prefix s;
  s ← expect "T" s;
  '(h, s) ← take_digits 2 s;
  s ← expect ":" s;
  '(mi, s) ← take_digits 2 s;
  s ← expect ":" s;
  '(se, s) ← take_digits 2 s;
  us ← parse_fraction s;
  let t := DateTime d h mi se us in
  if valid_datetime t then Some t else None.

(* ================================================================== *)
(** ** Ordered dictionaries *)
(* ================================================================== *)

(** [d[k]] on a dict kept in insertion order. *)
Fixpoint dict_get {A : Type} (k : string) (d : list (string * A)) : option A :=
  match d with
  | [] => None
  | (k', v) :: d' => if String.eqb k k' then Some v else dict_get k d'
  end.

(** [d[k] = v]: a key already present keeps its place. *)
Fixpoint dict_set {A : Type} (k : string) (v : A) (d : list (string * A)) : list (string * A) :=
  match d with
  | [] => [(k, v)]
  | (k', v') :: d' =>
      if String.eqb k k' then (k, v) :: d' else (k', v') :: dict_set k v d'
  end.

Definition dict_remove {A : Type} (k : string) (d : list (string * A)) : list (string * A) :=
  List.filter (fun kv => negb (String.eqb k kv.1)) d.

Definition dict_keys {A : Type} (d : list (string * A)) : list string := map fst d.

(* ================================================================== *)
(** ** The JSON codec *)
(* ================================================================== *)

(** A JSON scalar; an integer and a float are told apart as [json.load]
    tells them apart. *)
Inductive jscalar :=
| JNull
| JBool (b : bool)
| JInt (z : Z)
| JFloat (repr : string)
| JStr (s : string).

#[global] Instance jscalar_eq_dec : EqDecision jscalar.
Proof. solve_decision. Defined.

(** A row is a Python dict from column name to value; a document maps a
    table name to the rows gathered from that table, in insertion order. *)
Abbreviation row := (gmap string value).
Abbreviation jrow := (gmap string jscalar).
Abbreviation document := (list (string * list row)).
Abbreviation jdocument := (list (string * list jrow)).

(** Modelled from the spec: [utils.json_serializer], the [default] hook of
    [json.dumps], is not among the sources.  It renders a date or a
    date-time as its ISO-8601 string; [json.dumps] calls it for no other
    value of this model. *)
Definition json_serializer (v : value) : jscalar :=
  match v with
  | VDate d => JStr (date_isoformat d)
  | VDateTime t => JStr (datetime_isoformat t)
  | _ => JNull
  end.

(** [json.dumps(..., default=json_serializer)] on one cell. *)
Definition dumps_scalar (v : value) : jscalar :=
  match v with
  | VNull => JNull
  | VBool b => JBool b
  | VInt z => JInt z
  | VFloat r => JFloat r
  | VStr s => JStr s
  | VDate _ | VDateTime _ => json_serializer v
  end.

Definition dumps_row (r : row) : jrow := dumps_scalar <$> r.

Definition dumps_document (d : document) : jdocument :=
  map (fun kv => (kv.1, map dumps_row kv.2)) d.

(** Plain [json.load] on one cell. *)
Definition loads_scalar (j : jscalar) : value :=
  match j with
  | JNull => VNull
  | JBool b => VBool b
  | JInt z => VInt z
  | JFloat r => VFloat r
  | JStr s => VStr s
  end.

Definition loads_row (r : jrow) : row := loads_scalar <$> r.

(** Modelled from the spec: [utils.datetime_json_parser], the
    [object_hook] of [json.load], is not among the sources.  On every
    parsed object it turns a string value that matches the date-time or
    the date pattern into the native value; every other value passes
    through unchanged. *)
Definition restore_datetime (v : value) : value :=
  match v with
  | VStr s =>
      match parse_datetime s with
      | Some t => VDateTime t
      | None =>
          match parse_date s with
          | Some d => VDate d
          | None => VStr s
          end
      end
  | _ => v
  end.

Definition datetime_json_parser (r : row) : row := restore_datetime <$> r.

(** [json.load(f, object_hook=datetime_json_parser)] on a document: the
    pairs of the outer object are collected into a dict, a repeated key
    keeping its first place and its last value; the hook runs on every
    row, and on the outer object it finds only arrays and leaves them
    alone. *)
Definition loads_document (j : jdocument) : document :=
  fold_left
    (fun d kv => dict_set kv.1 (map (fun r => datetime_json_parser (loads_row r)) kv.2) d)
    j [].

(** The values the codec returns unchanged. *)
Definition codec_stable (v : value) : bool :=
  match v with
  | VStr s => bool_decide (parse_datetime s = None) && bool_decide (parse_date s = None)
  | VDate d => valid_date d
  | VDateTime t => valid_datetime t
  | _ => true
  end.

Definition row_stable (r : row) : bool :=
  bool_decide (map_Forall (fun _ v => codec_stable v = true) r).

Definition document_stable (d : document) : bool :=
  forallb (fun kv => forallb row_stable kv.2) d.

(** An association list that stands for a dict binds each key once. *)
Definition is_dict {A : Type} (d : list (string * A)) : bool :=
  bool_decide (NoDup (dict_keys d)).

(* ================================================================== *)
(** ** Errors and the two monads *)
(* ================================================================== *)

(** The exceptions the modelled code can raise. *)
Inductive error :=
| KeyError (key : string)
| IndexError
| AttributeError (name : string)
| TypeError
| JSONDecodeError
| OSError (name : string)
| CompileError (table : string)
| IntegrityError (table : string).

Inductive result (A : Type) :=
| Ok (a : A)
| Raise (e : error).

Arguments Ok {A} a.
Arguments Raise {A} e.

#[global] Instance result_ret : MRet result := fun A a => Ok a.

#[global] Instance result_bind : MBind result :=
  fun A B f m => match m with Ok a => f a | Raise e => Raise e end.

(** A computation over a state [S] that may raise; the state reached when
    the exception left the computation is kept. *)
Definition ST (S A : Type) : Type := S -> result A * S.

#[global] Instance st_ret (S : Type) : MRet (ST S) := fun A a s => (Ok a, s).

#[global] Instance st_bind (S : Type) : MBind (ST S) :=
  fun A B f m s =>
    match m s with
    | (Ok a, s') => f a s'
    | (Raise e, s') => (Raise e, s')
    end.

Definition raise {S A : Type} (e : error) : ST S A := fun s => (Raise e, s).

Definition lift {S A : Type} (r : result A) : ST S A := fun s => (r, s).

(** [for x in xs: body(x)] *)
Fixpoint for_each {S A : Type} (xs : list A) (body : A -> ST S unit) : ST S unit :=
  match xs with
  | [] => mret tt
  | x :: xs' => body x;; for_each xs' body
  end.

(** The same loop in a read-only method, threading the value it builds. *)
Fixpoint fold_result {A B : Type} (f : B -> A -> result B) (xs : list A) (b : B) : result B :=
  match xs with
  | [] => Ok b
  | x :: xs' => b' ← f b x; fold_result f xs' b'
  end.

Fixpoint map_result {A B : Type} (f : A -> result B) (xs : list A) : result (list B) :=
  match xs with
  | [] => Ok []
  | x :: xs' => y ← f x; ys ← map_result f xs'; Ok (y :: ys)
  end.

(* ================================================================== *)
(** ** The relational store *)
(* ================================================================== *)

(** [ForeignKey('Table.column')] declared on a column. *)
Record foreign_key_constraint := ForeignKey {
  fk_column : string;
  fk_table : string;
  fk_target : string
}.

Record table := Table {
  columns : list string;
  constraints : list foreign_key_constraint;
  rows : list row
}.

(** The [Database] object: the reflected tables in the order
    [metadata.tables] yields them, the order [metadata.sorted_tables]
    reports, the four schema settings, and whether the store enforces
    foreign keys. *)
Record Database := {
  tables : list (string * table);
  sorted_tables : list string;
  reference_tables : list string;
  primary_table : string;
  primary_table_key : string;
  foreign_key : string;
  sqlite_foreign : bool
}.

Definition with_tables (db : Database) (ts : list (string * table)) : Database :=
  {| tables := ts;
     sorted_tables := sorted_tables db;
     reference_tables := reference_tables db;
     primary_table := primary_table db;
     primary_table_key := primary_table_key db;
     foreign_key := foreign_key db;
     sqlite_foreign := sqlite_foreign db |}.

Definition with_rows (t : table) (rs : list row) : table :=
  {| columns := columns t; constraints := constraints t; rows := rs |}.

(** [metadata.tables[name]] *)
Definition get_table (db : Database) (name : string) : result table :=
  match dict_get name (tables db) with
  | Some t => Ok t
  | None => Raise (KeyError name)
  end.

(** [column == x] as the store evaluates it: SQLAlchemy renders a
    comparison with [None] as [IS NULL]; any other comparison is never true
    of a NULL cell. *)
Definition sql_eq (cell x : value) : bool :=
  match x with
  | VNull => bool_decide (cell = VNull)
  | _ =>
      match cell with
      | VNull => false
      | _ => bool_decide (cell = x)
      end
  end.

Definition cell_matches (column : string) (x : value) (r : row) : bool :=
  match r !! column with
  | Some v => sql_eq v x
  | None => false
  end.

(** [session.query(table).filter(column == x).all()] *)
Definition query_filter (t : table) (column : string) (x : value) : list row :=
  List.filter (cell_matches column x) (rows t).

(* ================================================================== *)
(** ** Inventory *)
(* ================================================================== *)

(** [Database._row_cleanup]: the row as a dict, without the foreign key
    column; [del] raises when the key is missing. *)
Definition _row_cleanup (db : Database) (r : row) : result row :=
  match r !! foreign_key db with
  | Some _ => Ok (delete (foreign_key db) r)
  | None => Raise (KeyError (foreign_key db))
  end.

(** [Database._inventory_query]; the updated [data_dict] is returned. *)
Definition _inventory_query (db : Database) (data_dict : document)
    (table_name : string) (source_name : value) : result document :=
  t ← get_table db table_name;
  let column :=
    if String.eqb table_name (primary_table db)
    then primary_table_key db else foreign_key db in
  if bool_decide (column ∈ columns t) then
    let results := query_filter t column source_name in
    match results with
    | [] => Ok data_dict
    | _ =>
        if String.eqb table_name (primary_table db)
        then Ok (dict_set table_name results data_dict)
        else
          cleaned ← map_result (_row_cleanup db) results;
          Ok (dict_set table_name cleaned data_dict)
    end
  else Raise (KeyError column).

(** [Database.inventory] *)
Definition inventory (db : Database) (name : value) : result document :=
  data_dict ← _inventory_query db [] (primary_table db) name;
  fold_result
    (fun data_dict table =>
       if bool_decide (table ∈ reference_tables db ++ [primary_table db])
       then Ok data_dict
       else _inventory_query db data_dict table name)
    (dict_keys (tables db)) data_dict.

(** What [_inventory_query] records for one table: the matching rows,
    cleaned up unless the table is the primary one; nothing when no row
    matches or the table is unknown. *)
Definition key_column (db : Database) (table_name : string) : string :=
  if String.eqb table_name (primary_table db)
  then primary_table_key db else foreign_key db.

Definition entry_of (db : Database) (x : value) (table_name : string) : option (list row) :=
  match dict_get table_name (tables db) with
  | None => None
  | Some t =>
      match query_filter t (key_column db table_name) x with
      | [] => None
      | rs =>
          Some (if String.eqb table_name (primary_table db)
                then rs else map (delete (foreign_key db)) rs)
      end
  end.

Definition record_entry (d : document) (table_name : string) (e : option (list row)) : document :=
  match e with
  | Some rs => dict_set table_name rs d
  | None => d
  end.

Definition skipped (db : Database) (table_name : string) : bool :=
  bool_decide (table_name ∈ reference_tables db ++ [primary_table db]).

(** The document [inventory] assembles when no lookup fails. *)
Definition inventory_document (db : Database) (x : value) : document :=
  fold_left
    (fun d table => if skipped db table then d else record_entry d table (entry_of db x table))
    (dict_keys (tables db))
    (record_entry [] (primary_table db) (entry_of db x (primary_table db))).

Definition has_column (db : Database) (table_name column : string) : bool :=
  match dict_get table_name (tables db) with
  | Some t => bool_decide (column ∈ columns t)
  | None => false
  end.

(** The schema invariant of the specification: the primary table exists
    and has the identity column, and every table that is neither the
    primary table nor a reference table has the foreign key column. *)
Definition schema_ok (db : Database) : bool :=
  has_column db (primary_table db) (primary_table_key db) &&
  forallb (fun name => skipped db name || has_column db name (foreign_key db))
    (dict_keys (tables db)).

(** Every row of a data table belongs to a row of the primary table. *)
Definition children_belong (db : Database) : bool :=
  forallb
    (fun nt : string * table =>
       skipped db nt.1 ||
       forallb
         (fun r : row =>
            match r !! foreign_key db with
            | Some v =>
                match dict_get (primary_table db) (tables db) with
                | Some p =>
                    existsb (fun s : row => bool_decide (s !! primary_table_key db = Some v)) (rows p)
                | None => false
                end
            | None => true
            end)
         (rows nt.2))
    (tables db).

(* ================================================================== *)
(** ** Statements and transactions *)
(* ================================================================== *)

(** What reaches the store, in order. *)
Inductive event :=
| Begin
| Commit
| Rollback
| Insert (table_name : string) (values : list row)
| Delete (table_name : string).

(** A method that writes to the store: the database and the statements
    sent so far. *)
Abbreviation Exec := (ST (Database * list event)).

Definition emit (e : event) : Exec unit :=
  fun s => (Ok tt, (s.1, s.2 ++ [e])).

(** A stored row has every column of its table; a column the statement
    does not name is NULL. *)
Definition complete_row (cols : list string) (r : row) : row :=
  r ∪ gset_to_gmap VNull (list_to_set cols).

Definition is_referenced (v : value) (column : string) (targets : list row) : bool :=
  existsb (fun s : row => bool_decide (s !! column = Some v)) targets.

(** Every foreign key of the new rows of table [t] is NULL or finds its
    row in the referenced table. *)
Definition references_hold (ts : list (string * table)) (t : table) (new_rows : list row) : bool :=
  forallb
    (fun c =>
       forallb
         (fun r : row =>
            match r !! fk_column c with
            | None | Some VNull => true
            | Some v =>
                match dict_get (fk_table c) ts with
                | Some target => is_referenced v (fk_target c) (rows target)
                | None => false
                end
            end)
         new_rows)
    (constraints t).

(** Some remaining row still refers to one of the rows deleted from
    [table_name]. *)
Definition still_referenced (ts : list (string * table)) (table_name : string)
    (deleted : list row) : bool :=
  existsb
    (fun nt : string * table =>
       existsb
         (fun c =>
            String.eqb (fk_table c) table_name &&
            existsb
              (fun r : row =>
                 match r !! fk_column c with
                 | None | Some VNull => false
                 | Some v => is_referenced v (fk_target c) deleted
                 end)
              (rows nt.2))
         (constraints nt.2))
    ts.

(** The store's side of [INSERT INTO t VALUES ...], as far as this model
    goes: the statement must name columns of the table, and the declared
    foreign keys are checked when they are enforced.  Column types,
    primary keys, uniqueness and NOT NULL are not modelled, so the store
    can refuse a statement that passes here; what is proved about an
    import is therefore stated for the import that completes, or holds
    whether it completes or not. *)
Definition insert_rows (db : Database) (table_name : string) (t : table)
    (values : list row) : result Database :=
  if forallb (fun r : row => bool_decide (dom r ⊆ list_to_set (columns t))) values then
    let new_rows := map (complete_row (columns t)) values in
    let ts := dict_set table_name (with_rows t (rows t ++ new_rows)) (tables db) in
    if sqlite_foreign db && negb (references_hold ts t new_rows)
    then Raise (IntegrityError table_name)
    else Ok (with_tables db ts)
  else Raise (CompileError table_name).

(** The store's side of [DELETE FROM t]. *)
Definition delete_rows (db : Database) (table_name : string) (t : table) : result Database :=
  let ts := dict_set table_name (with_rows t []) (tables db) in
  if sqlite_foreign db && still_referenced ts table_name (rows t)
  then Raise (IntegrityError table_name)
  else Ok (with_tables db ts).

(** [conn.execute(self.metadata.tables[name].insert().values(values))] *)
Definition execute_insert (table_name : string) (values : list row) : Exec unit :=
  fun s =>
    match get_table s.1 table_name with
    | Raise e => (Raise e, s)
    | Ok t =>
        let log := s.2 ++ [Insert table_name values] in
        match insert_rows s.1 table_name t values with
        | Ok db' => (Ok tt, (db', log))
        | Raise e => (Raise e, (s.1, log))
        end
    end.

(** [conn.execute(self.metadata.tables[name].delete())] *)
Definition execute_delete (table_name : string) : Exec unit :=
  fun s =>
    match get_table s.1 table_name with
    | Raise e => (Raise e, s)
    | Ok t =>
        let log := s.2 ++ [Delete table_name] in
        match delete_rows s.1 table_name t with
        | Ok db' => (Ok tt, (db', log))
        | Raise e => (Raise e, (s.1, log))
        end
    end.

(** [with self.engine.begin() as conn: body]: committed when the body
    completes, rolled back when an exception leaves it. *)
Definition transaction (body : Exec unit) : Exec unit :=
  fun s =>
    match body (s.1, s.2 ++ [Begin]) with
    | (Ok _, (db', log)) => (Ok tt, (db', log ++ [Commit]))
    | (Raise e, (_, log)) => (Raise e, (s.1, log ++ [Rollback]))
    end.

(* ================================================================== *)
(** ** The directory of JSON files *)
(* ================================================================== *)

(** What a file holds: the JSON object [save_json] dumps, the JSON array
    [save_reference_table] dumps, or something else. *)
Inductive file_content :=
| SourceJSON (doc : jdocument)
| TableJSON (values : list jrow)
| OtherText.

#[local] Set Warnings "-register-all".

Inductive node :=
| File (content : file_content)
| Dir (entries : list (string * node)).

#[local] Set Warnings "register-all".

(** A name that denotes an entry of a directory: not empty, not [.] or
    [..], without path separator or NUL.  [os.path.join] and [open] take
    any other file name through other directories ([./x], [../x], an
    absolute path); that walk is outside this model. *)
Definition valid_name (name : string) : bool :=
  negb (String.eqb name "") && negb (String.eqb name ".") && negb (String.eqb name "..") &&
  forallb (fun c => negb (Ascii.eqb c "/") && negb (code c =? 0)) (list_ascii_of_string name).

(** The node at a path below [n]. *)
Fixpoint fs_lookup (p : list string) (n : node) : option node :=
  match p with
  | [] => Some n
  | name :: p' =>
      match n with
      | Dir entries =>
          match dict_get name entries with
          | Some child => fs_lookup p' child
          | None => None
          end
      | File _ => None
      end
  end.

(** [os.path.exists], [os.path.isdir], [os.path.isfile] *)
Definition path_exists (p : list string) (n : node) : bool :=
  match fs_lookup p n with Some _ => true | None => false end.

Definition path_isdir (p : list string) (n : node) : bool :=
  match fs_lookup p n with Some (Dir _) => true | _ => false end.

Definition path_isfile (p : list string) (n : node) : bool :=
  match fs_lookup p n with Some (File _) => true | _ => false end.

(** [os.listdir] *)
Definition listdir (p : list string) (n : node) : result (list string) :=
  match fs_lookup p n with
  | Some (Dir entries) => Ok (dict_keys entries)
  | _ => Raise (OSError "listdir")
  end.

(** [open(path, "r")] followed by reading the whole file. *)
Definition read_file (p : list string) (n : node) : result file_content :=
  match fs_lookup p n with
  | Some (File c) => Ok c
  | _ => Raise (OSError "open")
  end.

(** [open(path, "w")] followed by one [write], for a file name that is
    one path component ([valid_name]): the directory must exist, the name
    must not be a directory.  For any other file name the model answers
    with an error where the file system would resolve the path; the
    theorems about written files assume names of one component. *)
Fixpoint write_file (p : list string) (c : file_content) (n : node) : result node :=
  match p, n with
  | [], File _ => Ok (File c)
  | [], Dir _ => Raise (OSError "open")
  | name :: p', Dir entries =>
      match p', dict_get name entries with
      | [], None =>
          if valid_name name then Ok (Dir (dict_set name (File c) entries))
          else Raise (OSError name)
      | _, Some child =>
          child' ← write_file p' c child;
          Ok (Dir (dict_set name child' entries))
      | _ :: _, None => Raise (OSError name)
      end
  | _ :: _, File _ => Raise (OSError "open")
  end.

(** [os.makedirs]: raises when the path is already there. *)
Fixpoint makedirs (p : list string) (n : node) : result node :=
  match p, n with
  | [], _ => Raise (OSError "makedirs")
  | name :: p', Dir entries =>
      match dict_get name entries with
      | Some child =>
          child' ← makedirs p' child;
          Ok (Dir (dict_set name child' entries))
      | None =>
          if valid_name name then
            match p' with
            | [] => Ok (Dir (dict_set name (Dir []) entries))
            | _ =>
                child' ← makedirs p' (Dir []);
                Ok (Dir (dict_set name child' entries))
            end
          else Raise (OSError name)
      end
  | _ :: _, File _ => Raise (OSError "makedirs")
  end.

(** [os.remove] on a file and [shutil.rmtree] on a directory, for an entry
    of the top directory. *)
Definition remove_entry (name : string) (n : node) : result node :=
  match n with
  | Dir entries => Ok (Dir (dict_remove name entries))
  | File _ => Raise (OSError name)
  end.

Definition reference_directory : string := "reference".
Definition source_directory : string := "source".

(* ================================================================== *)
(** ** Export *)
(* ================================================================== *)

(** [str(v)] *)
Definition py_str (v : value) : string :=
  match v with
  | VNull => "None"
  | VBool true => "True"
  | VBool false => "False"
  | VInt z => pretty z
  | VFloat r => r
  | VStr s => s
  | VDate d => date_isoformat d
  | VDateTime t => date_isoformat (dt_date t) +:+ " " +:+ time_isoformat t
  end.

(** The first argument of [save_json]: a name, or a row of the primary
    table. *)
Inductive source_ref :=
| ByName (name : string)
| ByRow (r : row).

(** [Database.save_json]; [directory] is a path below the top directory. *)
Definition save_json (db : Database) (name : source_ref) (directory : list string) : ST node unit :=
  fun fs =>
    let found :=
      match name with
      | ByName s => data ← inventory db (VStr s); Ok (s, data)
      | ByRow r =>
          match r !! primary_table_key db with
          | Some v => data ← inventory db v; Ok (py_str v, data)
          | None => Raise (AttributeError (primary_table_key db))
          end
      end in
    match found with
    | Raise e => (Raise e, fs)
    | Ok (source_name, data) =>
        let filename := json_filename source_name in
        match write_file (directory ++ [filename]) (SourceJSON (dumps_document data)) fs with
        | Ok fs' => (Ok tt, fs')
        | Raise e => (Raise e, fs)
        end
    end.

(** The file name [save_json] derives from its first argument, when the
    row has the identity column. *)
Definition written_name (db : Database) (name : source_ref) : option string :=
  match name with
  | ByName s => Some (json_filename s)
  | ByRow r =>
      match r !! primary_table_key db with
      | Some v => Some (json_filename (py_str v))
      | None => None
      end
  end.

Definition run_fs (f : node -> result node) : ST node unit :=
  fun fs => match f fs with Ok fs' => (Ok tt, fs') | Raise e => (Raise e, fs) end.

(** [Database.save_reference_table] *)
Definition save_reference_table (db : Database) (table_name : string) : ST node unit :=
  (fun fs =>
     if path_isdir [reference_directory] fs then (Ok tt, fs)
     else run_fs (makedirs [reference_directory]) fs);;
  t ← lift (get_table db table_name);
  let data := rows t in
  let filename := table_name +:+ ".json" in
  match data with
  | [] => mret tt
  | _ => run_fs (write_file [reference_directory; filename] (TableJSON (map dumps_row data)))
  end.

(** [Database.save_database] *)
Definition save_database (db : Database) (clear_first : bool) : ST node unit :=
  (if clear_first then
     files ← (fun fs => (listdir [] fs, fs));
     for_each files
       (fun file fs =>
          if path_isfile [file] fs then run_fs (remove_entry file) fs
          else if path_isdir [file] fs then run_fs (remove_entry file) fs
          else (Ok tt, fs))
   else mret tt);;
  (fun fs =>
     if path_isdir [reference_directory] fs then (Ok tt, fs)
     else run_fs (makedirs [reference_directory]) fs);;
  (fun fs =>
     if path_isdir [source_directory] fs then (Ok tt, fs)
     else run_fs (makedirs [source_directory]) fs);;
  for_each (reference_tables db)
    (fun table_name =>
       if bool_decide (table_name ∈ dict_keys (tables db))
       then save_reference_table db table_name
       else mret tt);;
  primary ← lift (get_table db (primary_table db));
  for_each (rows primary) (fun r => save_json db (ByRow r) [source_directory]).

(* ================================================================== *)
(** ** Import *)
(* ================================================================== *)

(** [Database.load_table]; [directory] is a path below the top directory. *)
Definition load_table (db_table : string) (directory : list string) (fs : node) : Exec unit :=
  let filename := directory ++ [db_table +:+ ".json"] in
  if path_exists filename fs then
    content ← lift (read_file filename fs);
    match content with
    | TableJSON values => transaction (execute_insert db_table (map loads_row values))
    | SourceJSON _ => raise TypeError
    | OtherText => raise JSONDecodeError
    end
  else mret tt.

(** [Database.load_json] *)
Definition load_json (filename : list string) (fs : node) : Exec unit :=
  content ← lift (read_file filename fs);
  data ← lift (match content with
               | SourceJSON j => Ok (loads_document j)
               | TableJSON _ => Raise TypeError
               | OtherText => Raise JSONDecodeError
               end);
  ((fun s =>
    let db := s.1 in
    match dict_get (primary_table db) data with
    | None => (Raise (KeyError (primary_table db)), s)
    | Some [] => (Raise IndexError, s)
    | Some ((first :: _) as primary_rows) =>
        match first !! primary_table_key db with
        | None => (Raise (KeyError (primary_table_key db)), s)
        | Some source =>
            transaction
              (execute_insert (primary_table db) primary_rows;;
               for_each data
                 (fun kv =>
                    if String.eqb kv.1 (primary_table db) then mret tt
                    else
                      for_each kv.2
                        (fun v => execute_insert kv.1 [<[foreign_key db := source]> v])))
              s
        end
    end) : Exec unit).

(** [Database.load_database], first block: every table is emptied, in the
    reverse of the order [metadata.sorted_tables] reports, each in its own
    transaction. *)
Definition clear_tables : Exec unit :=
  sorted ← (fun s => (Ok (sorted_tables s.1), s));
  for_each (reverse sorted) (fun table_name => transaction (execute_delete table_name)).

(** Second block: the reference tables, from [reference/] or else from the
    top directory. *)
Definition load_reference_tables (fs : node) : Exec unit :=
  refs ← (fun s => (Ok (reference_tables s.1), s));
  for_each refs
    (fun table_name =>
       if path_exists [reference_directory; table_name +:+ ".json"] fs
       then load_table table_name [reference_directory] fs
       else load_table table_name [] fs).

(** Third block: every source file of [source/], or else of the top
    directory. *)
Definition load_sources (fs : node) : Exec unit :=
  refs ← (fun s => (Ok (reference_tables s.1), s));
  let directory_of_sources :=
    if path_exists [source_directory] fs then [source_directory] else [] in
  files ← lift (listdir directory_of_sources fs);
  for_each files
    (fun file =>
       let core_name := py_replace ".json" "" file in
       if bool_decide (core_name ∈ refs) then mret tt
       else if negb (py_endswith ".json" file) || py_startswith "." file then mret tt
       else load_json (directory_of_sources ++ [file]) fs).

(** [Database.load_database] *)
Definition load_database (fs : node) : Exec unit :=
  clear_tables;; load_reference_tables fs;; load_sources fs.

(** The statements [load_json] sends for the entries other than the
    primary table's. *)
Definition child_statements (primary fk : string) (source : value) (data : document) :
    list (string * list row) :=
  flat_map
    (fun kv : string * list row =>
       if String.eqb kv.1 primary then []
       else map (fun v : row => (kv.1, [<[fk := source]> v])) kv.2)
    data.

Definition event_of (stmt : string * list row) : event := Insert stmt.1 stmt.2.

(** [I] holds after [m] whenever it held before, also when [m] raises. *)
Definition preserves {S A : Type} (I : S -> Prop) (m : ST S A) : Prop :=
  forall s, I s -> I (m s).2.


(* ================================================================== *)
(** ** The contract of [sorted_tables] *)
(* ================================================================== *)

Definition constraints_of (db : Database) (table_name : string) : list foreign_key_constraint :=
  match dict_get table_name (tables db) with
  | Some t => constraints t
  | None => []
  end.

(** What SQLAlchemy promises of [metadata.sorted_tables] when the foreign
    keys form no cycle: every table is listed once, and a table is listed
    after every other table it references. *)
Definition lists_every_table (db : Database) : bool :=
  bool_decide (NoDup (sorted_tables db)) &&
  bool_decide (NoDup (dict_keys (tables db))) &&
  forallb (fun name => bool_decide (name ∈ sorted_tables db)) (dict_keys (tables db)) &&
  forallb (fun name => bool_decide (name ∈ dict_keys (tables db))) (sorted_tables db).

Definition sorted_tables_ok (db : Database) : bool :=
  lists_every_table db &&
  forallb
    (fun j =>
       match sorted_tables db !! j with
       | Some u =>
           forallb
             (fun c =>
                String.eqb (fk_table c) u ||
                negb (bool_decide (fk_table c ∈ dict_keys (tables db))) ||
                bool_decide (fk_table c ∈ take j (sorted_tables db)))
             (constraints_of db u)
       | None => true
       end)
    (seq 0 (List.length (sorted_tables db))).

(** What no statement changes: the declaration of every table and the
    settings of the [Database] object. *)
Definition declaration (t : table) : list string * list foreign_key_constraint :=
  (columns t, constraints t).

Definition schema (db : Database) :=
  (map (fun nt : string * table => (nt.1, declaration nt.2)) (tables db),
   sorted_tables db, reference_tables db,
   primary_table db, primary_table_key db, foreign_key db, sqlite_foreign db).

Definition rows_of (db : Database) (table_name : string) : list row :=
  match dict_get table_name (tables db) with
  | Some t => rows t
  | None => []
  end.


(* ================================================================== *)
(** ** What an export holds *)
(* ================================================================== *)

(** The directory [save_database] leaves: two sub-directories. *)
Definition layout (refs srcs : list (string * node)) : node :=
  Dir [(reference_directory, Dir refs); (source_directory, Dir srcs)].

(** The identity values of the sources, in the order the store yields
    them. *)
Definition identities (db : Database) : list value :=
  omap (fun r : row => r !! primary_table_key db) (rows_of db (primary_table db)).

Definition reference_file (db : Database) (acc : list (string * node)) (R : string) :
    list (string * node) :=
  match dict_get R (tables db) with
  | Some t =>
      match rows t with
      | [] => acc
      | _ => dict_set (R +:+ ".json") (File (TableJSON (map dumps_row (rows t)))) acc
      end
  | None => acc
  end.

Definition reference_files (db : Database) : list (string * node) :=
  fold_left (reference_file db) (reference_tables db) [].

Definition source_name (v : value) : string := json_filename (py_str v).

Definition source_content (db : Database) (v : value) : node :=
  File (SourceJSON (dumps_document (inventory_document db v))).

Definition source_files (db : Database) : list (string * node) :=
  fold_left (fun acc v => dict_set (source_name v) (source_content db v) acc)
    (identities db) [].

(** A directory that holds files only. *)
Definition files_only (es : list (string * node)) : Prop :=
  forall k n, dict_get k es = Some n -> exists c, n = File c.

(** What [reference/R.json] holds after an export, if anything. *)
Definition reference_content (db : Database) (R : string) : option node :=
  match dict_get R (tables db) with
  | Some t =>
      match rows t with
      | [] => None
      | _ => Some (File (TableJSON (map dumps_row (rows t))))
      end
  | None => None
  end.

(** Every stored row has exactly the columns of its table. *)
Definition rows_wellformed (db : Database) : bool :=
  forallb
    (fun nt : string * table =>
       forallb (fun r : row => bool_decide (dom r = list_to_set (columns nt.2))) (rows nt.2))
    (tables db).

(** The rows of the primary table and of the data tables come back from
    the codec unchanged. *)
Definition rows_stable (db : Database) : bool :=
  forallb
    (fun nt : string * table =>
       bool_decide (nt.1 ∈ reference_tables db) || forallb row_stable (rows nt.2))
    (tables db).

(** The file names of the export: every reference table and every source
    gets a name the directory accepts; a source file is not hidden and is
    not taken for a reference table; two sources share a file only when
    they share their identity. *)
Definition filenames_ok (db : Database) : bool :=
  forallb (fun R => valid_name (R +:+ ".json")) (reference_tables db) &&
  forallb
    (fun v =>
       valid_name (source_name v) &&
       negb (py_startswith "." (source_name v)) &&
       negb (bool_decide (py_replace ".json" "" (source_name v) ∈ reference_tables db)) &&
       forallb (fun w => bool_decide (source_name w = source_name v -> w = v)) (identities db))
    (identities db).

(** Every file name an export derives is one path component: the name of
    each reference table followed by [.json], and the file name of each
    source. *)
Definition plain_names (db : Database) : bool :=
  forallb (fun R => valid_name (R +:+ ".json")) (reference_tables db) &&
  forallb (fun v => valid_name (source_name v)) (identities db).

(** The stores the round trip is stated for. *)
Definition exportable (db : Database) : bool :=
  schema_ok db && lists_every_table db && rows_wellformed db && rows_stable db &&
  filenames_ok db && negb (bool_decide (primary_table db ∈ reference_tables db)).

(** Runs of a store method from a state that satisfies [P]: when the run
    raises nothing it ends in a state that satisfies [Q], and it raises
    nothing when foreign keys are not enforced ([lenient]). *)
Definition triple (lenient : Prop) (P : Database -> Prop) (m : Exec unit)
    (Q : Database -> Prop) : Prop :=
  forall d log, P d ->
    ((m (d, log)).1 = Ok tt -> Q (m (d, log)).2.1) /\
    (lenient -> (m (d, log)).1 = Ok tt).

(** A statement that names a table of the store and gives every row
    exactly the columns of that table. *)
Definition statement_ok (db : Database) (st : string * list row) : Prop :=
  exists t, dict_get st.1 (tables db) = Some t /\
            Forall (fun r : row => dom r = list_to_set (columns t)) st.2.

(** The rows a run of statements adds to table [T]. *)
Definition rows_added (T : string) (stmts : list (string * list row)) : list row :=
  flat_map (fun st : string * list row => if String.eqb st.1 T then st.2 else []) stmts.

(** The statements [load_json] sends for the file of source [v]. *)
Definition source_statements (db : Database) (v : value) (primary_rows : list row) :
    list (string * list row) :=
  (primary_table db, primary_rows) ::
  child_statements (primary_table db) (foreign_key db) v (inventory_document db v).

(** Gathered so far: for every table of the inventory, the rows of the
    sources already imported. *)
Definition gathered (db : Database) (done : list value) (d : Database) : Prop :=
  schema d = schema db /\
  forall T, T = primary_table db \/ skipped db T = false ->
    rows_of d T =
    flat_map (fun v => List.filter (cell_matches (key_column db T) v) (rows_of db T)) done.

(** Table [u] holds a foreign key into another table [t] of the store. *)
Definition depends_on (db : Database) (u t : string) : Prop :=
  u <> t /\ t ∈ dict_keys (tables db) /\
  exists c, In c (constraints_of db u) /\ fk_table c = t.

(* ================================================================== *)
(** ** Sample data *)
(* ================================================================== *)

Definition sample_document : document :=
  [("Sources",
    [ {[ "source" := VStr "2MASS J13571237+1428398";
         "ra" := VFloat "209.301675";
         "epoch" := VDate (Date 2010 5 31);
         "modified" := VDateTime (DateTime (Date 2024 2 29) 23 59 7 250000);
         "adopted" := VBool true;
         "comments" := VNull ]} ]);
   ("Photometry",
    [ {[ "band" := VStr "WISE_W1"; "magnitude" := VFloat "13.348"; "n_obs" := VInt 12 ]} ])].


(** The store of the test suite, over the tables of [schema.py]. *)
Definition publications : table :=
  Table ["name"; "bibcode"; "doi"; "description"] []
    [ {[ "name" := VStr "Schm10"; "bibcode" := VStr "2010AJ....139.1808S";
         "doi" := VStr "10.1088/0004-6256/139/5/1808";
         "description" := VStr "Colors and Kinematics of L Dwarfs From the Sloan Digital Sky Survey" ]};
      {[ "name" := VStr "Cutr12"; "bibcode" := VStr "2012yCat.2311....0C";
         "doi" := VNull; "description" := VStr "WISE All-Sky Data Release" ]} ].

Definition telescopes : table :=
  Table ["name"; "reference"] [ForeignKey "reference" "Publications" "name"]
    [ {[ "name" := VStr "WISE"; "reference" := VNull ]} ].

Definition instruments : table :=
  Table ["name"; "reference"] [ForeignKey "reference" "Publications" "name"] [].

Definition sources : table :=
  Table ["source"; "ra"; "dec"; "shortname"; "reference"; "comments"]
    [ForeignKey "reference" "Publications" "name"]
    [ {[ "source" := VStr "2MASS J13571237+1428398"; "ra" := VFloat "209.301675";
         "dec" := VFloat "14.477722"; "shortname" := VStr "1357+1428";
         "reference" := VStr "Schm10"; "comments" := VNull ]} ].

Definition names : table :=
  Table ["source"; "other_name"] [ForeignKey "source" "Sources" "source"]
    [ {[ "source" := VStr "2MASS J13571237+1428398";
         "other_name" := VStr "SDSS J135712.40+142839.8" ]};
      {[ "source" := VStr "2MASS J13571237+1428398";
         "other_name" := VStr "2MASS J13571237+1428398" ]} ].

Definition photometry_row (band magnitude magnitude_error : string) : row :=
  {[ "source" := VStr "2MASS J13571237+1428398"; "band" := VStr band;
     "magnitude" := VFloat magnitude; "magnitude_error" := VFloat magnitude_error;
     "system" := VNull; "telescope" := VStr "WISE"; "instrument" := VNull;
     "epoch" := VNull; "comments" := VNull; "reference" := VStr "Cutr12" ]}.

Definition photometry : table :=
  Table ["source"; "band"; "magnitude"; "magnitude_error"; "system"; "telescope";
         "instrument"; "epoch"; "comments"; "reference"]
    [ ForeignKey "source" "Sources" "source";
      ForeignKey "telescope" "Telescopes" "name";
      ForeignKey "instrument" "Instruments" "name";
      ForeignKey "reference" "Publications" "name" ]
    [ photometry_row "WISE_W1" "13.348" "0.025";
      photometry_row "WISE_W2" "12.99" "0.028" ].

Definition sample_db : Database :=
  {| tables :=
       [ ("Publications", publications); ("Telescopes", telescopes);
         ("Instruments", instruments); ("Sources", sources);
         ("Names", names); ("Photometry", photometry) ];
     sorted_tables :=
       ["Publications"; "Telescopes"; "Instruments"; "Sources"; "Names"; "Photometry"];
     reference_tables := ["Publications"; "Telescopes"; "Instruments"];
     primary_table := "Sources";
     primary_table_key := "source";
     foreign_key := "source";
     sqlite_foreign := true |}.

(** The directory [save_database] writes for that store, the path of its
    one source file, and what the file holds. *)
Definition sample_directory : node := (save_database sample_db true (Dir [])).2.

Definition sample_source_file : list string :=
  [source_directory; "2mass_j13571237+1428398.json"].

Definition sample_source_json : jdocument :=
  dumps_document (inventory_document sample_db (VStr "2MASS J13571237+1428398")).

(** The store after the reference tables were reloaded: the data tables
    are still empty. *)
Definition references_loaded : Database :=
  with_tables sample_db
    [ ("Publications", publications); ("Telescopes", telescopes);
      ("Instruments", instruments); ("Sources", with_rows sources []);
      ("Names", with_rows names []); ("Photometry", with_rows photometry []) ].

(** What [save_json] writes for a name no source carries. *)
Definition orphan_directory : node :=
  (save_json sample_db (ByName "Gl 229") [] (Dir [])).2.

(** Two sources whose names differ in case only share one file name. *)
Definition colliding_db : Database :=
  {| tables :=
       [ ("Sources",
          Table ["source"; "ra"] []
            [ {[ "source" := VStr "Gl 229"; "ra" := VFloat "92.64" ]};
              {[ "source" := VStr "GL 229"; "ra" := VFloat "92.65" ]} ]);
         ("Names",
          Table ["source"; "other_name"] [ForeignKey "source" "Sources" "source"]
            [ {[ "source" := VStr "Gl 229"; "other_name" := VStr "HD 42581" ]} ]) ];
     sorted_tables := ["Sources"; "Names"];
     reference_tables := [];
     primary_table := "Sources";
     primary_table_key := "source";
     foreign_key := "source";
     sqlite_foreign := true |}.

Definition colliding_directory : node := (save_database colliding_db true (Dir [])).2.

(* ================================================================== *)
(** ** Further behaviour of the export and the import *)
(* ================================================================== *)

(** What plain [json.load], without the [object_hook], returns for the
    cell [json.dumps] wrote: a date or a date-time comes back as the JSON
    string [json_serializer] made of it, any other value as it was. *)
Definition reloaded_cell (v : value) : value :=
  match v with
  | VDate _ | VDateTime _ => loads_scalar (json_serializer v)
  | _ => v
  end.

(** The rows of every table that match [x], as in store [db]. *)
Definition same_matches (db : Database) (x : value) (d : Database) : Prop :=
  schema d = schema db /\
  forall T, List.filter (cell_matches (key_column db T) x) (rows_of d T) =
            List.filter (cell_matches (key_column db T) x) (rows_of db T).

(** The sample store after the clearing phase of [load_database]. *)
Definition cleared_sample : Database := (clear_tables (sample_db, [])).2.1.

(** A directory that holds the file of a source the store no longer has. *)
Definition stale_directory : node :=
  Dir [(source_directory, Dir [("gl_229.json", File (SourceJSON []))])].

(** The document of another source, to import next to the sample one. *)
Definition second_source_file : node :=
  Dir [("gl_229.json",
        File (SourceJSON
                (dumps_document
                   [("Sources", [ {[ "source" := VStr "Gl 229"; "reference" := VStr "Schm10" ]} ]);
                    ("Names", [ {[ "other_name" := VStr "HD 42581" ]} ])])))].

(* ================================================================== *)
(** ** Connecting *)
(* ================================================================== *)

(** [s.split(sep)] for a separator of one character. *)
Fixpoint py_split (sep : ascii) (s : string) : list string :=
  match s with
  | EmptyString => [EmptyString]
  | String c s' =>
      if Ascii.eqb c sep then EmptyString :: py_split sep s'
      else
        match py_split sep s' with
        | head :: tail => String c head :: tail
        | [] => [String c EmptyString]
        end
  end.

(** A dict of keyword arguments, kept in insertion order; [VNull] is
    [None]. *)
Abbreviation arguments := (list (string * value)).

(** The declarative base a connection binds: the module's [Base], which
    holds the classes of the imported schema, or a new one. *)
Inductive base_ref :=
| ModuleBase
| NewBase.

(** The calls that reach SQLAlchemy, in order.  [ListenForConnect] is
    [event.listens_for(Engine, "connect")] with the handler that runs
    [PRAGMA foreign_keys=ON]. *)
Inductive call :=
| CreateEngine (connection_string : string) (connect_args : arguments)
| BindMetadata (base : base_ref)
| ListenForConnect
| DropAll
| CreateAll
| Reflect
| SetColumnType (table_name column type : string).

(** What the interpreter keeps between two constructions of a
    [Database]: the dict that is the default value of
    [connection_arguments] in [Database.__init__], one object made when
    the function is defined, and the calls made so far. *)
Record process := {
  default_connection_arguments : arguments;
  calls : list call
}.

Definition call_library (c : call) (p : process) : process :=
  {| default_connection_arguments := default_connection_arguments p;
     calls := calls p ++ [c] |}.

(** [set_sqlite] *)
Definition set_sqlite (p : process) : process := call_library ListenForConnect p.

(** [load_connection]; the base it returns is the one it was given, or a
    new one. *)
Definition load_connection (connection_string : string) (sqlite_foreign : bool)
    (base : option base_ref) (connection_arguments : arguments) (p : process) :
    base_ref * process :=
  let p := call_library (CreateEngine connection_string connection_arguments) p in
  let base := match base with Some b => b | None => NewBase end in
  let p := call_library (BindMetadata base) p in
  let p :=
    if py_startswith "sqlite" connection_string && sqlite_foreign then set_sqlite p else p in
  (base, p).

(** [create_database] without a Felis schema file, which is how
    [Database.__init__] calls it: [load_connection] takes its defaults for
    [sqlite_foreign] and [connection_arguments]. *)
Definition create_database (connection_string : string) (drop_tables : bool) (p : process) :
    base_ref * process :=
  let '(base, p) := load_connection connection_string true (Some ModuleBase) [] p in
  let p := if drop_tables then call_library DropAll p else p in
  (base, call_library CreateAll p).

(** What [Database.__init__] can raise: its own [RuntimeError], the
    [ValueError] of an unpacking, and the [KeyError] of a lookup. *)
Inductive init_error :=
| RuntimeError (message : string)
| ValueError
| Lookup (e : error).

(** The attributes [Database.__init__] sets. *)
Record attributes := {
  _reference_tables : list string;
  _primary_table : string;
  _primary_table_key : string;
  _foreign_key : string;
  table_attributes : list string
}.

Definition search_path (schema : string) : value := VStr ("-csearch_path=" +:+ schema).

(** The first block of [Database.__init__]: the dict [connection_arguments]
    names, after the search path of a PostgreSQL schema was put into it. *)
Definition with_search_path (connection_string : string) (schema : option string)
    (connection_arguments : arguments) : arguments :=
  if py_startswith "postgres" connection_string then
    match schema with
    | Some name =>
        match dict_get "options" connection_arguments with
        | None | Some VNull => dict_set "options" (search_path name) connection_arguments
        | Some _ => connection_arguments
        end
    | None => connection_arguments
    end
  else connection_arguments.

(** The last block: every override [{"table.column": type}] is applied in
    turn. *)
Fixpoint override_types (found : list (string * table)) (overrides : list (string * string))
    (p : process) : option init_error * process :=
  match overrides with
  | [] => (None, p)
  | (k, v) :: rest =>
      match py_split "." k with
      | [tab; col] =>
          match dict_get tab found with
          | None => (Some (Lookup (KeyError tab)), p)
          | Some t =>
              if bool_decide (col ∈ columns t)
              then override_types found rest (call_library (SetColumnType tab col v) p)
              else (Some (Lookup (KeyError col)), p)
          end
      | _ => (Some ValueError, p)
      end
  end.

(** [Database.__init__].  [connection_arguments] is [None] when the caller
    leaves the argument out, and the dict object of the default is used
    and changed in place; otherwise it is the caller's dict, and the dict
    as the call leaves it is returned next to the result.  [found] stands
    for [metadata.tables] once [reflect] has returned. *)
Definition __init__ (connection_string : string) (reference_tables : list string)
    (primary_table primary_table_key foreign_key : string)
    (column_type_overrides : list (string * string)) (sqlite_foreign : bool)
    (connection_arguments : option arguments) (schema : option string)
    (found : list (string * table)) (p : process) :
    (init_error + attributes) * option arguments * process :=
  let given :=
    match connection_arguments with
    | Some args => args
    | None => default_connection_arguments p
    end in
  let args := with_search_path connection_string schema given in
  let p :=
    match connection_arguments with
    | Some _ => p
    | None => {| default_connection_arguments := args; calls := calls p |}
    end in
  let left_to_caller :=
    match connection_arguments with Some _ => Some args | None => None end in
  let '(_, p) :=
    if String.eqb connection_string "sqlite://"
    then create_database connection_string false p
    else load_connection connection_string sqlite_foreign None args p in
  let p := call_library Reflect p in
  match found with
  | [] => (inl (RuntimeError "Create database first."), left_to_caller, p)
  | _ =>
      match override_types found column_type_overrides p with
      | (Some e, p) => (inl e, left_to_caller, p)
      | (None, p) =>
          (inr {| _reference_tables := reference_tables;
                  _primary_table := primary_table;
                  _primary_table_key := primary_table_key;
                  _foreign_key := foreign_key;
                  table_attributes := dict_keys found |},
           left_to_caller, p)
      end
  end.
(* ================================================================== *)
(** ** Theorems *)
(* ================================================================== *)

Example json_filename_2mass :
  json_filename "2MASS J13571237+1428398" = "2mass_j13571237+1428398.json".
Proof. reflexivity. Qed.

Example py_replace_overlap : py_replace "aa" "b" "aaa" = "ba".
Proof. reflexivity. Qed.

Example py_replace_json : py_replace ".json" "" "a.json.b.json" = "a.b".
Proof. reflexivity. Qed.

Example py_strip_ex : py_strip (String "009" " a b  ") = "a b".
Proof. reflexivity. Qed.

Example py_endswith_ex : py_endswith ".json" "x.json" = true /\ py_endswith ".json" "json" = false.
Proof. split; reflexivity. Qed.

(** *** The slug rule *)

Lemma py_lower_map (s : string) : py_lower s = string_map py_lower_char s.
Proof. induction s as [|c s IH]; simpl; congruence. Qed.

Lemma prefix_single (a c : ascii) (s : string) :
  String.prefix (String a EmptyString) (String c s) = Ascii.eqb c a.
Proof.
  simpl. destruct (ascii_dec a c) as [->|Hne].
  - rewrite Ascii.eqb_refl. now destruct s.
  - symmetry. apply Ascii.eqb_neq. congruence.
Qed.

Lemma replace_space_map (s : string) :
  py_replace " " "_" s =
  string_map (fun c => if Ascii.eqb c " " then "_"%char else c) s.
Proof.
  unfold py_replace. induction s as [|c s IH]; [reflexivity|].
  cbn [replace_from string_map]. rewrite prefix_single.
  destruct (Ascii.eqb c " "); cbn; now rewrite IH.
Qed.

Lemma replace_star_filter (s : string) :
  py_replace "*" "" s = string_filter (fun c => negb (Ascii.eqb c "*")) s.
Proof.
  unfold py_replace. induction s as [|c s IH]; [reflexivity|].
  cbn [replace_from string_filter]. rewrite prefix_single.
  destruct (Ascii.eqb c "*"); cbn; now rewrite IH.
Qed.

Lemma lstrip_drop (s : string) :
  list_ascii_of_string (py_lstrip s) =
  drop_leading py_isspace (list_ascii_of_string s).
Proof.
  induction s as [|c s IH]; [reflexivity|]. simpl.
  destruct (py_isspace c); [exact IH | reflexivity].
Qed.

Lemma drop_leading_snoc (p : ascii -> bool) (l : list ascii) (c : ascii) :
  drop_leading p (l ++ [c]) =
  match drop_leading p l with
  | [] => if p c then [] else [c]
  | r => r ++ [c]
  end.
Proof.
  induction l as [|a l IH]; simpl.
  - destruct (p c); reflexivity.
  - destruct (p a); [exact IH | reflexivity].
Qed.

Lemma rstrip_drop (s : string) :
  list_ascii_of_string (py_rstrip s) =
  rev (drop_leading py_isspace (rev (list_ascii_of_string s))).
Proof.
  induction s as [|c s IH]; [reflexivity|].
  cbn [py_rstrip list_ascii_of_string rev]. rewrite drop_leading_snoc.
  destruct (py_rstrip s) as [|a r] eqn:Hr.
  - simpl in IH. symmetry in IH. apply (f_equal (@rev ascii)) in IH.
    rewrite rev_involutive in IH. simpl in IH. rewrite IH.
    destruct (py_isspace c); reflexivity.
  - destruct (drop_leading py_isspace (rev (list_ascii_of_string s))) as [|b l] eqn:Hd.
    + discriminate IH.
    + rewrite rev_app_distr, <- IH. reflexivity.
Qed.

Lemma py_strip_spec (s : string) : py_strip s = spec_strip s.
Proof.
  unfold py_strip, spec_strip.
  rewrite <- lstrip_drop, <- rstrip_drop.
  now rewrite string_of_list_ascii_of_string.
Qed.

(** C8. The file name [save_json] derives from a source identifier is the
    identifier lowercased, its spaces replaced by underscores, its asterisks
    removed, leading and trailing whitespace stripped, and [.json] appended;
    ["2MASS J13571237+1428398"] is written to
    ["2mass_j13571237+1428398.json"]. *)
Theorem json_filename_slug :
  (forall s : string, json_filename s = spec_slug s) /\
  json_filename "2MASS J13571237+1428398" = "2mass_j13571237+1428398.json".
Proof.
  split; [|reflexivity].
  intros s. unfold json_filename, spec_slug.
  now rewrite py_lower_map, replace_space_map, replace_star_filter, py_strip_spec.
Qed.

(** *** The JSON codec *)

Lemma append_assoc (a b c : string) : (a +:+ b) +:+ c = a +:+ (b +:+ c).
Proof.
  induction a as [|x a IH]; [reflexivity|].
  change (String x ((a +:+ b) +:+ c) = String x (a +:+ (b +:+ c))). now rewrite IH.
Qed.

Lemma append_cons (x : ascii) (a b : string) : String x a +:+ b = String x (a +:+ b).
Proof. reflexivity. Qed.

Lemma digit_val_char (n : N) : n < 10 -> digit_val (digit_char n) = Some n.
Proof.
  intros H. destruct n as [|p]; [reflexivity|].
  do 4 (try destruct p as [p|p|]); try reflexivity; lia.
Qed.

Lemma take_digits_pad (w : nat) : forall (n : N) (rest : string),
  n < 10 ^ N.of_nat w ->
  take_digits w (zero_pad w n +:+ rest) = Some (n, rest).
Proof.
  induction w as [|w IH]; intros n rest Hn.
  - simpl in *. f_equal. f_equal. lia.
  - cbn [zero_pad take_digits]. rewrite append_assoc, append_cons. change (EmptyString +:+ rest) with rest.
    rewrite Nat2N.inj_succ, N.pow_succ_r' in Hn.
    rewrite IH by (apply N.Div0.div_lt_upper_bound; lia).
    rewrite digit_val_char by (apply N.mod_lt; lia).
    f_equal. f_equal. symmetry. rewrite N.add_comm. 
    pose proof (N.div_mod n 10). lia.
Qed.

Lemma expect_cons (c : ascii) (s : string) :
  expect c (String c EmptyString +:+ s) = Some s.
Proof.
  change (String c EmptyString +:+ s) with (String c s).
  unfold expect. now rewrite Ascii.eqb_refl.
Qed.

Ltac split_andb :=
  repeat match goal with
  | H : _ && _ = true |- _ => apply andb_prop in H as [? ?]
  | H : (_ <=? _) = true |- _ => apply N.leb_le in H
  | H : (_ <? _) = true |- _ => apply N.ltb_lt in H
  end.

Lemma valid_date_bounds (d : date) :
  valid_date d = true ->
  d_year d < 10 ^ N.of_nat 4 /\ d_month d < 10 ^ N.of_nat 2 /\ d_day d < 10 ^ N.of_nat 2.
Proof.
  unfold valid_date, in_range, days_in_month. intros H. split_andb.
  assert (Hd : d_day d <= 31).
  { destruct (d_month d) as [|p]; [lia|].
    do 4 (try destruct p as [p|p|]); cbn in *; try destruct (is_leap _); lia. }
  change (10 ^ N.of_nat 4) with 10000. change (10 ^ N.of_nat 2) with 100. lia.
Qed.

Lemma parse_date_prefix_iso (d : date) (rest : string) :
  valid_date d = true ->
  parse_date_prefix (date_isoformat d +:+ rest) = Some (d, rest).
Proof.
  intros Hv. destruct (valid_date_bounds d Hv) as (Hy & Hm & Hd).
  unfold parse_date_prefix, date_isoformat. rewrite !append_assoc.
  rewrite take_digits_pad by assumption. cbn [mbind option_bind].
  rewrite expect_cons. cbn [mbind option_bind].
  rewrite take_digits_pad by assumption. cbn [mbind option_bind].
  rewrite expect_cons. cbn [mbind option_bind].
  rewrite take_digits_pad by assumption. cbn [mbind option_bind].
  now destruct d.
Qed.

Lemma append_nil_r (s : string) : s +:+ EmptyString = s.
Proof.
  induction s as [|c s IH]; [reflexivity|]. rewrite append_cons. now rewrite IH.
Qed.

Lemma parse_date_iso (d : date) :
  valid_date d = true -> parse_date (date_isoformat d) = Some d.
Proof.
  intros Hv. unfold parse_date.
  rewrite <- (append_nil_r (date_isoformat d)), parse_date_prefix_iso by assumption.
  now rewrite Hv.
Qed.

Lemma parse_datetime_date_iso (d : date) :
  valid_date d = true -> parse_datetime (date_isoformat d) = None.
Proof.
  intros Hv. unfold parse_datetime.
  rewrite <- (append_nil_r (date_isoformat d)), parse_date_prefix_iso by assumption.
  reflexivity.
Qed.

Lemma parse_fraction_iso (us : N) :
  us < 1000000 ->
  parse_fraction (if us =? 0 then EmptyString else "." +:+ zero_pad 6 us) = Some us.
Proof.
  intros H. destruct (N.eqb_spec us 0) as [->|Hne]; [reflexivity|].
  unfold parse_fraction.
  change ("." +:+ zero_pad 6 us) with (String "." (zero_pad 6 us)).
  cbn [expect]. rewrite Ascii.eqb_refl. cbn [mbind option_bind].
  rewrite <- (append_nil_r (zero_pad 6 us)), take_digits_pad; [reflexivity|].
  change (10 ^ N.of_nat 6) with 1000000. exact H.
Qed.

Lemma parse_datetime_iso (t : datetime) :
  valid_datetime t = true -> parse_datetime (datetime_isoformat t) = Some t.
Proof.
  intros Hv. pose proof Hv as Hv'. unfold valid_datetime in Hv'. split_andb.
  unfold parse_datetime, datetime_isoformat, time_isoformat.
  rewrite parse_date_prefix_iso by assumption. cbn [mbind option_bind].
  rewrite expect_cons. cbn [mbind option_bind].
  rewrite take_digits_pad by (change (10 ^ N.of_nat 2) with 100; lia). cbn [mbind option_bind].
  rewrite expect_cons. cbn [mbind option_bind].
  rewrite take_digits_pad by (change (10 ^ N.of_nat 2) with 100; lia). cbn [mbind option_bind].
  rewrite expect_cons. cbn [mbind option_bind].
  rewrite take_digits_pad by (change (10 ^ N.of_nat 2) with 100; lia). cbn [mbind option_bind].
  rewrite parse_fraction_iso by assumption. cbn [mbind option_bind].
  destruct t as [d h mi se us]. cbn in *. now rewrite Hv.
Qed.

Lemma restore_loads_dumps (v : value) :
  codec_stable v = true -> restore_datetime (loads_scalar (dumps_scalar v)) = v.
Proof.
  destruct v as [| b | z | r | s | d | t]; cbn [codec_stable]; intros H; try reflexivity.
  - apply andb_prop in H as [H1 H2].
    apply bool_decide_eq_true in H1, H2.
    cbn [restore_datetime loads_scalar dumps_scalar]. now rewrite H1, H2.
  - cbn [restore_datetime loads_scalar dumps_scalar json_serializer].
    now rewrite parse_datetime_date_iso, parse_date_iso.
  - cbn [restore_datetime loads_scalar dumps_scalar json_serializer].
    now rewrite parse_datetime_iso.
Qed.

Lemma row_round_trip (r : row) :
  row_stable r = true -> datetime_json_parser (loads_row (dumps_row r)) = r.
Proof.
  unfold row_stable, datetime_json_parser, loads_row, dumps_row.
  intros H. apply bool_decide_eq_true in H.
  apply map_eq. intros k. rewrite !lookup_fmap.
  destruct (r !! k) as [v|] eqn:Hk; [|reflexivity].
  cbn. f_equal. apply restore_loads_dumps. exact (H k v Hk).
Qed.

Lemma rows_round_trip (rs : list row) :
  forallb row_stable rs = true ->
  map (fun r => datetime_json_parser (loads_row r)) (map dumps_row rs) = rs.
Proof.
  induction rs as [|r rs IH]; [reflexivity|]. cbn [forallb map].
  intros H. apply andb_prop in H as [Hr Hrs].
  now rewrite row_round_trip, IH.
Qed.

Lemma dict_set_fresh {A : Type} (k : string) (v : A) (d : list (string * A)) :
  k ∉ dict_keys d -> dict_set k v d = d ++ [(k, v)].
Proof.
  induction d as [|[k0 v0] d IH]; intros H; cbn [dict_set]; [reflexivity|].
  cbn in H. rewrite not_elem_of_cons in H. destruct H as [Hne Hd].
  destruct (String.eqb_spec k k0) as [|_]; [contradiction|].
  now rewrite IH.
Qed.

Lemma dict_keys_app {A : Type} (d1 d2 : list (string * A)) :
  dict_keys (d1 ++ d2) = dict_keys d1 ++ dict_keys d2.
Proof. apply map_app. Qed.

(** Collecting pairs with distinct keys into a dict keeps them as they
    are. *)
Lemma fold_dict_set_fresh {A B : Type} (f : A -> B) (l : list (string * A)) :
  forall acc : list (string * B),
  NoDup (dict_keys acc ++ dict_keys l) ->
  fold_left (fun d kv => dict_set kv.1 (f kv.2) d) l acc =
  acc ++ map (fun kv => (kv.1, f kv.2)) l.
Proof.
  induction l as [|[k v] l IH]; intros acc Hnd; cbn [fold_left map fst snd].
  - now rewrite app_nil_r.
  - cbn in Hnd. apply NoDup_app in Hnd as (Hacc & Hdisj & Hl).
    apply NoDup_cons in Hl as [Hk Hl].
    rewrite dict_set_fresh by (intros Hin; apply (Hdisj k Hin); now left).
    rewrite IH.
    + now rewrite <- app_assoc.
    + rewrite dict_keys_app. cbn. rewrite <- app_assoc. cbn.
      apply NoDup_app. split; [exact Hacc|]. split.
      * intros y Hy. apply Hdisj. exact Hy.
      * apply NoDup_cons. split; assumption.
Qed.

Lemma loads_document_dict (j : jdocument) :
  is_dict j = true ->
  loads_document j =
  map (fun kv => (kv.1, map (fun r => datetime_json_parser (loads_row r)) kv.2)) j.
Proof.
  unfold is_dict, loads_document. intros H. apply bool_decide_eq_true in H.
  now rewrite (fold_dict_set_fresh (map (fun r => datetime_json_parser (loads_row r))) j []).
Qed.

Lemma dumps_document_keys (d : document) :
  dict_keys (dumps_document d) = dict_keys d.
Proof.
  unfold dumps_document, dict_keys. rewrite map_map. reflexivity.
Qed.

(** A dict of rows the codec leaves alone comes back from
    [json.dumps] and [json.load] as it was. *)
Lemma loads_dumps_document (d : document) :
  is_dict d = true ->
  document_stable d = true ->
  loads_document (dumps_document d) = d.
Proof.
  intros Hd Hs. rewrite loads_document_dict
    by (unfold is_dict in *; now rewrite dumps_document_keys).
  clear Hd. unfold document_stable, dumps_document in *.
  induction d as [|[k rs] d IH]; [reflexivity|]. cbn [forallb map fst snd] in *.
  apply andb_prop in Hs as [Hr Hs].
  now rewrite rows_round_trip, IH.
Qed.

(** C2 (as amended). Decoding the JSON encoding of a document returns the
    document, provided no string value of it has the form of a date or of
    a date-time (and its dates and times are ones Python can construct).
    Null, boolean, integer, float, date and date-time values come back
    unchanged; a float is carried by its [repr] through the number layer of
    the [json] module. *)
Theorem codec_round_trip (d : document) :
  is_dict d = true ->
  document_stable d = true ->
  loads_document (dumps_document d) = d /\
  forall k rs r c v,
    In (k, rs) d -> In r rs -> r !! c = Some v ->
    restore_datetime (loads_scalar (dumps_scalar v)) = v.
Proof.
  intros Hd Hs. split; [now apply loads_dumps_document|].
  intros k rs r c v Hk Hr Hc. apply restore_loads_dumps.
  unfold document_stable in Hs. rewrite forallb_forall in Hs.
  specialize (Hs (k, rs) Hk). cbn [snd] in Hs. rewrite forallb_forall in Hs.
  specialize (Hs r Hr). unfold row_stable in Hs. apply bool_decide_eq_true in Hs.
  exact (Hs c v Hc).
Qed.

Lemma codec_round_trip_witness :
  is_dict sample_document = true /\
  document_stable sample_document = true /\
  loads_document (dumps_document sample_document) = sample_document.
Proof.
  split; [vm_compute; reflexivity|]. split; [vm_compute; reflexivity|].
  apply (codec_round_trip sample_document); vm_compute; reflexivity.
Defined.

(** A comment that reads like a time stamp is a string before encoding
    and a date-time after decoding; the same holds of one that reads like
    a date. *)
Lemma codec_date_like_string :
  let d : document := [("Sources", [ {[ "comments" := VStr "2020-01-01T12:00:00" ]} ])] in
  let d' : document := [("Sources", [ {[ "comments" := VStr "2020-01-01" ]} ])] in
  loads_document (dumps_document d) =
    [("Sources", [ {[ "comments" := VDateTime (DateTime (Date 2020 1 1) 12 0 0 0) ]} ])] /\
  loads_document (dumps_document d) <> d /\
  loads_document (dumps_document d') <> d'.
Proof.
  pose (cell := fun doc : document =>
    match doc with [(_, [r])] => r !! "comments" | _ => None end).
  split; [vm_compute; reflexivity|].
  split; intros H; apply (f_equal cell) in H; vm_compute in H; discriminate H.
Qed.

(** *** Inventory *)

Example inventory_sample :
  inventory sample_db (VStr "2MASS J13571237+1428398") =
  Ok [ ("Sources", rows sources);
       ("Names", map (delete "source") (rows names));
       ("Photometry", map (delete "source") (rows photometry)) ].
Proof. vm_compute. exact eq_refl. Qed.

Example inventory_sample_unknown : inventory sample_db (VStr "Gl 229") = Ok [].
Proof. vm_compute. reflexivity. Qed.

Lemma sql_eq_true (v x : value) : sql_eq v x = true <-> v = x.
Proof.
  unfold sql_eq. destruct x; destruct v;
    rewrite ?bool_decide_eq_true; split; congruence.
Qed.

Lemma cell_matches_true (c : string) (x : value) (r : row) :
  cell_matches c x r = true <-> r !! c = Some x.
Proof.
  unfold cell_matches. destruct (r !! c) as [v|].
  - rewrite sql_eq_true. split; congruence.
  - split; discriminate.
Qed.

Lemma string_eqb_decide (a b : string) : String.eqb a b = bool_decide (a = b).
Proof.
  destruct (String.eqb_spec a b) as [->|Hne].
  - now rewrite bool_decide_eq_true_2.
  - now rewrite bool_decide_eq_false_2.
Qed.

Lemma dict_get_set {A : Type} (k k' : string) (v : A) (d : list (string * A)) :
  dict_get k (dict_set k' v d) = if String.eqb k k' then Some v else dict_get k d.
Proof.
  induction d as [|[k0 v0] d IH]; cbn [dict_set dict_get].
  - reflexivity.
  - destruct (String.eqb_spec k' k0) as [->|Hne]; cbn [dict_get].
    + destruct (String.eqb k k0); reflexivity.
    + rewrite IH. destruct (String.eqb_spec k k0) as [->|Hne2]; [|reflexivity].
      destruct (String.eqb_spec k0 k') as [->|]; congruence.
Qed.

Lemma dict_get_keys {A : Type} (k : string) (d : list (string * A)) :
  is_Some (dict_get k d) <-> k ∈ dict_keys d.
Proof.
  induction d as [|[k0 v0] d IH]; cbn [dict_get dict_keys map fst].
  - split; [intros [? ?]; discriminate | intros H; inversion H].
  - rewrite elem_of_cons. destruct (String.eqb_spec k k0) as [->|Hne].
    + split; eauto.
    + rewrite IH. unfold dict_keys. split; [auto | intros [?|?]; congruence].
Qed.

Lemma row_cleanup_filtered (db : Database) (x : value) (rs : list row) :
  map_result (_row_cleanup db) (List.filter (cell_matches (foreign_key db) x) rs) =
  Ok (map (delete (foreign_key db)) (List.filter (cell_matches (foreign_key db) x) rs)).
Proof.
  induction rs as [|r rs IH]; [reflexivity|]. cbn [List.filter].
  destruct (cell_matches (foreign_key db) x r) eqn:Hm; [|exact IH].
  apply cell_matches_true in Hm. cbn [map_result map].
  assert (Hc : _row_cleanup db r = Ok (delete (foreign_key db) r))
    by (unfold _row_cleanup; now rewrite Hm).
  now rewrite Hc, IH.
Qed.

(** [_inventory_query] either records the entry of the table or raises a
    [KeyError] for the table or for the column it filters on. *)
Lemma inventory_query_eq (db : Database) (d : document) (T : string) (x : value) :
  _inventory_query db d T x =
  if has_column db T (key_column db T)
  then Ok (record_entry d T (entry_of db x T))
  else Raise (match dict_get T (tables db) with
              | None => KeyError T
              | Some _ => KeyError (key_column db T)
              end).
Proof.
  unfold _inventory_query, has_column, entry_of, get_table, key_column.
  destruct (dict_get T (tables db)) as [t|]; [|reflexivity]. cbn.
  set (col := if String.eqb T (primary_table db) then _ else _).
  destruct (bool_decide (col ∈ columns t)); [|reflexivity].
  destruct (query_filter t col x) as [|r rs] eqn:Hq; [reflexivity|].
  destruct (String.eqb T (primary_table db)) eqn:HT; [reflexivity|].
  subst col. unfold query_filter in *. rewrite <- Hq.
  rewrite row_cleanup_filtered. cbn. rewrite Hq. reflexivity.
Qed.

Lemma fold_result_inv {A B : Type} (f : B -> A -> result B) (g : B -> A -> B)
    (xs : list A) :
  (forall b a b', f b a = Ok b' -> b' = g b a) ->
  forall b b', fold_result f xs b = Ok b' -> b' = fold_left g xs b.
Proof.
  intros Hf. induction xs as [|a xs IH]; intros b b' H; cbn in *.
  - congruence.
  - destruct (f b a) as [b1|e] eqn:Hb; cbn in H; [|discriminate].
    apply Hf in Hb. subst b1. now apply IH.
Qed.

Lemma fold_result_ok {A B : Type} (f : B -> A -> result B) (g : B -> A -> B)
    (xs : list A) :
  (forall b a, In a xs -> f b a = Ok (g b a)) ->
  forall b, fold_result f xs b = Ok (fold_left g xs b).
Proof.
  induction xs as [|a xs IH]; intros Hf b; cbn.
  - reflexivity.
  - rewrite Hf by (now left). cbn. apply IH. intros b0 a0 Hin. apply Hf. now right.
Qed.

Lemma inventory_inv (db : Database) (x : value) (doc : document) :
  inventory db x = Ok doc -> doc = inventory_document db x.
Proof.
  unfold inventory, inventory_document. rewrite inventory_query_eq.
  destruct (has_column db (primary_table db) _); cbn; [|discriminate].
  apply fold_result_inv. intros d T d'. fold (skipped db T).
  destruct (skipped db T); [congruence|].
  rewrite inventory_query_eq. destruct (has_column db T _); congruence.
Qed.

Lemma key_column_primary (db : Database) :
  key_column db (primary_table db) = primary_table_key db.
Proof. unfold key_column. now rewrite String.eqb_refl. Qed.

Lemma skipped_primary (db : Database) : skipped db (primary_table db) = true.
Proof.
  unfold skipped. apply bool_decide_eq_true. apply elem_of_app. right. now left.
Qed.

Lemma key_column_unskipped (db : Database) (T : string) :
  skipped db T = false -> key_column db T = foreign_key db.
Proof.
  intros H. unfold key_column. destruct (String.eqb_spec T (primary_table db)) as [->|]; [|reflexivity].
  now rewrite skipped_primary in H.
Qed.

Lemma inventory_total (db : Database) (x : value) :
  schema_ok db = true -> inventory db x = Ok (inventory_document db x).
Proof.
  unfold schema_ok. intros H. apply andb_prop in H as [Hp Hall].
  unfold inventory, inventory_document. rewrite inventory_query_eq.
  rewrite key_column_primary, Hp. cbn.
  apply fold_result_ok. intros d T Hin. fold (skipped db T).
  destruct (skipped db T) eqn:Hs; [reflexivity|].
  rewrite inventory_query_eq, key_column_unskipped by assumption.
  rewrite forallb_forall in Hall. specialize (Hall T Hin).
  rewrite Hs in Hall. cbn in Hall. now rewrite Hall.
Qed.

Lemma dict_get_record (d : document) (T n : string) (e : option (list row)) :
  dict_get T (record_entry d n e) =
  match e with
  | Some rs => if String.eqb T n then Some rs else dict_get T d
  | None => dict_get T d
  end.
Proof. destruct e; cbn [record_entry]; [apply dict_get_set | reflexivity]. Qed.

Lemma inventory_fold_lookup (db : Database) (x : value) (T : string) (names : list string) :
  forall d : document,
  dict_get T
    (fold_left
       (fun d table => if skipped db table then d else record_entry d table (entry_of db x table))
       names d) =
  match (if bool_decide (T ∈ names) && negb (skipped db T) then entry_of db x T else None) with
  | Some e => Some e
  | None => dict_get T d
  end.
Proof.
  induction names as [|n names IH]; intros d; cbn [fold_left].
  - rewrite bool_decide_eq_false_2 by (intros H; inversion H). reflexivity.
  - rewrite IH. clear IH.
    destruct (String.eqb_spec T n) as [->|Hne].
    + rewrite (bool_decide_eq_true_2 (n ∈ n :: names)) by (now left).
      destruct (skipped db n) eqn:Hs; cbn [negb andb].
      * now rewrite andb_false_r.
      * rewrite andb_true_r. rewrite dict_get_record, String.eqb_refl.
        destruct (bool_decide (n ∈ names)); destruct (entry_of db x n); reflexivity.
    + assert (Hb : bool_decide (T ∈ n :: names) = bool_decide (T ∈ names)).
      { apply bool_decide_ext. rewrite elem_of_cons. intuition congruence. }
      rewrite Hb.
      assert (Hd : dict_get T (if skipped db n then d else record_entry d n (entry_of db x n)) =
                   dict_get T d).
      { destruct (skipped db n); [reflexivity|]. rewrite dict_get_record.
        destruct (entry_of db x n); [|reflexivity].
        destruct (String.eqb_spec T n); congruence. }
      now rewrite Hd.
Qed.

Lemma entry_of_unknown (db : Database) (x : value) (T : string) :
  T ∉ dict_keys (tables db) -> entry_of db x T = None.
Proof.
  intros H. unfold entry_of. destruct (dict_get T (tables db)) eqn:Hg; [|reflexivity].
  exfalso. apply H. apply dict_get_keys. eauto.
Qed.

(** The entry [inventory] holds for a table: the primary table's matches,
    nothing for a reference table, the cleaned matches of a data table. *)
Lemma inventory_document_lookup (db : Database) (x : value) (T : string) :
  dict_get T (inventory_document db x) =
  if String.eqb T (primary_table db) then entry_of db x T
  else if skipped db T then None else entry_of db x T.
Proof.
  unfold inventory_document. rewrite inventory_fold_lookup, dict_get_record.
  destruct (String.eqb_spec T (primary_table db)) as [->|Hne].
  - rewrite skipped_primary, andb_false_r. now destruct (entry_of db x (primary_table db)).
  - destruct (skipped db T); cbn [negb].
    + rewrite andb_false_r. now destruct (entry_of db x (primary_table db)).
    + rewrite andb_true_r. destruct (decide (T ∈ dict_keys (tables db))) as [Hin|Hnin].
      * rewrite bool_decide_eq_true_2 by assumption.
        destruct (entry_of db x T); [reflexivity|].
        now destruct (entry_of db x (primary_table db)).
      * rewrite bool_decide_eq_false_2 by assumption.
        rewrite (entry_of_unknown db x T Hnin).
        now destruct (entry_of db x (primary_table db)).
Qed.

Lemma skipped_false (db : Database) (T : string) :
  T <> primary_table db -> T ∉ reference_tables db -> skipped db T = false.
Proof.
  intros Hp Hr. unfold skipped. apply bool_decide_eq_false.
  rewrite elem_of_app, list_elem_of_singleton. tauto.
Qed.

Lemma entry_of_some (db : Database) (x : value) (T : string) (rs : list row) :
  entry_of db x T = Some rs ->
  exists t, dict_get T (tables db) = Some t /\
            query_filter t (key_column db T) x <> [] /\
            rs = (if String.eqb T (primary_table db)
                  then query_filter t (key_column db T) x
                  else map (delete (foreign_key db)) (query_filter t (key_column db T) x)).
Proof.
  unfold entry_of. destruct (dict_get T (tables db)) as [t|]; [|discriminate].
  destruct (query_filter t (key_column db T) x) as [|r q] eqn:Hq; [discriminate|].
  intros H. injection H as <-. exists t. now rewrite Hq.
Qed.

Lemma query_filter_In (t : table) (c : string) (x : value) (r : row) :
  In r (query_filter t c x) <-> In r (rows t) /\ r !! c = Some x.
Proof. unfold query_filter. now rewrite filter_In, cell_matches_true. Qed.

Lemma query_filter_nonempty (t : table) (c : string) (x : value) :
  query_filter t c x <> [] <-> exists r, In r (rows t) /\ r !! c = Some x.
Proof.
  split.
  - destruct (query_filter t c x) as [|r q] eqn:Hq; [congruence|]. intros _.
    exists r. apply query_filter_In. rewrite Hq. now left.
  - intros [r Hr] Hq. apply query_filter_In in Hr. now rewrite Hq in Hr.
Qed.

(** C3. For a table that is neither the primary table nor a reference
    table, the document [inventory] returns has the table's key exactly
    when some row of the table holds the identifier in its foreign key
    column; the key is never bound to an empty list. *)
Theorem inventory_sparse_keys (db : Database) (x : value) (T : string) :
  schema_ok db = true ->
  T <> primary_table db ->
  T ∉ reference_tables db ->
  exists doc,
    inventory db x = Ok doc /\
    (is_Some (dict_get T doc) <->
       exists t r, dict_get T (tables db) = Some t /\ In r (rows t) /\
                   r !! foreign_key db = Some x) /\
    dict_get T doc <> Some [].
Proof.
  intros Hok Hp Hr. exists (inventory_document db x).
  split; [now apply inventory_total|].
  rewrite inventory_document_lookup, (skipped_false db T Hp Hr).
  destruct (String.eqb_spec T (primary_table db)) as [|_]; [contradiction|].
  assert (Hk : key_column db T = foreign_key db)
    by (apply key_column_unskipped, skipped_false; assumption).
  split; [split|].
  - intros [rs Hrs]. apply entry_of_some in Hrs as (t & Ht & Hne & _).
    rewrite Hk in Hne. apply query_filter_nonempty in Hne as [r Hr'].
    exists t, r. tauto.
  - intros (t & r & Ht & Hin & Hx). unfold entry_of. rewrite Ht, Hk.
    assert (Hne : query_filter t (foreign_key db) x <> [])
      by (apply query_filter_nonempty; eauto).
    destruct (query_filter t (foreign_key db) x); [congruence | eauto].
  - intros H. apply entry_of_some in H as (t & _ & Hne & Hrs).
    destruct (String.eqb T (primary_table db));
      destruct (query_filter t (key_column db T) x); try congruence; discriminate.
Qed.

Lemma inventory_sparse_keys_witness :
  schema_ok sample_db = true /\
  exists doc,
    inventory sample_db (VStr "2MASS J13571237+1428398") = Ok doc /\
    is_Some (dict_get "Names" doc) /\ dict_get "Names" doc <> Some [].
Proof.
  split; [vm_compute; reflexivity|].
  destruct (inventory_sparse_keys sample_db (VStr "2MASS J13571237+1428398") "Names")
    as (doc & Hdoc & Hiff & Hne).
  - vm_compute; reflexivity.
  - discriminate.
  - vm_compute. intros H. repeat (apply elem_of_cons in H as [H|H]; [discriminate|]). inversion H.
  - exists doc. split; [exact Hdoc|]. split; [|exact Hne].
    apply Hiff. eexists _, _. split; [reflexivity|]. split; [left; reflexivity|]. reflexivity.
Defined.

(** C4. In the document [inventory] returns, every row under a key other
    than the primary table's is a matching row of that table with the
    foreign key column deleted, so it lacks that column; every row under
    the primary table's key is a row of the primary table as stored, with
    its identity column holding the identifier. *)
Theorem inventory_foreign_key_stripped (db : Database) (x : value) :
  schema_ok db = true ->
  exists doc,
    inventory db x = Ok doc /\
    (forall T rs r,
       T <> primary_table db -> dict_get T doc = Some rs -> In r rs ->
       r !! foreign_key db = None /\
       exists t r0, dict_get T (tables db) = Some t /\ In r0 (rows t) /\
                    r0 !! foreign_key db = Some x /\ r = delete (foreign_key db) r0) /\
    (forall rs r,
       dict_get (primary_table db) doc = Some rs -> In r rs ->
       r !! primary_table_key db = Some x /\
       exists t, dict_get (primary_table db) (tables db) = Some t /\ In r (rows t)).
Proof.
  intros Hok. exists (inventory_document db x).
  split; [now apply inventory_total|]. split.
  - intros T rs r Hp Hrs Hin. rewrite inventory_document_lookup in Hrs.
    destruct (String.eqb_spec T (primary_table db)) as [|_]; [contradiction|].
    destruct (skipped db T) eqn:Hs; [discriminate|].
    apply entry_of_some in Hrs as (t & Ht & _ & ->).
    rewrite (key_column_unskipped db T Hs) in Hin.
    destruct (String.eqb_spec T (primary_table db)) as [|_]; [contradiction|].
    apply in_map_iff in Hin as (r0 & <- & Hr0). apply query_filter_In in Hr0 as [Hr0 Hx].
    split; [apply lookup_delete_eq|]. exists t, r0. tauto.
  - intros rs r Hrs Hin. rewrite inventory_document_lookup, String.eqb_refl in Hrs.
    apply entry_of_some in Hrs as (t & Ht & _ & ->).
    rewrite String.eqb_refl, key_column_primary in Hin.
    apply query_filter_In in Hin as [Hr Hx]. split; [exact Hx|]. exists t. tauto.
Qed.

Lemma inventory_foreign_key_stripped_witness :
  schema_ok sample_db = true /\
  exists doc,
    inventory sample_db (VStr "2MASS J13571237+1428398") = Ok doc /\
    forall rs r, dict_get "Photometry" doc = Some rs -> In r rs -> r !! "source" = None.
Proof.
  split; [vm_compute; reflexivity|].
  destruct (inventory_foreign_key_stripped sample_db (VStr "2MASS J13571237+1428398"))
    as (doc & Hdoc & Hchild & _); [vm_compute; reflexivity|].
  exists doc. split; [exact Hdoc|]. intros rs r Hrs Hin.
  apply (Hchild "Photometry" rs r); [discriminate | exact Hrs | exact Hin].
Defined.

(** For an identifier no source carries, [inventory] returns the empty
    dict: the primary table's key is not bound to an empty list, it is
    absent. *)
Lemma inventory_unknown_has_no_primary_key :
  inventory sample_db (VStr "Gl 229") = Ok [] /\
  ~ (exists doc, inventory sample_db (VStr "Gl 229") = Ok doc /\
                 dict_get (primary_table sample_db) doc = Some []).
Proof.
  split; [vm_compute; reflexivity|].
  intros (doc & Hdoc & Hget). vm_compute in Hdoc. injection Hdoc as <-. discriminate Hget.
Qed.

Lemma children_belong_no_match (db : Database) (x : value) (p : table) :
  children_belong db = true ->
  dict_get (primary_table db) (tables db) = Some p ->
  query_filter p (primary_table_key db) x = [] ->
  forall T, skipped db T = false -> entry_of db x T = None.
Proof.
  intros Hcb Hp Hq T Hs. unfold entry_of.
  destruct (dict_get T (tables db)) as [t|] eqn:Ht; [|reflexivity].
  rewrite (key_column_unskipped db T Hs).
  destruct (query_filter t (foreign_key db) x) as [|r q] eqn:Hr; [reflexivity|].
  exfalso.
  assert (Hin : In r (query_filter t (foreign_key db) x)) by (rewrite Hr; now left).
  apply query_filter_In in Hin as [Hin Hx].
  unfold children_belong in Hcb. rewrite forallb_forall in Hcb.
  assert (HT : In (T, t) (tables db)).
  { clear -Ht. induction (tables db) as [|[k v] d IH]; [discriminate|].
    cbn in Ht. destruct (String.eqb_spec T k) as [->|]; [left; congruence | right; auto]. }
  specialize (Hcb _ HT). cbn [fst snd] in Hcb. rewrite Hs in Hcb. cbn in Hcb.
  rewrite forallb_forall in Hcb. specialize (Hcb r Hin). rewrite Hx, Hp in Hcb.
  apply existsb_exists in Hcb as (s & Hs1 & Hs2). apply bool_decide_eq_true in Hs2.
  assert (Hin' : In s (query_filter p (primary_table_key db) x)) by (now apply query_filter_In).
  now rewrite Hq in Hin'.
Qed.

Lemma fold_left_unchanged {A B : Type} (g : B -> A -> B) (xs : list A) (b : B) :
  (forall a, In a xs -> g b a = b) -> fold_left g xs b = b.
Proof.
  induction xs as [|a xs IH]; intros H; cbn; [reflexivity|].
  rewrite H by (now left). apply IH. intros a' Ha. apply H. now right.
Qed.

(** C5 (as amended). For an identifier that matches no row of the primary
    table, [inventory] returns a document without the primary table's key;
    when every row of the data tables belongs to a row of the primary
    table, the document is empty. *)
Theorem inventory_unknown_source (db : Database) (x : value) (p : table) :
  schema_ok db = true ->
  dict_get (primary_table db) (tables db) = Some p ->
  query_filter p (primary_table_key db) x = [] ->
  exists doc,
    inventory db x = Ok doc /\
    dict_get (primary_table db) doc = None /\
    (children_belong db = true -> doc = []).
Proof.
  intros Hok Hp Hq. exists (inventory_document db x).
  split; [now apply inventory_total|].
  assert (He : entry_of db x (primary_table db) = None).
  { unfold entry_of. now rewrite Hp, key_column_primary, Hq. }
  split.
  - now rewrite inventory_document_lookup, String.eqb_refl.
  - intros Hcb. unfold inventory_document. rewrite He. cbn [record_entry].
    apply fold_left_unchanged. intros T _.
    destruct (skipped db T) eqn:Hs; [reflexivity|].
    now rewrite (children_belong_no_match db x p Hcb Hp Hq T Hs).
Qed.

Lemma inventory_unknown_source_witness :
  schema_ok sample_db = true /\
  query_filter sources "source" (VStr "Gl 229") = [] /\
  children_belong sample_db = true /\
  inventory sample_db (VStr "Gl 229") = Ok [].
Proof.
  split; [vm_compute; reflexivity|]. split; [vm_compute; reflexivity|].
  split; [vm_compute; reflexivity|].
  destruct (inventory_unknown_source sample_db (VStr "Gl 229") sources)
    as (doc & Hdoc & _ & Hempty);
    [vm_compute; reflexivity | vm_compute; reflexivity | vm_compute; reflexivity |].
  rewrite Hdoc. f_equal. apply Hempty. vm_compute; reflexivity.
Defined.

(** *** Import of one document *)

Lemma st_bind_unfold {S A B : Type} (m : ST S A) (f : A -> ST S B) (s : S) :
  (m ≫= f) s = match m s with (Ok a, s') => f a s' | (Raise e, s') => (Raise e, s') end.
Proof. reflexivity. Qed.

Lemma for_each_cons {S A : Type} (x : A) (xs : list A) (body : A -> ST S unit) (s : S) :
  for_each (x :: xs) body s =
  match body x s with
  | (Ok _, s') => for_each xs body s'
  | (Raise e, s') => (Raise e, s')
  end.
Proof. reflexivity. Qed.

Lemma for_each_app {S A : Type} (xs ys : list A) (body : A -> ST S unit) (s : S) :
  for_each (xs ++ ys) body s =
  match for_each xs body s with
  | (Ok _, s') => for_each ys body s'
  | (Raise e, s') => (Raise e, s')
  end.
Proof.
  revert s. induction xs as [|x xs IH]; intros s; [reflexivity|].
  rewrite <- app_comm_cons, !for_each_cons.
  destruct (body x s) as [[[]|e] s']; [apply IH | reflexivity].
Qed.

(** A loop over the rows of each entry is a loop over all the statements
    it sends. *)
Lemma for_each_flat {S A B : Type} (xs : list A) (expand : A -> list B)
    (body : B -> ST S unit) (s : S) :
  for_each xs (fun x => for_each (expand x) body) s = for_each (flat_map expand xs) body s.
Proof.
  revert s. induction xs as [|x xs IH]; intros s; [reflexivity|].
  cbn [flat_map]. rewrite for_each_cons, for_each_app.
  destruct (for_each (expand x) body s) as [[[]|e] s']; [apply IH | reflexivity].
Qed.

Lemma execute_insert_log (k : string) (vs : list row) (s : Database * list event) :
  (execute_insert k vs s).2.2 = s.2 \/ (execute_insert k vs s).2.2 = s.2 ++ [Insert k vs].
Proof.
  unfold execute_insert. destruct (get_table s.1 k); [|now left].
  destruct (insert_rows s.1 k a vs); now right.
Qed.

Lemma execute_insert_ok_log (k : string) (vs : list row) (s : Database * list event) :
  (execute_insert k vs s).1 = Ok tt -> (execute_insert k vs s).2.2 = s.2 ++ [Insert k vs].
Proof.
  unfold execute_insert. destruct (get_table s.1 k); [|discriminate].
  destruct (insert_rows s.1 k a vs); [reflexivity | discriminate].
Qed.

(** The statements a run of inserts sends are a prefix of the statements
    it was given, and all of them when nothing raised. *)
Lemma run_inserts_log (stmts : list (string * list row)) :
  forall s : Database * list event,
  let out := for_each stmts (fun st => execute_insert st.1 st.2) s in
  exists sent,
    out.2.2 = s.2 ++ sent /\
    sent `prefix_of` map event_of stmts /\
    (out.1 = Ok tt -> sent = map event_of stmts).
Proof.
  induction stmts as [|[k vs] stmts IH]; intros s; cbn zeta.
  - exists []. cbn. rewrite app_nil_r. split; [reflexivity|]. split; [apply prefix_nil | reflexivity].
  - rewrite for_each_cons. cbn [fst snd].
    destruct (execute_insert k vs s) as [[[]|e] s1] eqn:He.
    + pose proof (execute_insert_ok_log k vs s) as Hlog. rewrite He in Hlog.
      specialize (Hlog eq_refl). cbn in Hlog.
      destruct (IH s1) as (sent & Hs & Hp & Hok). cbn zeta in *.
      exists (Insert k vs :: sent). rewrite Hs, Hlog, <- app_assoc. split; [reflexivity|].
      split; [apply prefix_cons; exact Hp|]. intros H. cbn [map]. f_equal. auto.
    + destruct (execute_insert_log k vs s) as [Hlog|Hlog]; rewrite He in Hlog; cbn in Hlog.
      * exists []. cbn. rewrite app_nil_r. split; [exact Hlog|].
        split; [apply prefix_nil | discriminate].
      * exists [Insert k vs]. cbn. split; [exact Hlog|].
        split; [apply prefix_cons, prefix_nil | discriminate].
Qed.

Lemma transaction_unfold (body : Exec unit) (s : Database * list event) :
  transaction body s =
  match body (s.1, s.2 ++ [Begin]) with
  | (Ok _, (db', log)) => (Ok tt, (db', log ++ [Commit]))
  | (Raise e, (_, log)) => (Raise e, (s.1, log ++ [Rollback]))
  end.
Proof. reflexivity. Qed.

Lemma for_each_ext {S A : Type} (xs : list A) (f g : A -> ST S unit) :
  (forall x s, f x s = g x s) -> forall s, for_each xs f s = for_each xs g s.
Proof.
  intros H. induction xs as [|x xs IH]; intros s; [reflexivity|].
  rewrite !for_each_cons, H. destruct (g x s) as [[[]|e] s']; [apply IH | reflexivity].
Qed.

Lemma load_json_children (primary fk : string) (source : value) (data : document)
    (s : Database * list event) :
  for_each data
    (fun kv =>
       if String.eqb kv.1 primary then mret tt
       else for_each kv.2 (fun v => execute_insert kv.1 [<[fk := source]> v])) s =
  for_each (child_statements primary fk source data)
    (fun st => execute_insert st.1 st.2) s.
Proof.
  unfold child_statements. rewrite <- for_each_flat. apply for_each_ext.
  intros [k vs] s0. cbn [fst snd]. destruct (String.eqb k primary); [reflexivity|].
  clear. revert s0. induction vs as [|v vs IH]; intros s0; [reflexivity|].
  cbn [map]. rewrite !for_each_cons. cbn [fst snd].
  destruct (execute_insert k _ s0) as [[[]|e] s']; [apply IH | reflexivity].
Qed.

Lemma transaction_ext (b1 b2 : Exec unit) (s : Database * list event) :
  (forall s0, b1 s0 = b2 s0) -> transaction b1 s = transaction b2 s.
Proof. intros H. unfold transaction. now rewrite H. Qed.

Lemma load_json_run (filename : list string) (fs : node) (j : jdocument)
    (s : Database * list event) (first : row) (rest : list row) (source : value) :
  read_file filename fs = Ok (SourceJSON j) ->
  dict_get (primary_table s.1) (loads_document j) = Some (first :: rest) ->
  first !! primary_table_key s.1 = Some source ->
  load_json filename fs s =
  transaction
    (for_each
       ((primary_table s.1, first :: rest) ::
        child_statements (primary_table s.1) (foreign_key s.1) source (loads_document j))
       (fun st => execute_insert st.1 st.2)) s.
Proof.
  intros Hread Hget Hsrc. unfold load_json.
  rewrite st_bind_unfold. unfold lift at 1. rewrite Hread.
  rewrite st_bind_unfold. unfold lift at 1. cbn match. rewrite Hget, Hsrc.
  apply transaction_ext. intros s0.
  rewrite for_each_cons, st_bind_unfold. cbn [fst snd].
  destruct (execute_insert _ _ s0) as [[[]|e] s1]; [|reflexivity].
  apply load_json_children.
Qed.

Lemma child_statements_events (primary fk : string) (source : value) (data : document) :
  map event_of (child_statements primary fk source data) =
  flat_map
    (fun kv : string * list row =>
       if String.eqb kv.1 primary then []
       else map (fun v : row => Insert kv.1 [<[fk := source]> v]) kv.2)
    data.
Proof.
  unfold child_statements. induction data as [|[k vs] d IH]; [reflexivity|].
  cbn [flat_map fst snd]. rewrite map_app, IH. f_equal.
  destruct (String.eqb k primary); [reflexivity|].
  rewrite map_map. reflexivity.
Qed.

(** C6. When [load_json] imports a document, the statements it sends
    inside its transaction are, in this order, the insert of the whole
    primary-table entry and then, for every other key and every row under
    it, the insert of that row with the foreign key column set to the
    identity value of the first primary row.  What reaches the store is a
    prefix of that sequence, and all of it when the import commits. *)
Theorem load_json_insertion_order (filename : list string) (fs : node) (j : jdocument)
    (s : Database * list event) (first : row) (rest : list row) (source : value) :
  read_file filename fs = Ok (SourceJSON j) ->
  dict_get (primary_table s.1) (loads_document j) = Some (first :: rest) ->
  first !! primary_table_key s.1 = Some source ->
  let out := load_json filename fs s in
  let children :=
    flat_map
      (fun kv : string * list row =>
         if String.eqb kv.1 (primary_table s.1) then []
         else map (fun v : row => Insert kv.1 [<[foreign_key s.1 := source]> v]) kv.2)
      (loads_document j) in
  exists sent closing,
    out.2.2 = s.2 ++ Begin :: sent ++ [closing] /\
    sent `prefix_of` (Insert (primary_table s.1) (first :: rest) :: children) /\
    (out.1 = Ok tt ->
     sent = Insert (primary_table s.1) (first :: rest) :: children /\ closing = Commit) /\
    (out.1 <> Ok tt -> closing = Rollback /\ out.2.1 = s.1).
Proof.
  intros Hread Hget Hsrc. cbn zeta.
  rewrite (load_json_run filename fs j s first rest source Hread Hget Hsrc).
  rewrite transaction_unfold.
  set (stmts := (primary_table s.1, first :: rest) :: child_statements _ _ _ _).
  assert (Hev : map event_of stmts =
                Insert (primary_table s.1) (first :: rest) ::
                flat_map
                  (fun kv : string * list row =>
                     if String.eqb kv.1 (primary_table s.1) then []
                     else map (fun v : row => Insert kv.1 [<[foreign_key s.1 := source]> v]) kv.2)
                  (loads_document j)).
  { subst stmts. cbn [map]. unfold event_of at 1. cbn [fst snd]. f_equal.
    apply child_statements_events. }
  destruct (run_inserts_log stmts (s.1, s.2 ++ [Begin])) as (sent & Hlog & Hpre & Hall).
  cbn zeta in *. rewrite Hev in *.
  destruct (for_each stmts _ _) as [[[]|e] [db' log]]; cbn [fst snd] in *.
  - exists sent, Commit. rewrite Hlog, <- !app_assoc. cbn.
    split; [reflexivity|]. split; [exact Hpre|]. split; [auto | congruence].
  - exists sent, Rollback. rewrite Hlog, <- !app_assoc. cbn.
    split; [reflexivity|]. split; [exact Hpre|]. split; [discriminate | auto].
Qed.

(** C10. A document whose primary-table entry is missing or empty makes
    [load_json] raise before it opens a transaction: no statement is sent
    and the store is as it was. *)
Theorem load_json_without_primary (filename : list string) (fs : node) (j : jdocument)
    (s : Database * list event) :
  read_file filename fs = Ok (SourceJSON j) ->
  dict_get (primary_table s.1) (loads_document j) = None \/
  dict_get (primary_table s.1) (loads_document j) = Some [] ->
  exists e, load_json filename fs s = (Raise e, s) /\
            (e = KeyError (primary_table s.1) \/ e = IndexError).
Proof.
  intros Hread Hget. unfold load_json.
  rewrite st_bind_unfold. unfold lift at 1. rewrite Hread.
  rewrite st_bind_unfold. unfold lift at 1. cbn match.
  destruct Hget as [-> | ->]; eauto.
Qed.

(** *** Clearing the store *)

Lemma dict_get_In {A : Type} (k : string) (v : A) (d : list (string * A)) :
  dict_get k d = Some v -> In (k, v) d.
Proof.
  induction d as [|[k0 v0] d IH]; cbn [dict_get]; [discriminate|].
  destruct (String.eqb_spec k k0) as [->|_]; [left; congruence | right; auto].
Qed.

Lemma In_dict_get {A : Type} (k : string) (v : A) (d : list (string * A)) :
  NoDup (dict_keys d) -> In (k, v) d -> dict_get k d = Some v.
Proof.
  induction d as [|[k0 v0] d IH]; cbn [dict_get dict_keys map fst]; [intros _ []|].
  intros Hnd [Heq|Hin]; apply NoDup_cons in Hnd as [Hk Hnd].
  - injection Heq as -> ->. now rewrite String.eqb_refl.
  - destruct (String.eqb_spec k k0) as [->|_]; [|auto].
    exfalso. apply Hk. apply list_elem_of_In. apply (in_map fst) in Hin. exact Hin.
Qed.

Lemma dict_keys_set {A : Type} (k : string) (v : A) (d : list (string * A)) :
  is_Some (dict_get k d) -> dict_keys (dict_set k v d) = dict_keys d.
Proof.
  induction d as [|[k0 v0] d IH]; cbn [dict_get dict_set dict_keys map fst].
  - intros [? ?]; discriminate.
  - destruct (String.eqb_spec k k0) as [->|_]; [reflexivity|].
    intros H. cbn [map fst]. f_equal. now apply IH.
Qed.

Lemma map_dict_set {A B : Type} (f : A -> B) (k : string) (v : A) (d : list (string * A)) :
  map (fun kv => (kv.1, f kv.2)) (dict_set k v d) =
  dict_set k (f v) (map (fun kv => (kv.1, f kv.2)) d).
Proof.
  induction d as [|[k0 v0] d IH]; cbn [dict_set map fst snd]; [reflexivity|].
  destruct (String.eqb k k0); cbn [map fst snd]; [reflexivity | now rewrite IH].
Qed.

Lemma dict_set_same {A : Type} (k : string) (v : A) (d : list (string * A)) :
  dict_get k d = Some v -> dict_set k v d = d.
Proof.
  induction d as [|[k0 v0] d IH]; cbn [dict_get dict_set]; [discriminate|].
  destruct (String.eqb_spec k k0) as [->|_]; [congruence|].
  intros H. now rewrite IH.
Qed.

Lemma dict_get_map {A B : Type} (f : A -> B) (k : string) (d : list (string * A)) :
  dict_get k (map (fun kv => (kv.1, f kv.2)) d) = f <$> dict_get k d.
Proof.
  induction d as [|[k0 v0] d IH]; cbn [dict_get map fst snd]; [reflexivity|].
  destruct (String.eqb k k0); [reflexivity | exact IH].
Qed.

(** Replacing the rows of one table leaves the schema alone. *)
Lemma schema_with_rows (db : Database) (name : string) (t : table) (rs : list row) :
  dict_get name (tables db) = Some t ->
  schema (with_tables db (dict_set name (with_rows t rs) (tables db))) = schema db.
Proof.
  intros Ht. unfold schema, with_tables.
  cbn [tables sorted_tables reference_tables primary_table primary_table_key
       foreign_key sqlite_foreign].
  rewrite (map_dict_set declaration), dict_set_same; [reflexivity|].
  rewrite (dict_get_map declaration), Ht. reflexivity.
Qed.

Lemma schema_keys (d db : Database) :
  schema d = schema db -> dict_keys (tables d) = dict_keys (tables db).
Proof.
  unfold schema. intros H. injection H as H _ _ _ _ _ _.
  apply (f_equal (map fst)) in H. rewrite !map_map in H. exact H.
Qed.

Lemma schema_constraints (d db : Database) (u : string) :
  schema d = schema db -> constraints_of d u = constraints_of db u.
Proof.
  unfold schema. intros H. injection H as H _ _ _ _ _ _.
  apply (f_equal (dict_get u)) in H. rewrite !(dict_get_map declaration) in H.
  unfold constraints_of.
  destruct (dict_get u (tables d)), (dict_get u (tables db)); simplify_eq/=; congruence.
Qed.

Lemma rows_of_with_rows (db : Database) (name u : string) (t : table) (rs : list row) :
  rows_of (with_tables db (dict_set name (with_rows t rs) (tables db))) u =
  if String.eqb u name then rs else rows_of db u.
Proof.
  unfold rows_of, with_tables. cbn [tables]. rewrite dict_get_set.
  destruct (String.eqb u name); reflexivity.
Qed.

Lemma lists_every_table_parts (db : Database) :
  lists_every_table db = true ->
  NoDup (sorted_tables db) /\ NoDup (dict_keys (tables db)) /\
  (forall u, u ∈ dict_keys (tables db) <-> u ∈ sorted_tables db).
Proof.
  unfold lists_every_table. intros H.
  apply andb_prop in H as [H Hsk].
  apply andb_prop in H as [H Hks]. apply andb_prop in H as [Hnd Hndk].
  apply bool_decide_eq_true in Hnd, Hndk. rewrite forallb_forall in Hsk, Hks.
  split; [exact Hnd|]. split; [exact Hndk|]. intros u. split; intros Hu.
  - apply list_elem_of_In, Hks in Hu. now apply bool_decide_eq_true in Hu.
  - apply list_elem_of_In, Hsk in Hu. now apply bool_decide_eq_true in Hu.
Qed.

Section Clearing.

Variable db : Database.
Hypothesis contract : sorted_tables_ok db = true.

Local Abbreviation sorted := (sorted_tables db).

Lemma contract_parts :
  NoDup sorted /\ NoDup (dict_keys (tables db)) /\
  (forall u, u ∈ dict_keys (tables db) <-> u ∈ sorted).
Proof.
  pose proof contract as H. unfold sorted_tables_ok in H.
  apply andb_prop in H as [H _]. now apply lists_every_table_parts.
Qed.

Lemma sorted_NoDup : NoDup sorted.
Proof. apply contract_parts. Qed.

Lemma keys_NoDup : NoDup (dict_keys (tables db)).
Proof. apply contract_parts. Qed.

Lemma sorted_complete (u : string) : u ∈ dict_keys (tables db) <-> u ∈ sorted.
Proof. apply contract_parts. Qed.

(** A table refers only to itself, to tables the store does not have, and
    to tables listed before it. *)
Lemma referenced_earlier (j : nat) (u : string) (c : foreign_key_constraint) :
  sorted !! j = Some u ->
  In c (constraints_of db u) ->
  fk_table c <> u ->
  fk_table c ∈ dict_keys (tables db) ->
  exists i, (i < j)%nat /\ sorted !! i = Some (fk_table c).
Proof.
  intros Hj Hc Hne Hkey.
  pose proof contract as Hord. unfold sorted_tables_ok in Hord.
  apply andb_prop in Hord as [_ Hord].
  rewrite forallb_forall in Hord.
  assert (Hlt : (j < List.length sorted)%nat) by (apply lookup_lt_Some in Hj; exact Hj).
  specialize (Hord j). rewrite in_seq in Hord. specialize (Hord ltac:(lia)).
  rewrite Hj in Hord. rewrite forallb_forall in Hord.
  specialize (Hord c Hc).
  apply orb_prop in Hord as [Hord|Hord]; [apply orb_prop in Hord as [Hord|Hord]|].
  - apply String.eqb_eq in Hord. contradiction.
  - apply negb_true_iff, bool_decide_eq_false in Hord. contradiction.
  - apply bool_decide_eq_true, elem_of_take in Hord as (i & Hi & Hlt'). eauto.
Qed.

Lemma depends_on_order (u t : string) :
  depends_on db u t ->
  exists i j, (i < j)%nat /\ sorted !! i = Some t /\ sorted !! j = Some u.
Proof.
  intros (Hne & Ht & c & Hc & Hfk).
  assert (Hu : u ∈ sorted).
  { apply sorted_complete. apply dict_get_keys. unfold constraints_of in Hc.
    destruct (dict_get u (tables db)); [eauto | destruct Hc]. }
  apply list_elem_of_lookup in Hu as [j Hj].
  destruct (referenced_earlier j u c Hj Hc) as (i & Hlt & Hi); subst t; eauto; congruence.
Qed.

Lemma depends_on_order_tc (u t : string) :
  tc (depends_on db) u t ->
  exists i j, (i < j)%nat /\ sorted !! i = Some t /\ sorted !! j = Some u.
Proof.
  induction 1 as [u t H | u v t H _ IH].
  - now apply depends_on_order.
  - apply depends_on_order in H as (i1 & j1 & Hlt1 & Hi1 & Hj1).
    destruct IH as (i2 & j2 & Hlt2 & Hi2 & Hj2).
    assert (j2 = i1) by (eapply NoDup_lookup; eauto using sorted_NoDup). subst.
    exists i2, j1. split; [lia | tauto].
Qed.

(** An order that meets the contract exists only when the foreign keys
    form no cycle. *)
Lemma sorted_tables_acyclic (u : string) : ~ tc (depends_on db) u u.
Proof.
  intros H. apply depends_on_order_tc in H as (i & j & Hlt & Hi & Hj).
  assert (i = j) by (eapply NoDup_lookup; eauto using sorted_NoDup). lia.
Qed.

(** Deleting the rows of the table at position [n] raises nothing once
    the tables listed after it are empty. *)
Lemma delete_unreferenced (d : Database) (n : nat) (t : string) (tt : table) :
  schema d = schema db ->
  sorted !! n = Some t ->
  dict_get t (tables d) = Some tt ->
  (forall u, u ∈ drop (S n) sorted -> rows_of d u = []) ->
  still_referenced (dict_set t (with_rows tt []) (tables d)) t (rows tt) = false.
Proof.
  intros Hs Hn Ht Hempty. apply not_true_is_false. intros Href.
  unfold still_referenced in Href.
  apply existsb_exists in Href as ([u tu] & Hin & Href). cbn [snd] in Href.
  apply existsb_exists in Href as (c & Hc & Href).
  apply andb_prop in Href as [Hfk Href]. apply String.eqb_eq in Hfk.
  apply existsb_exists in Href as (r & Hr & _).
  assert (Hkeys : dict_keys (dict_set t (with_rows tt []) (tables d)) = dict_keys (tables db)).
  { rewrite dict_keys_set by eauto. now apply schema_keys. }
  apply In_dict_get in Hin; [|rewrite Hkeys; apply keys_NoDup].
  rewrite dict_get_set in Hin.
  destruct (String.eqb_spec u t) as [->|Hne].
  - injection Hin as <-. destruct Hr.
  - assert (Hu : u ∈ sorted).
    { apply sorted_complete. rewrite <- (schema_keys d db Hs). apply dict_get_keys. eauto. }
    apply list_elem_of_lookup in Hu as [k Hk].
    assert (Hcu : In c (constraints_of db u)).
    { rewrite <- (schema_constraints d db u Hs). unfold constraints_of. now rewrite Hin. }
    destruct (referenced_earlier k u c Hk Hcu) as (i & Hlt & Hi).
    + congruence.
    + rewrite Hfk. apply sorted_complete. eapply list_elem_of_lookup_2. exact Hn.
    + rewrite Hfk in Hi.
      assert (i = n) by (eapply NoDup_lookup; eauto using sorted_NoDup). subst i.
      assert (Hd : u ∈ drop (S n) sorted).
      { apply list_elem_of_lookup. exists (k - S n)%nat. rewrite lookup_drop.
        replace (S n + (k - S n))%nat with k by lia. exact Hk. }
      specialize (Hempty u Hd). unfold rows_of in Hempty. rewrite Hin in Hempty.
      rewrite Hempty in Hr. destruct Hr.
Qed.

Lemma clear_step (d : Database) (log : list event) (n : nat) (t : string) :
  schema d = schema db ->
  sorted !! n = Some t ->
  (forall u, u ∈ drop (S n) sorted -> rows_of d u = []) ->
  exists d',
    transaction (execute_delete t) (d, log) = (Ok tt, (d', log ++ [Begin; Delete t; Commit])) /\
    schema d' = schema db /\
    (forall u, u ∈ drop n sorted -> rows_of d' u = []).
Proof.
  intros Hs Hn Hempty.
  assert (Ht : is_Some (dict_get t (tables d))).
  { apply dict_get_keys. rewrite (schema_keys d db Hs). apply sorted_complete.
    eapply list_elem_of_lookup_2. exact Hn. }
  destruct Ht as [tt Ht].
  exists (with_tables d (dict_set t (with_rows tt []) (tables d))).
  split; [|split].
  - unfold transaction, execute_delete, get_table, delete_rows. cbn [fst snd].
    rewrite Ht. rewrite (delete_unreferenced d n t tt Hs Hn Ht Hempty), andb_false_r.
    rewrite <- !app_assoc. reflexivity.
  - rewrite schema_with_rows by exact Ht. exact Hs.
  - intros u Hu. rewrite rows_of_with_rows.
    destruct (String.eqb_spec u t) as [|Hne]; [reflexivity|].
    apply Hempty. rewrite (drop_S sorted t n Hn) in Hu.
    apply elem_of_cons in Hu as [|]; [contradiction | assumption].
Qed.

Lemma clear_loop (n : nat) :
  forall (d : Database) (log : list event),
  (n <= List.length sorted)%nat ->
  schema d = schema db ->
  (forall u, u ∈ drop n sorted -> rows_of d u = []) ->
  exists d',
    for_each (reverse (take n sorted)) (fun t => transaction (execute_delete t)) (d, log) =
      (Ok tt, (d', log ++ flat_map (fun t => [Begin; Delete t; Commit]) (reverse (take n sorted)))) /\
    schema d' = schema db /\
    (forall u, u ∈ sorted -> rows_of d' u = []).
Proof.
  induction n as [|n IH]; intros d log Hlen Hs Hempty.
  - exists d. rewrite take_0. cbn. rewrite app_nil_r. rewrite drop_0 in Hempty. auto.
  - destruct (lookup_lt_is_Some_2 sorted n ltac:(lia)) as [t Hn].
    rewrite (take_S_r sorted n t Hn), reverse_snoc, for_each_cons.
    destruct (clear_step d log n t Hs Hn Hempty) as (d1 & Hrun & Hs1 & Hempty1).
    rewrite Hrun.
    destruct (IH d1 (log ++ [Begin; Delete t; Commit]) ltac:(lia) Hs1 Hempty1)
      as (d' & Hrun' & Hs' & Hempty').
    exists d'. rewrite Hrun'. cbn [flat_map]. rewrite <- !app_assoc. auto.
Qed.

End Clearing.

(** C7. When [sorted_tables] lists every table once and after the other
    tables it references (which SQLAlchemy provides for an acyclic foreign
    key graph), the clearing phase of [load_database] deletes the rows of
    every table, one committed transaction per table, no deletion raises,
    and a table is cleared before every table it references, directly or
    through other tables. *)
Theorem clear_tables_safe (db : Database) (log : list event) :
  sorted_tables_ok db = true ->
  exists db',
    clear_tables (db, log) =
      (Ok tt,
       (db', log ++ flat_map (fun t => [Begin; Delete t; Commit]) (reverse (sorted_tables db)))) /\
    schema db' = schema db /\
    (forall name t, dict_get name (tables db') = Some t -> rows t = []) /\
    (forall u t,
       tc (depends_on db) u t ->
       exists i j, (i < j)%nat /\
                   reverse (sorted_tables db) !! i = Some u /\
                   reverse (sorted_tables db) !! j = Some t).
Proof.
  intros Hok.
  destruct (clear_loop db Hok (List.length (sorted_tables db)) db log) as (db' & Hrun & Hs & Hempty).
  - lia.
  - reflexivity.
  - intros u Hu. rewrite drop_all in Hu. inversion Hu.
  - rewrite firstn_all in Hrun. exists db'. split; [|split; [|split]].
    + unfold clear_tables. rewrite st_bind_unfold. exact Hrun.
    + exact Hs.
    + intros name t Ht. specialize (Hempty name). unfold rows_of in Hempty.
      rewrite Ht in Hempty. apply Hempty. apply (sorted_complete db Hok).
      rewrite <- (schema_keys db' db Hs). apply dict_get_keys. eauto.
    + intros u t Hdep. apply (depends_on_order_tc db Hok) in Hdep as (i & j & Hlt & Hi & Hj).
      pose proof (lookup_lt_Some _ _ _ Hi) as Hli. pose proof (lookup_lt_Some _ _ _ Hj) as Hlj.
      exists (List.length (sorted_tables db) - S j)%nat, (List.length (sorted_tables db) - S i)%nat.
      split; [lia|]. split; apply reverse_lookup_Some; (split; [|lia]).
      * replace (_ - S (_ - S j))%nat with j by lia. exact Hj.
      * replace (_ - S (_ - S i))%nat with i by lia. exact Hi.
Qed.

Lemma clear_tables_safe_witness :
  sorted_tables_ok sample_db = true /\
  exists db',
    (clear_tables (sample_db, [])).1 = Ok tt /\
    (clear_tables (sample_db, [])).2.1 = db' /\
    rows_of db' "Photometry" = [].
Proof.
  split; [vm_compute; reflexivity|].
  destruct (clear_tables_safe sample_db []) as (db' & Hrun & _ & Hempty & _);
    [vm_compute; reflexivity|].
  exists db'. rewrite Hrun. split; [reflexivity|]. split; [reflexivity|].
  unfold rows_of. destruct (dict_get "Photometry" (tables db')) eqn:Ht; [|reflexivity].
  exact (Hempty _ _ Ht).
Defined.

(** Clearing in the listed order instead is refused by a store that
    enforces foreign keys. *)
Example clear_in_listed_order_raises :
  (for_each (sorted_tables sample_db) (fun t => transaction (execute_delete t)) (sample_db, [])).1 =
  Raise (IntegrityError "Publications").
Proof. vm_compute. reflexivity. Qed.

Example orphan_directory_holds_empty_document :
  orphan_directory = Dir [("gl_229.json", File (SourceJSON []))].
Proof. vm_compute. reflexivity. Qed.

Lemma load_json_insertion_order_witness :
  read_file sample_source_file sample_directory = Ok (SourceJSON sample_source_json) /\
  exists sent closing,
    (load_json sample_source_file sample_directory (references_loaded, [])).2.2 =
      Begin :: sent ++ [closing] /\
    List.length sent = 5%nat /\ closing = Commit.
Proof.
  split; [vm_compute; reflexivity|].
  destruct (load_json_insertion_order sample_source_file sample_directory sample_source_json
              (references_loaded, [])
              {[ "source" := VStr "2MASS J13571237+1428398"; "ra" := VFloat "209.301675";
                 "dec" := VFloat "14.477722"; "shortname" := VStr "1357+1428";
                 "reference" := VStr "Schm10"; "comments" := VNull ]}
              [] (VStr "2MASS J13571237+1428398"))
    as (sent & closing & Hlog & _ & Hok & _);
    [vm_compute; reflexivity | vm_compute; reflexivity | vm_compute; reflexivity |].
  exists sent, closing. split; [exact Hlog|].
  destruct Hok as [-> ->]; [vm_compute; reflexivity|]. split; reflexivity.
Defined.

Lemma load_json_without_primary_witness :
  read_file ["gl_229.json"] orphan_directory = Ok (SourceJSON []) /\
  exists e, load_json ["gl_229.json"] orphan_directory (sample_db, []) = (Raise e, (sample_db, [])).
Proof.
  split; [vm_compute; reflexivity|].
  destruct (load_json_without_primary ["gl_229.json"] orphan_directory [] (sample_db, []))
    as (e & He & _); [vm_compute; reflexivity | left; vm_compute; reflexivity |].
  exists e. exact He.
Defined.

(** *** Invariants of loops *)

Lemma preserves_ret {S A : Type} (I : S -> Prop) (a : A) : preserves I (mret a : ST S A).
Proof. intros s H. exact H. Qed.

Lemma preserves_lift {S A : Type} (I : S -> Prop) (r : result A) : preserves I (lift r : ST S A).
Proof. intros s H. exact H. Qed.

Lemma preserves_raise {S A : Type} (I : S -> Prop) (e : error) : preserves I (raise e : ST S A).
Proof. intros s H. exact H. Qed.

Lemma preserves_bind {S A B : Type} (I : S -> Prop) (m : ST S A) (f : A -> ST S B) :
  preserves I m -> (forall a, preserves I (f a)) -> preserves I (m ≫= f).
Proof.
  intros Hm Hf s H. rewrite st_bind_unfold. specialize (Hm s H).
  destruct (m s) as [[a|e] s']; cbn [snd] in *; [now apply Hf | exact Hm].
Qed.

Lemma preserves_for_each {S A : Type} (I : S -> Prop) (xs : list A) (body : A -> ST S unit) :
  (forall x, In x xs -> preserves I (body x)) -> preserves I (for_each xs body).
Proof.
  induction xs as [|x xs IH]; intros Hb; [apply preserves_ret|].
  cbn [for_each]. apply preserves_bind; [apply Hb; now left|].
  intros _. apply IH. intros y Hy. apply Hb. now right.
Qed.

Lemma preserves_run_fs (I : node -> Prop) (f : node -> result node) :
  (forall fs fs', I fs -> f fs = Ok fs' -> I fs') -> preserves I (run_fs f).
Proof.
  intros Hf fs H. unfold run_fs. destruct (f fs) as [fs'|e] eqn:E; cbn [snd]; eauto.
Qed.

(** *** The directory tree *)

Lemma write_file_other (c : file_content) (l : list string) :
  forall (a b : string) (p q : list string) (fs fs' : node),
  a <> b ->
  write_file (l ++ a :: p) c fs = Ok fs' ->
  fs_lookup (l ++ b :: q) fs' = fs_lookup (l ++ b :: q) fs.
Proof.
  induction l as [|n l IH]; intros a b p q fs fs' Hne Hw.
  - cbn [app] in *. destruct fs as [?|es]; [destruct p; discriminate|].
    assert (Hset : exists x, fs' = Dir (dict_set a x es)).
    { cbn [write_file] in Hw. destruct p as [|p0 p], (dict_get a es) as [child|] eqn:Ha.
      - destruct (write_file [] c child); cbn in Hw; [injection Hw as <-; eauto | discriminate].
      - destruct (valid_name a); [injection Hw as <-; eauto | discriminate].
      - destruct (write_file (p0 :: p) c child); cbn in Hw; [injection Hw as <-; eauto | discriminate].
      - discriminate. }
    destruct Hset as [x ->]. cbn [fs_lookup]. rewrite dict_get_set.
    destruct (String.eqb_spec b a); [congruence | reflexivity].
  - cbn [app] in *. destruct fs as [?|es]; [discriminate|].
    cbn [write_file] in Hw.
    destruct (l ++ a :: p) as [|x rest] eqn:Hl; [destruct l; discriminate|].
    destruct (dict_get n es) as [child|] eqn:Hn; [|discriminate].
    destruct (write_file (x :: rest) c child) as [child'|] eqn:Hc; cbn in Hw; [|discriminate].
    injection Hw as <-. cbn [fs_lookup]. rewrite dict_get_set, String.eqb_refl, Hn.
    rewrite <- Hl in Hc. exact (IH a b p q child child' Hne Hc).
Qed.

Lemma write_file_found (c : file_content) (p : list string) :
  forall fs fs' : node, write_file p c fs = Ok fs' -> fs_lookup p fs' = Some (File c).
Proof.
  induction p as [|n p IH]; intros fs fs' Hw.
  - destruct fs; cbn in Hw; [injection Hw as <-; reflexivity | discriminate].
  - destruct fs as [?|es]; [discriminate|]. cbn [write_file] in Hw.
    destruct p as [|p0 p], (dict_get n es) as [child|] eqn:Hn.
    + destruct (write_file [] c child) as [child'|] eqn:Hc; cbn in Hw; [|discriminate].
      injection Hw as <-. cbn [fs_lookup]. rewrite dict_get_set, String.eqb_refl.
      exact (IH child child' Hc).
    + destruct (valid_name n); [|discriminate]. injection Hw as <-.
      cbn [fs_lookup]. now rewrite dict_get_set, String.eqb_refl.
    + destruct (write_file (p0 :: p) c child) as [child'|] eqn:Hc; cbn in Hw; [|discriminate].
      injection Hw as <-. cbn [fs_lookup]. rewrite dict_get_set, String.eqb_refl.
      exact (IH child child' Hc).
    + discriminate.
Qed.

Lemma write_file_cons (n : string) (p : list string) (c : file_content)
    (es : list (string * node)) :
  write_file (n :: p) c (Dir es) =
  match p, dict_get n es with
  | [], None =>
      if valid_name n then Ok (Dir (dict_set n (File c) es)) else Raise (OSError n)
  | _, Some child => child' ← write_file p c child; Ok (Dir (dict_set n child' es))
  | _ :: _, None => Raise (OSError n)
  end.
Proof. destruct p; reflexivity. Qed.


Lemma makedirs_single (d : string) (fs fs' : node) :
  makedirs [d] fs = Ok fs' ->
  exists es, fs = Dir es /\ dict_get d es = None /\ fs' = Dir (dict_set d (Dir []) es).
Proof.
  destruct fs as [?|es]; [discriminate|]. cbn [makedirs].
  destruct (dict_get d es) as [child|] eqn:Hd; [destruct child; discriminate|].
  destruct (valid_name d); [|discriminate]. intros H. injection H as <-. eauto.
Qed.

Lemma append_json_inj (a b : string) : a +:+ ".json" = b +:+ ".json" -> a = b.
Proof.
  revert b. induction a as [|x a IH]; intros [|y b] H.
  - reflexivity.
  - exfalso. do 5 (destruct b as [|? b]; [discriminate H|]). discriminate H.
  - exfalso. do 5 (destruct a as [|? a]; [discriminate H|]). discriminate H.
  - rewrite !append_cons in H. injection H as -> H. f_equal. now apply IH.
Qed.

Lemma json_name_not_directory (T : string) :
  T +:+ ".json" <> reference_directory /\ T +:+ ".json" <> source_directory.
Proof.
  split; intros H.
  - do 9 (destruct T as [|? T]; [discriminate H|]; rewrite append_cons in H; injection H as _ H).
    destruct T; discriminate H.
  - do 6 (destruct T as [|? T]; [discriminate H|]; rewrite append_cons in H; injection H as _ H).
    destruct T; discriminate H.
Qed.

(** *** A reference table without rows *)

Lemma makedirs_lookup (d : string) (fs fs' : node) :
  makedirs [d] fs = Ok fs' ->
  forall x q, fs_lookup (x :: q) fs' =
              if String.eqb x d then fs_lookup q (Dir []) else fs_lookup (x :: q) fs.
Proof.
  intros H x q. apply makedirs_single in H as (es & -> & _ & ->).
  cbn [fs_lookup]. rewrite dict_get_set. destruct (String.eqb x d); reflexivity.
Qed.

Lemma write_file_other_top (c : file_content) (a b : string) (p q : list string)
    (fs fs' : node) :
  a <> b ->
  write_file (a :: p) c fs = Ok fs' ->
  fs_lookup (b :: q) fs' = fs_lookup (b :: q) fs.
Proof. exact (write_file_other c [] a b p q fs fs'). Qed.

Lemma write_file_other_sub (c : file_content) (d a b : string) (p q : list string)
    (fs fs' : node) :
  a <> b ->
  write_file (d :: a :: p) c fs = Ok fs' ->
  fs_lookup (d :: b :: q) fs' = fs_lookup (d :: b :: q) fs.
Proof. exact (write_file_other c [d] a b p q fs fs'). Qed.

Lemma preserves_bind_ok {S A B : Type} (I : S -> Prop) (m : ST S A) (f : A -> ST S B) :
  preserves I m ->
  (forall a s s', m s = (Ok a, s') -> I s' -> I (f a s').2) ->
  preserves I (m ≫= f).
Proof.
  intros Hm Hf s H. rewrite st_bind_unfold. specialize (Hm s H).
  destruct (m s) as [[a|e] s'] eqn:E; cbn [snd] in *; [now apply (Hf a s) | exact Hm].
Qed.

Lemma fs_lookup_empty_dir (x : string) (q : list string) : fs_lookup (x :: q) (Dir []) = None.
Proof. reflexivity. Qed.




Lemma dict_keys_In {A : Type} (k : string) (d : list (string * A)) :
  k ∈ dict_keys d <-> exists v, In (k, v) d.
Proof.
  unfold dict_keys. rewrite list_elem_of_In, in_map_iff. split.
  - intros ([k' v] & <- & Hin). eauto.
  - intros [v Hin]. exists (k, v). auto.
Qed.


Lemma dict_remove_keys {A : Type} (k n : string) (d : list (string * A)) :
  k ∈ dict_keys (dict_remove n d) -> k ∈ dict_keys d /\ k <> n.
Proof.
  rewrite !dict_keys_In. intros [v Hin]. unfold dict_remove in Hin.
  apply filter_In in Hin as [Hin Hne]. cbn [fst] in Hne.
  split; [eauto|]. intros ->. now rewrite String.eqb_refl in Hne.
Qed.

(** The first block of [save_database] leaves the top directory empty. *)
Lemma clear_directory (names : list string) :
  forall es : list (string * node),
  (forall k, k ∈ dict_keys es -> k ∈ names) ->
  for_each names
    (fun file fs =>
       if path_isfile [file] fs then run_fs (remove_entry file) fs
       else if path_isdir [file] fs then run_fs (remove_entry file) fs
       else (Ok tt, fs))
    (Dir es) = (Ok tt, Dir []).
Proof.
  induction names as [|n names IH]; intros es Hk.
  - destruct es as [|[k v] es]; [reflexivity|].
    specialize (Hk k ltac:(now left)). inversion Hk.
  - rewrite for_each_cons.
    assert (Hstep : exists es',
      (if path_isfile [n] (Dir es) then run_fs (remove_entry n) (Dir es)
       else if path_isdir [n] (Dir es) then run_fs (remove_entry n) (Dir es)
       else (Ok tt, Dir es)) = (Ok tt, Dir es') /\
      forall k, k ∈ dict_keys es' -> k ∈ dict_keys es /\ k <> n).
    { unfold path_isfile, path_isdir, run_fs, remove_entry. cbn [fs_lookup].
      destruct (dict_get n es) as [[c|sub]|] eqn:Hn.
      - exists (dict_remove n es). split; [reflexivity | intros k; apply dict_remove_keys].
      - exists (dict_remove n es). split; [reflexivity | intros k; apply dict_remove_keys].
      - exists es. split; [reflexivity|]. intros k Hin. split; [exact Hin|].
        intros ->. apply dict_get_keys in Hin as [? ?]. congruence. }
    destruct Hstep as (es' & -> & Hes'). apply IH. intros k Hin.
    destruct (Hes' k Hin) as [Hin' Hne]. specialize (Hk k Hin').
    apply elem_of_cons in Hk as [|]; [contradiction | assumption].
Qed.



Section EmptyReferenceTable.

Variable db : Database.
Variable T : string.
Variable t : table.
Hypothesis T_reference : T ∈ reference_tables db.
Hypothesis T_table : dict_get T (tables db) = Some t.
Hypothesis T_empty : rows t = [].





End EmptyReferenceTable.











(** *** What [save_database] writes *)

Lemma st_bind_ok {S A B : Type} (m : ST S A) (f : A -> ST S B) (s s' : S) (a : A) :
  m s = (Ok a, s') -> (m ≫= f) s = f a s'.
Proof. intros H. now rewrite st_bind_unfold, H. Qed.

Lemma write_file_layout_reference (f : string) (c : file_content)
    (refs srcs : list (string * node)) :
  valid_name f = true ->
  (forall n, dict_get f refs = Some n -> exists c', n = File c') ->
  write_file [reference_directory; f] c (layout refs srcs) =
  Ok (layout (dict_set f (File c) refs) srcs).
Proof.
  intros Hv Hfiles. unfold layout. rewrite write_file_cons.
  change (dict_get reference_directory _) with (Some (Dir refs)). cbn match.
  rewrite write_file_cons. destruct (dict_get f refs) as [n|] eqn:Hn.
  - destruct (Hfiles n eq_refl) as [c' ->]. reflexivity.
  - rewrite Hv. reflexivity.
Qed.

Lemma write_file_layout_source (f : string) (c : file_content)
    (refs srcs : list (string * node)) :
  valid_name f = true ->
  (forall n, dict_get f srcs = Some n -> exists c', n = File c') ->
  write_file [source_directory; f] c (layout refs srcs) =
  Ok (layout refs (dict_set f (File c) srcs)).
Proof.
  intros Hv Hfiles. unfold layout. rewrite write_file_cons.
  change (dict_get source_directory _) with (Some (Dir srcs)). cbn match.
  rewrite write_file_cons. destruct (dict_get f srcs) as [n|] eqn:Hn.
  - destruct (Hfiles n eq_refl) as [c' ->]. reflexivity.
  - rewrite Hv. reflexivity.
Qed.

Lemma files_only_nil : files_only [].
Proof. intros k n H. discriminate. Qed.

Lemma files_only_set (f : string) (c : file_content) (es : list (string * node)) :
  files_only es -> files_only (dict_set f (File c) es).
Proof.
  intros H k n. rewrite dict_get_set. destruct (String.eqb k f); [|apply H].
  intros E. injection E as <-. eauto.
Qed.

Lemma reference_file_files_only (db : Database) (R : string) (acc : list (string * node)) :
  files_only acc -> files_only (reference_file db acc R).
Proof.
  intros H. unfold reference_file. destruct (dict_get R (tables db)) as [t|]; [|exact H].
  destruct (rows t); [exact H | now apply files_only_set].
Qed.

Lemma save_reference_table_layout (db : Database) (R : string)
    (refs srcs : list (string * node)) :
  R ∈ dict_keys (tables db) ->
  valid_name (R +:+ ".json") = true ->
  files_only refs ->
  save_reference_table db R (layout refs srcs) =
  (Ok tt, layout (reference_file db refs R) srcs).
Proof.
  intros Hkey Hv Hfiles. unfold save_reference_table, reference_file.
  rewrite st_bind_unfold. change (path_isdir [reference_directory] (layout refs srcs)) with true.
  cbn match. rewrite st_bind_unfold. unfold lift, get_table.
  apply dict_get_keys in Hkey as [t Ht]. rewrite Ht.
  destruct (rows t) as [|r rs]; [reflexivity|].
  unfold run_fs. rewrite write_file_layout_reference; [reflexivity | exact Hv | apply Hfiles].
Qed.

Lemma save_reference_tables_layout (db : Database) (Rs : list string) :
  forall refs srcs,
  (forall R, In R Rs -> valid_name (R +:+ ".json") = true) ->
  files_only refs ->
  for_each Rs
    (fun table_name =>
       if bool_decide (table_name ∈ dict_keys (tables db))
       then save_reference_table db table_name
       else mret tt)
    (layout refs srcs) =
  (Ok tt, layout (fold_left (reference_file db) Rs refs) srcs).
Proof.
  induction Rs as [|R Rs IH]; intros refs srcs Hv Hfiles; [reflexivity|].
  rewrite for_each_cons. cbn [fold_left]. case_bool_decide as Hkey.
  - rewrite save_reference_table_layout; auto using in_eq.
    apply IH; [intros; apply Hv; now right | now apply reference_file_files_only].
  - assert (Hr : reference_file db refs R = refs).
    { unfold reference_file. destruct (dict_get R (tables db)) eqn:E; [|reflexivity].
      exfalso. apply Hkey, dict_get_keys. eauto. }
    rewrite Hr. apply IH; [intros; apply Hv; now right | exact Hfiles].
Qed.

Lemma save_json_layout (db : Database) (r : row) (v : value)
    (refs srcs : list (string * node)) :
  schema_ok db = true ->
  r !! primary_table_key db = Some v ->
  valid_name (source_name v) = true ->
  files_only srcs ->
  save_json db (ByRow r) [source_directory] (layout refs srcs) =
  (Ok tt, layout refs (dict_set (source_name v) (source_content db v) srcs)).
Proof.
  intros Hok Hv Hname Hfiles. unfold save_json. rewrite Hv, (inventory_total db v Hok).
  cbn [mbind result_bind].
  change ([source_directory] ++ [json_filename (py_str v)])
    with [source_directory; source_name v].
  rewrite write_file_layout_source; [reflexivity | exact Hname | apply Hfiles].
Qed.

Lemma save_sources_layout (db : Database) (rs : list row) :
  forall refs srcs,
  schema_ok db = true ->
  (forall r, In r rs -> is_Some (r !! primary_table_key db)) ->
  (forall v, In v (omap (fun r : row => r !! primary_table_key db) rs) ->
             valid_name (source_name v) = true) ->
  files_only srcs ->
  for_each rs (fun r => save_json db (ByRow r) [source_directory]) (layout refs srcs) =
  (Ok tt,
   layout refs
     (fold_left (fun acc v => dict_set (source_name v) (source_content db v) acc)
        (omap (fun r : row => r !! primary_table_key db) rs) srcs)).
Proof.
  induction rs as [|r rs IH]; intros refs srcs Hok Hpk Hv Hfiles; [reflexivity|].
  destruct (Hpk r (in_eq _ _)) as [v Hr].
  rewrite for_each_cons. cbn [omap list_omap] in *. rewrite Hr in *. cbn [fold_left].
  rewrite (save_json_layout db r v); auto using in_eq.
  apply IH; auto using in_cons. now apply files_only_set.
Qed.

Lemma exportable_parts (db : Database) :
  exportable db = true ->
  schema_ok db = true /\ lists_every_table db = true /\ rows_wellformed db = true /\
  rows_stable db = true /\ filenames_ok db = true /\
  primary_table db ∉ reference_tables db.
Proof.
  unfold exportable. intros H. do 5 (apply andb_prop in H as [H ?]).
  repeat split; try assumption.
  match goal with H : negb (bool_decide _) = true |- _ =>
    apply negb_true_iff, bool_decide_eq_false in H; exact H end.
Qed.

Lemma rows_wellformed_row (db : Database) (T : string) (t : table) (r : row) :
  rows_wellformed db = true ->
  dict_get T (tables db) = Some t -> In r (rows t) ->
  dom r = list_to_set (columns t).
Proof.
  unfold rows_wellformed. intros H Ht Hr. rewrite forallb_forall in H.
  specialize (H (T, t) (dict_get_In _ _ _ Ht)). cbn [snd] in H.
  rewrite forallb_forall in H. specialize (H r Hr). now apply bool_decide_eq_true in H.
Qed.

Lemma schema_ok_primary (db : Database) :
  schema_ok db = true ->
  exists p, dict_get (primary_table db) (tables db) = Some p /\
            primary_table_key db ∈ columns p.
Proof.
  unfold schema_ok, has_column. intros H. apply andb_prop in H as [H _].
  destruct (dict_get (primary_table db) (tables db)) as [p|]; [|discriminate].
  exists p. split; [reflexivity|]. now apply bool_decide_eq_true in H.
Qed.

Lemma primary_rows_have_identity (db : Database) (p : table) (r : row) :
  schema_ok db = true -> rows_wellformed db = true ->
  dict_get (primary_table db) (tables db) = Some p -> In r (rows p) ->
  is_Some (r !! primary_table_key db).
Proof.
  intros Hok Hwf Hp Hr. destruct (schema_ok_primary db Hok) as (p' & Hp' & Hcol).
  rewrite Hp in Hp'. injection Hp' as <-.
  apply elem_of_dom. rewrite (rows_wellformed_row db _ p r Hwf Hp Hr).
  now apply elem_of_list_to_set.
Qed.

Lemma filenames_ok_identity (db : Database) (v : value) :
  filenames_ok db = true -> In v (identities db) ->
  valid_name (source_name v) = true /\
  py_startswith "." (source_name v) = false /\
  (py_replace ".json" "" (source_name v) ∉ reference_tables db) /\
  (forall w, In w (identities db) -> source_name w = source_name v -> w = v).
Proof.
  unfold filenames_ok. intros H Hv. apply andb_prop in H as [_ H].
  rewrite forallb_forall in H. specialize (H v Hv).
  apply andb_prop in H as [H Hinj]. apply andb_prop in H as [H Href].
  apply andb_prop in H as [Hname Hdot].
  apply negb_true_iff in Hdot. apply negb_true_iff, bool_decide_eq_false in Href.
  split; [exact Hname|]. split; [exact Hdot|]. split; [exact Href|].
  intros w Hw. rewrite forallb_forall in Hinj. specialize (Hinj w Hw).
  now apply bool_decide_eq_true in Hinj.
Qed.

(** Under the conditions of the round trip [save_database] completes, and
    the directory it leaves holds the reference files and the source files
    and nothing else. *)
Lemma save_database_exported (db : Database) (es : list (string * node)) :
  exportable db = true ->
  save_database db true (Dir es) =
  (Ok tt, layout (reference_files db) (source_files db)).
Proof.
  intros Hex. destruct (exportable_parts db Hex) as (Hok & _ & Hwf & _ & Hfn & _).
  destruct (schema_ok_primary db Hok) as (p & Hp & _).
  assert (Hrefs : forall R, In R (reference_tables db) -> valid_name (R +:+ ".json") = true).
  { unfold filenames_ok in Hfn. apply andb_prop in Hfn as [Hfn' _].
    now rewrite forallb_forall in Hfn'. }
  unfold save_database.
  erewrite st_bind_ok; cycle 1.
  { cbv iota. erewrite st_bind_ok by reflexivity. apply clear_directory. auto. }
  cbv beta. erewrite st_bind_ok by reflexivity.
  cbv beta. erewrite st_bind_ok by reflexivity.
  cbv beta. erewrite st_bind_ok; cycle 1.
  { apply (save_reference_tables_layout db (reference_tables db) [] []);
      [exact Hrefs | apply files_only_nil]. }
  cbv beta. erewrite st_bind_ok; cycle 1.
  { unfold lift, get_table. rewrite Hp. reflexivity. }
  cbv beta. rewrite save_sources_layout.
  - unfold source_files, identities, rows_of. rewrite Hp. reflexivity.
  - exact Hok.
  - intros r Hr. exact (primary_rows_have_identity db p r Hok Hwf Hp Hr).
  - intros v Hv. apply (filenames_ok_identity db v Hfn).
    unfold identities, rows_of. now rewrite Hp.
  - apply files_only_nil.
Qed.

Lemma reference_file_content (db : Database) (acc : list (string * node)) (R : string) :
  reference_file db acc R =
  match reference_content db R with
  | Some n => dict_set (R +:+ ".json") n acc
  | None => acc
  end.
Proof.
  unfold reference_file, reference_content.
  destruct (dict_get R (tables db)) as [t|]; [|reflexivity]. now destruct (rows t).
Qed.

Lemma reference_fold_lookup (db : Database) (R : string) (Rs : list string) :
  forall acc : list (string * node),
  dict_get (R +:+ ".json") (fold_left (reference_file db) Rs acc) =
  match (if bool_decide (R ∈ Rs) then reference_content db R else None) with
  | Some n => Some n
  | None => dict_get (R +:+ ".json") acc
  end.
Proof.
  induction Rs as [|R0 Rs IH]; intros acc; cbn [fold_left].
  - rewrite bool_decide_eq_false_2 by (intros H; inversion H). reflexivity.
  - rewrite IH. clear IH. rewrite reference_file_content.
    destruct (decide (R = R0)) as [->|Hne].
    + rewrite (bool_decide_eq_true_2 (R0 ∈ R0 :: Rs)) by (now left).
      destruct (reference_content db R0) as [n|].
      * rewrite dict_get_set, String.eqb_refl. now destruct (bool_decide (R0 ∈ Rs)).
      * now destruct (bool_decide (R0 ∈ Rs)).
    + assert (Hb : bool_decide (R ∈ R0 :: Rs) = bool_decide (R ∈ Rs)).
      { apply bool_decide_ext. rewrite elem_of_cons. intuition congruence. }
      rewrite Hb.
      assert (Hd : dict_get (R +:+ ".json")
                     (match reference_content db R0 with
                      | Some n => dict_set (R0 +:+ ".json") n acc
                      | None => acc
                      end) = dict_get (R +:+ ".json") acc).
      { destruct (reference_content db R0); [|reflexivity]. rewrite dict_get_set.
        destruct (String.eqb_spec (R +:+ ".json") (R0 +:+ ".json")) as [E|_]; [|reflexivity].
        apply append_json_inj in E. contradiction. }
      now rewrite Hd.
Qed.

(** The file [reference/R.json] of the export, for a listed table. *)
Lemma reference_files_lookup (db : Database) (R : string) :
  R ∈ reference_tables db ->
  dict_get (R +:+ ".json") (reference_files db) = reference_content db R.
Proof.
  intros HR. unfold reference_files. rewrite reference_fold_lookup.
  rewrite bool_decide_eq_true_2 by exact HR. now destruct (reference_content db R).
Qed.

Lemma elem_of_app_cons_weaken {A : Type} (a x : A) (ys xs : list A) :
  a ∈ ys ++ xs -> a ∈ ys ++ x :: xs.
Proof. rewrite !elem_of_app, elem_of_cons. tauto. Qed.

Lemma dict_get_map_injective {A B : Type} (key : A -> string) (val : A -> B)
    (ys : list A) (x : A) :
  x ∈ ys ->
  (forall y, y ∈ ys -> key x = key y -> x = y) ->
  dict_get (key x) (map (fun x => (key x, val x)) ys) = Some (val x).
Proof.
  induction ys as [|y ys IH]; intros Hin Hinj; [inversion Hin|].
  cbn [map dict_get]. destruct (String.eqb_spec (key x) (key y)) as [E|Hne].
  - apply Hinj in E; [now subst | now left].
  - apply IH.
    + apply elem_of_cons in Hin as [->|Hin]; [contradiction | exact Hin].
    + intros z Hz. apply Hinj. now right.
Qed.

(** Binding injective keys one after the other yields one entry per
    distinct element. *)
Lemma fold_dict_set_injective {A B : Type} `{EqDecision A}
    (key : A -> string) (val : A -> B) (xs : list A) :
  forall ys0 : list A,
  NoDup ys0 ->
  (forall x y, x ∈ ys0 ++ xs -> y ∈ ys0 ++ xs -> key x = key y -> x = y) ->
  exists ys,
    NoDup ys /\ (forall y, y ∈ ys <-> y ∈ ys0 \/ y ∈ xs) /\
    fold_left (fun acc x => dict_set (key x) (val x) acc) xs
      (map (fun x => (key x, val x)) ys0) =
    map (fun x => (key x, val x)) ys.
Proof.
  induction xs as [|x xs IH]; intros ys0 Hnd Hinj.
  - exists ys0. split; [exact Hnd|]. split; [|reflexivity].
    intros y. rewrite elem_of_nil. tauto.
  - cbn [fold_left]. destruct (decide (x ∈ ys0)) as [Hin|Hnin].
    + assert (Hsame : dict_set (key x) (val x) (map (fun x => (key x, val x)) ys0) =
                      map (fun x => (key x, val x)) ys0).
      { apply dict_set_same, dict_get_map_injective; [exact Hin|].
        intros y Hy. apply Hinj; rewrite elem_of_app; [right; now left | now left]. }
      rewrite Hsame. destruct (IH ys0 Hnd) as (ys & Hys & Hmem & Hfold).
      * intros a b Ha Hb. apply Hinj; now apply elem_of_app_cons_weaken.
      * exists ys. split; [exact Hys|]. split; [|exact Hfold].
        intros y. rewrite Hmem, elem_of_cons. split; [tauto|].
        intros [Hy|[->|Hy]]; tauto.
    + assert (Hfresh : dict_set (key x) (val x) (map (fun x => (key x, val x)) ys0) =
                       map (fun x => (key x, val x)) (ys0 ++ [x])).
      { rewrite map_app. apply dict_set_fresh. unfold dict_keys. rewrite map_map. cbn [fst].
        intros Hk. apply list_elem_of_In, in_map_iff in Hk as (y & Hy & Hyin).
        apply list_elem_of_In in Hyin.
        assert (y = x).
        { apply Hinj; [| |exact Hy]; rewrite elem_of_app; [now left|].
          right. now left. }
        subst y. contradiction. }
      rewrite Hfresh. destruct (IH (ys0 ++ [x])) as (ys & Hys & Hmem & Hfold).
      * apply NoDup_app. split; [exact Hnd|]. split; [|apply NoDup_singleton].
        intros y Hy Hy'. apply list_elem_of_singleton in Hy'. now subst.
      * intros a b Ha Hb. rewrite <- app_assoc in Ha, Hb. now apply Hinj.
      * exists ys. split; [exact Hys|]. split; [|exact Hfold].
        intros y. rewrite Hmem, elem_of_app, list_elem_of_singleton, elem_of_cons. tauto.
Qed.

(** The source files of the export: one per identity. *)
Lemma source_files_shape (db : Database) :
  filenames_ok db = true ->
  exists vs,
    NoDup vs /\ (forall v, v ∈ vs <-> In v (identities db)) /\
    source_files db = map (fun v => (source_name v, source_content db v)) vs.
Proof.
  intros Hfn.
  destruct (fold_dict_set_injective source_name (source_content db) (identities db) [])
    as (vs & Hnd & Hmem & Hfold).
  - apply NoDup_nil_2.
  - cbn [app]. intros x y Hx Hy E. apply list_elem_of_In in Hx, Hy.
    destruct (filenames_ok_identity db y Hfn Hy) as (_ & _ & _ & Hinj). now apply Hinj.
  - exists vs. split; [exact Hnd|]. split; [|exact Hfold].
    intros v. rewrite Hmem, elem_of_nil, list_elem_of_In. tauto.
Qed.

(** *** Rules for runs of store methods *)

Lemma triple_weaken (L : Prop) (P P' Q Q' : Database -> Prop) (m : Exec unit) :
  (forall d, P' d -> P d) -> (forall d, Q d -> Q' d) ->
  triple L P m Q -> triple L P' m Q'.
Proof.
  intros HP HQ H d log Hd. destruct (H d log (HP d Hd)) as [H1 H2]. split; auto.
Qed.

Lemma triple_ret (L : Prop) (P : Database -> Prop) : triple L P (mret tt) P.
Proof. intros d log Hd. split; [intros _; exact Hd | reflexivity]. Qed.

Lemma triple_seq (L : Prop) (P Q R : Database -> Prop) (m : Exec unit) (f : unit -> Exec unit) :
  triple L P m Q -> triple L Q (f tt) R -> triple L P (m ≫= f) R.
Proof.
  intros Hm Hf d log Hd. rewrite st_bind_unfold.
  destruct (Hm d log Hd) as [Hm1 Hm2].
  destruct (m (d, log)) as [[[]|e] [d1 log1]]; cbn [fst snd] in *.
  - destruct (Hf d1 log1 (Hm1 eq_refl)) as [Hf1 Hf2]. split; assumption.
  - split; [discriminate|]. intros HL. specialize (Hm2 HL). discriminate.
Qed.

Lemma triple_for_each {A : Type} (L : Prop) (I : list A -> Database -> Prop)
    (xs : list A) (body : A -> Exec unit) :
  (forall done x rest, xs = done ++ x :: rest ->
     triple L (I done) (body x) (I (done ++ [x]))) ->
  triple L (I []) (for_each xs body) (I xs).
Proof.
  intros Hbody.
  assert (H : forall rest done, xs = done ++ rest ->
                triple L (I done) (for_each rest body) (I xs)).
  { induction rest as [|x rest IH]; intros done Hxs.
    - rewrite app_nil_r in Hxs. subst. apply triple_ret.
    - cbn [for_each]. eapply triple_seq; [apply (Hbody done x rest Hxs)|].
      apply IH. now rewrite <- app_assoc. }
  now apply H.
Qed.

Lemma triple_transaction (L : Prop) (P Q : Database -> Prop) (body : Exec unit) :
  triple L P body Q -> triple L P (transaction body) Q.
Proof.
  intros Hb d log Hd. unfold transaction. cbn [fst snd].
  destruct (Hb d (log ++ [Begin]) Hd) as [H1 H2].
  destruct (body (d, log ++ [Begin])) as [[[]|e] [d1 log1]]; cbn [fst snd] in *.
  - split; auto.
  - split; [discriminate|]. intros HL. specialize (H2 HL). discriminate.
Qed.

Lemma for_each_map {S A B : Type} (g : A -> B) (xs : list A) (body : B -> ST S unit) (s : S) :
  for_each (map g xs) body s = for_each xs (fun x => body (g x)) s.
Proof.
  revert s. induction xs as [|x xs IH]; intros s; [reflexivity|].
  cbn [map]. rewrite !for_each_cons. destruct (body (g x) s) as [[[]|e] s']; [apply IH | reflexivity].
Qed.

(** *** Statements against a store of the same schema *)

Lemma schema_fields (d db : Database) :
  schema d = schema db ->
  sorted_tables d = sorted_tables db /\ reference_tables d = reference_tables db /\
  primary_table d = primary_table db /\ primary_table_key d = primary_table_key db /\
  foreign_key d = foreign_key db /\ sqlite_foreign d = sqlite_foreign db.
Proof. unfold schema. intros H. injection H as _ ? ? ? ? ? ?. auto 10. Qed.

Lemma schema_table (d db : Database) (T : string) (t : table) :
  schema d = schema db ->
  dict_get T (tables db) = Some t ->
  exists td, dict_get T (tables d) = Some td /\ columns td = columns t /\
             constraints td = constraints t.
Proof.
  unfold schema. intros H Ht. injection H as H _ _ _ _ _ _.
  apply (f_equal (dict_get T)) in H. rewrite !(dict_get_map declaration), Ht in H.
  destruct (dict_get T (tables d)) as [td|]; [|discriminate].
  exists td. cbn in H. unfold declaration in H. injection H as H1 H2. auto.
Qed.

Lemma complete_row_id (cols : list string) (r : row) :
  dom r = list_to_set cols -> complete_row cols r = r.
Proof.
  intros Hdom. unfold complete_row. apply map_eq. intros k.
  rewrite lookup_union. destruct (r !! k) as [v|] eqn:Hk.
  - now destruct (gset_to_gmap VNull (list_to_set cols) !! k).
  - rewrite lookup_gset_to_gmap. rewrite option_guard_False; [reflexivity|].
    rewrite <- Hdom. intros Hin. apply elem_of_dom in Hin as [? ?]. congruence.
Qed.

Lemma map_complete_row_id (cols : list string) (vs : list row) :
  Forall (fun r : row => dom r = list_to_set cols) vs ->
  map (complete_row cols) vs = vs.
Proof.
  induction 1 as [|r vs Hr _ IH]; [reflexivity|]. cbn [map].
  now rewrite complete_row_id, IH.
Qed.

Section RoundTrip.

Variable db : Database.

Local Abbreviation lenient := (sqlite_foreign db = false).

Lemma execute_insert_triple (st : string * list row) (base : string -> list row) :
  statement_ok db st ->
  triple lenient
    (fun d => schema d = schema db /\ forall T, rows_of d T = base T)
    (execute_insert st.1 st.2)
    (fun d => schema d = schema db /\
              forall T, rows_of d T = base T ++ rows_added T [st]).
Proof.
  intros (t & Ht & Hdom) d log [Hs Hrows].
  destruct (schema_table d db st.1 t Hs Ht) as (td & Htd & Hcols & _).
  destruct (schema_fields d db Hs) as (_ & _ & _ & _ & _ & Hstrict).
  unfold execute_insert, get_table, insert_rows. cbn [fst snd]. rewrite Htd.
  assert (Hcheck : forallb (fun r : row => bool_decide (dom r ⊆ list_to_set (columns td))) st.2
                   = true).
  { apply forallb_forall. intros r Hr. apply bool_decide_eq_true.
    rewrite Forall_forall in Hdom. rewrite Hcols, (Hdom r); [done|].
    now apply list_elem_of_In. }
  rewrite Hcheck, Hcols, (map_complete_row_id (columns t) st.2 Hdom).
  split.
  - destruct (sqlite_foreign d && negb _); [discriminate|]. intros _. cbn [fst snd].
    split; [now rewrite schema_with_rows|].
    intros T. rewrite rows_of_with_rows. unfold rows_added. cbn [flat_map].
    rewrite app_nil_r. rewrite (String.eqb_sym st.1 T).
    destruct (String.eqb_spec T st.1) as [->|_].
    + rewrite <- Hrows. unfold rows_of. now rewrite Htd.
    + now rewrite app_nil_r.
  - intros HL. rewrite Hstrict, HL. reflexivity.
Qed.

Lemma rows_added_app (T : string) (s1 s2 : list (string * list row)) :
  rows_added T (s1 ++ s2) = rows_added T s1 ++ rows_added T s2.
Proof. unfold rows_added. apply flat_map_app. Qed.

(** A run of well-formed statements appends their rows, table by table. *)
Lemma run_inserts_triple (stmts : list (string * list row)) (base : string -> list row) :
  Forall (statement_ok db) stmts ->
  triple lenient
    (fun d => schema d = schema db /\ forall T, rows_of d T = base T)
    (for_each stmts (fun st => execute_insert st.1 st.2))
    (fun d => schema d = schema db /\
              forall T, rows_of d T = base T ++ rows_added T stmts).
Proof.
  intros Hok.
  pose (I := fun (done : list (string * list row)) (d : Database) =>
               schema d = schema db /\ forall T, rows_of d T = base T ++ rows_added T done).
  apply (triple_weaken lenient (I []) _ (I stmts)).
  - intros d [Hs Hr]. split; [exact Hs|]. intros T. cbn. now rewrite app_nil_r.
  - auto.
  - apply triple_for_each. intros done st rest Hsplit.
    assert (Hst : statement_ok db st).
    { rewrite Forall_forall in Hok. apply Hok. rewrite Hsplit.
      apply elem_of_app. right. now left. }
    apply (triple_weaken lenient
             (fun d => schema d = schema db /\
                       forall T, rows_of d T = base T ++ rows_added T done)
             _
             (fun d => schema d = schema db /\
                       forall T, rows_of d T = (base T ++ rows_added T done) ++ rows_added T [st])).
    + auto.
    + intros d [Hs Hr]. split; [exact Hs|]. intros T.
      now rewrite Hr, rows_added_app, app_assoc.
    + apply (execute_insert_triple st (fun T => base T ++ rows_added T done) Hst).
Qed.

Hypothesis exportable_db : exportable db = true.

Lemma execute_delete_triple (k : string) (done : list string) :
  k ∈ dict_keys (tables db) ->
  triple lenient
    (fun d => schema d = schema db /\ forall T, T ∈ done -> rows_of d T = [])
    (transaction (execute_delete k))
    (fun d => schema d = schema db /\ forall T, T ∈ done ++ [k] -> rows_of d T = []).
Proof.
  intros Hk. apply triple_transaction. intros d log [Hs Hrows].
  apply dict_get_keys in Hk as [t Ht].
  destruct (schema_table d db k t Hs Ht) as (td & Htd & _).
  destruct (schema_fields d db Hs) as (_ & _ & _ & _ & _ & Hstrict).
  unfold execute_delete, get_table, delete_rows. cbn [fst snd]. rewrite Htd. split.
  - destruct (sqlite_foreign d && _); [discriminate|]. intros _. cbn [fst snd].
    split; [now rewrite schema_with_rows|].
    intros T HT. rewrite rows_of_with_rows. destruct (String.eqb_spec T k) as [->|Hne];
      [reflexivity|].
    apply Hrows. apply elem_of_app in HT as [HT|HT]; [exact HT|].
    apply list_elem_of_singleton in HT. contradiction.
  - intros HL. rewrite Hstrict, HL. reflexivity.
Qed.

(** The first block of [load_database] leaves every table empty. *)
Lemma clear_tables_triple :
  triple lenient
    (fun d => schema d = schema db)
    clear_tables
    (fun d => schema d = schema db /\ forall T, rows_of d T = []).
Proof.
  destruct (exportable_parts db exportable_db) as (_ & Hlist & _).
  destruct (lists_every_table_parts db Hlist) as (_ & _ & Hmem).
  intros d log Hs. unfold clear_tables. rewrite st_bind_unfold. cbn [fst].
  destruct (schema_fields d db Hs) as (-> & _).
  pose (I := fun (done : list string) (d : Database) =>
               schema d = schema db /\ forall T, T ∈ done -> rows_of d T = []).
  assert (Hloop : triple lenient (I [])
            (for_each (reverse (sorted_tables db)) (fun t => transaction (execute_delete t)))
            (I (reverse (sorted_tables db)))).
  { apply triple_for_each. intros done k rest Hsplit. apply execute_delete_triple.
    apply Hmem. apply elem_of_reverse. rewrite Hsplit. apply elem_of_app. right. now left. }
  destruct (Hloop d log) as [H1 H2].
  { split; [exact Hs|]. intros T HT. inversion HT. }
  split; [|exact H2]. intros Hok. destruct (H1 Hok) as [Hs' Hrows]. split; [exact Hs'|].
  intros T. destruct (decide (T ∈ dict_keys (tables db))) as [Hin|Hnin].
  - apply Hrows. apply elem_of_reverse. now apply Hmem.
  - unfold rows_of. destruct (dict_get T (tables _)) eqn:E; [|reflexivity].
    exfalso. apply Hnin. rewrite <- (schema_keys _ db Hs'). apply dict_get_keys. eauto.
Qed.

Local Abbreviation exported := (layout (reference_files db) (source_files db)).

Lemma exported_top_level (T : string) (refs srcs : list (string * node)) :
  fs_lookup [T +:+ ".json"] (layout refs srcs) = None.
Proof.
  destruct (json_name_not_directory T) as [Hr Hs].
  unfold layout. cbn [fs_lookup dict_get].
  destruct (String.eqb_spec (T +:+ ".json") reference_directory); [contradiction|].
  destruct (String.eqb_spec (T +:+ ".json") source_directory); [contradiction|].
  reflexivity.
Qed.

Lemma exported_reference (R : string) :
  R ∈ reference_tables db ->
  fs_lookup [reference_directory; R +:+ ".json"] exported = reference_content db R.
Proof.
  intros HR. unfold layout. cbn [fs_lookup dict_get].
  change (String.eqb reference_directory reference_directory) with true. cbn match.
  rewrite (reference_files_lookup db R HR). now destruct (reference_content db R).
Qed.

Lemma reference_statement_ok (R : string) (t : table) :
  dict_get R (tables db) = Some t ->
  statement_ok db (R, map loads_row (map dumps_row (rows t))).
Proof.
  intros Ht. destruct (exportable_parts db exportable_db) as (_ & _ & Hwf & _).
  exists t. split; [exact Ht|]. cbn [snd]. apply Forall_forall. intros r Hr.
  apply list_elem_of_In, in_map_iff in Hr as (j & <- & Hj).
  apply in_map_iff in Hj as (r & <- & Hr).
  unfold loads_row, dumps_row. rewrite !dom_fmap_L.
  exact (rows_wellformed_row db R t r Hwf Ht Hr).
Qed.

Lemma load_reference_table_triple (R : string) :
  R ∈ reference_tables db ->
  triple lenient
    (fun d => schema d = schema db /\ forall T, T ∉ reference_tables db -> rows_of d T = [])
    (if path_exists [reference_directory; R +:+ ".json"] exported
     then load_table R [reference_directory] exported
     else load_table R [] exported)
    (fun d => schema d = schema db /\ forall T, T ∉ reference_tables db -> rows_of d T = []).
Proof.
  intros HR. unfold path_exists, load_table, path_exists. cbn [app].
  rewrite (exported_reference R HR), exported_top_level.
  unfold reference_content. destruct (dict_get R (tables db)) as [t|] eqn:Ht;
    [|apply triple_ret].
  destruct (rows t) as [|r0 rs0] eqn:Hrows; [apply triple_ret|].
  intros d log [Hs Hempty]. rewrite st_bind_unfold. unfold lift, read_file.
  rewrite (exported_reference R HR). unfold reference_content. rewrite Ht, Hrows.
  cbn match. rewrite <- Hrows.
  pose proof (triple_transaction lenient _ _ _
                (execute_insert_triple (R, map loads_row (map dumps_row (rows t)))
                   (rows_of d) (reference_statement_ok R t Ht))) as Htr.
  destruct (Htr d log) as [H1 H2]; [split; [exact Hs | reflexivity]|].
  cbn [fst snd] in *. split; [|exact H2].
  intros Hok. destruct (H1 Hok) as [Hs' Hr']. split; [exact Hs'|].
  intros T HT. rewrite Hr', (Hempty T HT). unfold rows_added. cbn [flat_map fst snd].
  destruct (String.eqb_spec R T) as [->|_]; [contradiction | reflexivity].
Qed.

(** The second block of [load_database] leaves the primary table and the
    data tables empty. *)
Lemma load_reference_tables_triple :
  triple lenient
    (fun d => schema d = schema db /\ forall T, rows_of d T = [])
    (load_reference_tables exported)
    (fun d => schema d = schema db /\ forall T, T ∉ reference_tables db -> rows_of d T = []).
Proof.
  intros d log [Hs Hempty]. unfold load_reference_tables. rewrite st_bind_unfold. cbn [fst].
  destruct (schema_fields d db Hs) as (_ & -> & _).
  pose (I := fun (_ : list string) (d : Database) =>
               schema d = schema db /\ forall T, T ∉ reference_tables db -> rows_of d T = []).
  assert (Hloop : triple lenient (I [])
            (for_each (reference_tables db)
               (fun R => if path_exists [reference_directory; R +:+ ".json"] exported
                         then load_table R [reference_directory] exported
                         else load_table R [] exported))
            (I (reference_tables db))).
  { apply triple_for_each. intros done R rest Hsplit. apply load_reference_table_triple.
    rewrite Hsplit. apply elem_of_app. right. now left. }
  apply (Hloop d log). split; [exact Hs | auto].
Qed.

End RoundTrip.

(** *** Inventory depends on the matching rows only *)

Lemma fold_result_ext {A B : Type} (f g : B -> A -> result B) (xs : list A) :
  (forall b a, f b a = g b a) -> forall b, fold_result f xs b = fold_result g xs b.
Proof.
  intros H. induction xs as [|x xs IH]; intros b; [reflexivity|].
  cbn [fold_result]. rewrite H. destruct (g b x); cbn; [apply IH | reflexivity].
Qed.

Lemma entry_of_rows (db : Database) (x : value) (T : string) :
  entry_of db x T =
  match List.filter (cell_matches (key_column db T) x) (rows_of db T) with
  | [] => None
  | rs => Some (if String.eqb T (primary_table db) then rs
                else map (delete (foreign_key db)) rs)
  end.
Proof.
  unfold entry_of, rows_of, query_filter.
  now destruct (dict_get T (tables db)).
Qed.

Lemma schema_has_column (d db : Database) (T c : string) :
  schema d = schema db -> has_column d T c = has_column db T c.
Proof.
  intros Hs. unfold has_column.
  destruct (dict_get T (tables db)) as [t|] eqn:Ht.
  - destruct (schema_table d db T t Hs Ht) as (td & -> & -> & _). reflexivity.
  - destruct (dict_get T (tables d)) as [td|] eqn:Htd; [|reflexivity].
    symmetry in Hs. destruct (schema_table db d T td Hs Htd) as (t & Ht' & _). congruence.
Qed.

Lemma schema_key_column (d db : Database) (T : string) :
  schema d = schema db -> key_column d T = key_column db T.
Proof.
  intros Hs. destruct (schema_fields d db Hs) as (_ & _ & Hp & Hk & Hf & _).
  unfold key_column. now rewrite Hp, Hk, Hf.
Qed.

Lemma schema_skipped (d db : Database) (T : string) :
  schema d = schema db -> skipped d T = skipped db T.
Proof.
  intros Hs. destruct (schema_fields d db Hs) as (_ & Hr & Hp & _).
  unfold skipped. now rewrite Hr, Hp.
Qed.

Lemma inventory_congruence (d db : Database) (x : value) :
  schema d = schema db ->
  (forall T, T = primary_table db \/ skipped db T = false ->
     List.filter (cell_matches (key_column db T) x) (rows_of d T) =
     List.filter (cell_matches (key_column db T) x) (rows_of db T)) ->
  inventory d x = inventory db x.
Proof.
  intros Hs Hrows.
  destruct (schema_fields d db Hs) as (_ & Hr & Hp & Hk & Hf & _).
  assert (Hq : forall dd T, T = primary_table db \/ skipped db T = false ->
                 _inventory_query d dd T x = _inventory_query db dd T x).
  { intros dd T HT. rewrite !inventory_query_eq.
    rewrite (schema_key_column d db T Hs), (schema_has_column d db T _ Hs).
    rewrite !entry_of_rows, (schema_key_column d db T Hs), (Hrows T HT), Hp, Hf.
    destruct (has_column db T _); [reflexivity|].
    destruct (dict_get T (tables db)) as [t|] eqn:Ht.
    - destruct (schema_table d db T t Hs Ht) as (td & -> & _). reflexivity.
    - destruct (dict_get T (tables d)) as [td|] eqn:Htd; [|reflexivity].
      symmetry in Hs. destruct (schema_table db d T td Hs Htd) as (t & Ht' & _). congruence. }
  unfold inventory. rewrite Hp, (Hq [] (primary_table db)) by (now left).
  destruct (_inventory_query db [] (primary_table db) x) as [d0|e]; [|reflexivity].
  cbn [mbind result_bind]. rewrite (schema_keys d db Hs). apply fold_result_ext.
  intros dd T. rewrite Hr. fold (skipped db T).
  destruct (skipped db T) eqn:HT; [reflexivity|]. apply Hq. now right.
Qed.

Lemma cell_matches_unique (c : string) (x v : value) (r : row) :
  cell_matches c x r = true -> cell_matches c v r = true -> x = v.
Proof. rewrite !cell_matches_true. congruence. Qed.

Lemma filter_filter_other (c : string) (x v : value) (rs : list row) :
  x <> v ->
  List.filter (cell_matches c x) (List.filter (cell_matches c v) rs) = [].
Proof.
  intros Hne. induction rs as [|r rs IH]; [reflexivity|]. cbn [List.filter].
  destruct (cell_matches c v r) eqn:Hv; [|exact IH]. cbn [List.filter].
  destruct (cell_matches c x r) eqn:Hx; [|exact IH].
  exfalso. apply Hne. exact (cell_matches_unique c x v r Hx Hv).
Qed.

Lemma filter_filter_same (c : string) (x : value) (rs : list row) :
  List.filter (cell_matches c x) (List.filter (cell_matches c x) rs) =
  List.filter (cell_matches c x) rs.
Proof.
  induction rs as [|r rs IH]; [reflexivity|]. cbn [List.filter].
  destruct (cell_matches c x r) eqn:Hx; [|exact IH]. cbn [List.filter].
  now rewrite Hx, IH.
Qed.

(** Among the rows gathered identity by identity, the ones that match [x]
    are the ones gathered for [x]. *)
Lemma filter_gathered (c : string) (x : value) (rs : list row) (vs : list value) :
  NoDup vs ->
  List.filter (cell_matches c x)
    (flat_map (fun v => List.filter (cell_matches c v) rs) vs) =
  if bool_decide (x ∈ vs) then List.filter (cell_matches c x) rs else [].
Proof.
  induction 1 as [|v vs Hv Hnd IH]; [reflexivity|].
  cbn [flat_map]. rewrite List.filter_app, IH.
  destruct (decide (x = v)) as [->|Hne].
  - rewrite filter_filter_same, (bool_decide_eq_true_2 (v ∈ v :: vs)) by (now left).
    rewrite (bool_decide_eq_false_2 (v ∈ vs)) by exact Hv. apply app_nil_r.
  - rewrite (filter_filter_other c x v rs Hne). cbn [app].
    apply (f_equal (fun b : bool => if b then _ else _)).
    apply bool_decide_ext. rewrite elem_of_cons. intuition congruence.
Qed.

(** *** The documents of an export *)

Lemma dict_set_NoDup {A : Type} (k : string) (v : A) (d : list (string * A)) :
  NoDup (dict_keys d) -> NoDup (dict_keys (dict_set k v d)).
Proof.
  intros Hnd. destruct (decide (k ∈ dict_keys d)) as [Hin|Hnin].
  - rewrite dict_keys_set; [exact Hnd | now apply dict_get_keys].
  - rewrite dict_set_fresh by exact Hnin. rewrite dict_keys_app. cbn.
    apply NoDup_app. split; [exact Hnd|]. split; [|apply NoDup_singleton].
    intros y Hy Hy'. apply list_elem_of_singleton in Hy'. now subst.
Qed.

Lemma inventory_document_NoDup (db : Database) (x : value) :
  NoDup (dict_keys (inventory_document db x)).
Proof.
  unfold inventory_document.
  assert (H : forall (todo : list string) d, NoDup (dict_keys d) ->
    NoDup (dict_keys
      (fold_left
         (fun d table => if skipped db table then d
                         else record_entry d table (entry_of db x table))
         todo d))).
  { induction todo as [|n todo IH]; intros d Hd; [exact Hd|]. cbn [fold_left].
    apply IH. destruct (skipped db n); [exact Hd|].
    destruct (entry_of db x n); cbn [record_entry]; [now apply dict_set_NoDup | exact Hd]. }
  apply H. destruct (entry_of db x (primary_table db)); cbn [record_entry].
  - apply NoDup_singleton.
  - apply NoDup_nil_2.
Qed.

Lemma row_stable_delete (k : string) (r : row) :
  row_stable r = true -> row_stable (delete k r) = true.
Proof.
  unfold row_stable. rewrite !bool_decide_eq_true. apply map_Forall_delete.
Qed.

Lemma flat_map_dict {A B : Type} (T : string) (h : A -> list B) (d : list (string * A)) :
  NoDup (dict_keys d) ->
  flat_map (fun kv : string * A => if String.eqb kv.1 T then h kv.2 else []) d =
  match dict_get T d with
  | Some x => h x
  | None => []
  end.
Proof.
  induction d as [|[k x] d IH]; intros Hnd; [reflexivity|].
  cbn [dict_keys map fst] in Hnd. apply NoDup_cons in Hnd as [Hk Hnd].
  cbn [flat_map dict_get fst snd]. rewrite (String.eqb_sym T k), (IH Hnd).
  destruct (String.eqb_spec k T) as [->|_]; [|reflexivity].
  destruct (dict_get T d) eqn:E; [|apply app_nil_r].
  exfalso. apply Hk. apply dict_get_keys. eauto.
Qed.

Lemma string_length_append (a b : string) :
  String.length (a +:+ b) = (String.length a + String.length b)%nat.
Proof.
  induction a as [|c a IH]; [reflexivity|]. rewrite append_cons. cbn [String.length].
  now rewrite IH.
Qed.

Lemma substring_whole (p : string) : String.substring 0 (String.length p) p = p.
Proof. induction p as [|c p IH]; [reflexivity|]. cbn. now rewrite IH. Qed.

Lemma substring_append (a p : string) :
  String.substring (String.length a) (String.length p) (a +:+ p) = p.
Proof.
  induction a as [|c a IH]; [apply substring_whole|].
  rewrite append_cons. cbn [String.length String.substring]. exact IH.
Qed.

Lemma py_endswith_append (a p : string) : py_endswith p (a +:+ p) = true.
Proof.
  unfold py_endswith. rewrite string_length_append.
  replace (String.length a + String.length p - String.length p)%nat
    with (String.length a) by lia.
  rewrite substring_append, String.eqb_refl, andb_true_r.
  apply Nat.leb_le. lia.
Qed.

Lemma rows_added_single (k T : string) (f : row -> row) (rs : list row) :
  rows_added T (map (fun r => (k, [f r])) rs) =
  if String.eqb k T then map f rs else [].
Proof.
  unfold rows_added. induction rs as [|r rs IH]; cbn [map flat_map fst snd].
  - now destruct (String.eqb k T).
  - rewrite IH. now destruct (String.eqb k T).
Qed.

Lemma for_each_ext_in {S A : Type} (xs : list A) (f g : A -> ST S unit) :
  (forall x, In x xs -> forall s, f x s = g x s) ->
  forall s, for_each xs f s = for_each xs g s.
Proof.
  induction xs as [|x xs IH]; intros H s; [reflexivity|].
  rewrite !for_each_cons, (H x (in_eq _ _)).
  destruct (g x s) as [[[]|e] s']; [|reflexivity].
  apply IH. intros y Hy. apply H. now right.
Qed.

Section SourcesPhase.

Variable db : Database.
Hypothesis exportable_db : exportable db = true.

Local Abbreviation lenient := (sqlite_foreign db = false).
Local Abbreviation primary := (primary_table db).

Lemma primary_not_reference : primary ∉ reference_tables db.
Proof. apply (exportable_parts db exportable_db). Qed.

Lemma unskipped_not_reference (T : string) :
  T = primary \/ skipped db T = false -> T ∉ reference_tables db.
Proof.
  intros [->|Hs]; [apply primary_not_reference|].
  intros Hin. unfold skipped in Hs. apply bool_decide_eq_false in Hs.
  apply Hs, elem_of_app. now left.
Qed.

Lemma stable_rows (T : string) (t : table) (r : row) :
  T ∉ reference_tables db ->
  dict_get T (tables db) = Some t -> In r (rows t) -> row_stable r = true.
Proof.
  intros HT Ht Hr. destruct (exportable_parts db exportable_db) as (_ & _ & _ & Hst & _).
  unfold rows_stable in Hst. rewrite forallb_forall in Hst.
  specialize (Hst (T, t) (dict_get_In _ _ _ Ht)). cbn [fst snd] in Hst.
  apply orb_prop in Hst as [Hst|Hst].
  - apply bool_decide_eq_true in Hst. contradiction.
  - rewrite forallb_forall in Hst. now apply Hst.
Qed.

Lemma wellformed_rows (T : string) (t : table) (r : row) :
  dict_get T (tables db) = Some t -> In r (rows t) ->
  dom r = list_to_set (columns t).
Proof.
  apply rows_wellformed_row. apply (exportable_parts db exportable_db).
Qed.

(** The entries of an inventory document, read back from the store. *)
Lemma inventory_entry (x : value) (k : string) (rs : list row) :
  In (k, rs) (inventory_document db x) ->
  (k = primary \/ skipped db k = false) /\
  exists t, dict_get k (tables db) = Some t /\
            rs = (if String.eqb k primary
                  then query_filter t (key_column db k) x
                  else map (delete (foreign_key db)) (query_filter t (key_column db k) x)).
Proof.
  intros Hin. apply In_dict_get in Hin; [|apply inventory_document_NoDup].
  rewrite inventory_document_lookup in Hin.
  destruct (String.eqb_spec k primary) as [->|Hne].
  - split; [now left|]. apply entry_of_some in Hin as (t & Ht & _ & ->).
    rewrite String.eqb_refl. eauto.
  - destruct (skipped db k) eqn:Hs; [discriminate|]. split; [now right|].
    apply entry_of_some in Hin as (t & Ht & _ & ->).
    destruct (String.eqb_spec k primary); [contradiction|]. eauto.
Qed.

Lemma inventory_document_stable (x : value) :
  document_stable (inventory_document db x) = true.
Proof.
  unfold document_stable. apply forallb_forall. intros [k rs] Hin. cbn [snd].
  destruct (inventory_entry x k rs Hin) as (Hk & t & Ht & ->).
  pose proof (unskipped_not_reference k Hk) as Hnr.
  apply forallb_forall. intros r Hr.
  destruct (String.eqb k primary).
  - apply query_filter_In in Hr as [Hr _]. exact (stable_rows k t r Hnr Ht Hr).
  - apply in_map_iff in Hr as (r0 & <- & Hr0). apply query_filter_In in Hr0 as [Hr0 _].
    apply row_stable_delete. exact (stable_rows k t r0 Hnr Ht Hr0).
Qed.

(** What [load_json] parses from the file of a source is the inventory
    document of that source. *)
Lemma exported_document (x : value) :
  loads_document (dumps_document (inventory_document db x)) = inventory_document db x.
Proof.
  apply loads_dumps_document; [|apply inventory_document_stable].
  unfold is_dict. apply bool_decide_eq_true, inventory_document_NoDup.
Qed.

Lemma identity_row (v : value) :
  In v (identities db) ->
  exists p r, dict_get primary (tables db) = Some p /\ In r (rows p) /\
              r !! primary_table_key db = Some v.
Proof.
  unfold identities, rows_of. intros Hv.
  destruct (dict_get primary (tables db)) as [p|]; [|destruct Hv].
  apply list_elem_of_In, list_elem_of_omap in Hv as (r & Hr & Hv).
  exists p, r. split; [reflexivity|]. split; [now apply list_elem_of_In | exact Hv].
Qed.

Lemma identity_entry (v : value) :
  In v (identities db) ->
  exists first rest,
    dict_get primary (inventory_document db v) = Some (first :: rest) /\
    first !! primary_table_key db = Some v /\
    first :: rest =
      List.filter (cell_matches (key_column db primary) v) (rows_of db primary).
Proof.
  intros Hv. destruct (identity_row v Hv) as (p & r & Hp & Hr & Hpk).
  rewrite inventory_document_lookup, String.eqb_refl, entry_of_rows, String.eqb_refl.
  rewrite key_column_primary. unfold rows_of. rewrite Hp.
  destruct (List.filter (cell_matches (primary_table_key db) v) (rows p)) as [|first rest] eqn:Hf.
  - exfalso. assert (Hin : In r (List.filter (cell_matches (primary_table_key db) v) (rows p))).
    { apply filter_In. split; [exact Hr | now apply cell_matches_true]. }
    now rewrite Hf in Hin.
  - exists first, rest. split; [reflexivity|]. split; [|reflexivity].
    assert (Hin : In first (List.filter (cell_matches (primary_table_key db) v) (rows p)))
      by (rewrite Hf; now left).
    apply filter_In in Hin as [_ Hm]. now apply cell_matches_true.
Qed.

Lemma reattach (v : value) (r : row) :
  r !! foreign_key db = Some v ->
  <[foreign_key db := v]> (delete (foreign_key db) r) = r.
Proof. intros H. rewrite insert_delete_eq. now apply insert_id. Qed.

Lemma source_statements_ok (v : value) (primary_rows : list row) :
  primary_rows = List.filter (cell_matches (key_column db primary) v) (rows_of db primary) ->
  primary_rows <> [] ->
  Forall (statement_ok db) (source_statements db v primary_rows).
Proof.
  intros Hrows Hne. apply Forall_cons. split.
  - unfold statement_ok. cbn [fst snd]. unfold rows_of in Hrows.
    destruct (dict_get primary (tables db)) as [p|] eqn:Hp.
    + exists p. split; [reflexivity|]. apply Forall_forall. intros r Hr.
      apply list_elem_of_In in Hr. rewrite Hrows in Hr. apply filter_In in Hr as [Hr _].
      exact (wellformed_rows primary p r Hp Hr).
    + now subst.
  - apply Forall_forall. intros st Hst. apply list_elem_of_In in Hst.
    unfold child_statements in Hst. apply in_flat_map in Hst as ([k rs] & Hin & Hst).
    cbn [fst snd] in Hst. destruct (String.eqb_spec k primary) as [|Hk]; [destruct Hst|].
    apply in_map_iff in Hst as (r' & <- & Hr').
    destruct (inventory_entry v k rs Hin) as (Hu & t & Ht & ->).
    destruct (String.eqb_spec k primary) as [|_]; [contradiction|].
    apply in_map_iff in Hr' as (r0 & <- & Hr0). apply query_filter_In in Hr0 as [Hr0 Hfk].
    assert (Hs : skipped db k = false) by (destruct Hu; [contradiction | assumption]).
    rewrite (key_column_unskipped db k Hs) in Hfk. rewrite (reattach v r0 Hfk).
    exists t. cbn [fst snd]. split; [exact Ht|]. apply Forall_singleton.
    exact (wellformed_rows k t r0 Ht Hr0).
Qed.

Lemma rows_added_children (v : value) (T : string) :
  rows_added T (child_statements primary (foreign_key db) v (inventory_document db v)) =
  if String.eqb T primary then []
  else match dict_get T (inventory_document db v) with
       | Some rs => map (insert (foreign_key db) v) rs
       | None => []
       end.
Proof.
  rewrite <- (flat_map_dict T (map (insert (foreign_key db) v)) _
                (inventory_document_NoDup db v)).
  unfold rows_added, child_statements.
  induction (inventory_document db v) as [|[k rs] d IH]; cbn [flat_map fst snd].
  - now destruct (String.eqb T primary).
  - rewrite flat_map_app, IH. clear IH.
    destruct (String.eqb_spec T primary) as [->|HT].
    + destruct (String.eqb_spec k primary) as [|Hk]; [reflexivity|].
      rewrite app_nil_r. fold (rows_added primary (map (fun v0 : row => (k, [<[foreign_key db:=v]> v0])) rs)).
      rewrite rows_added_single. destruct (String.eqb_spec k primary); [contradiction | reflexivity].
    + f_equal. destruct (String.eqb_spec k primary) as [->|Hk].
      * destruct (String.eqb_spec primary T); [congruence | reflexivity].
      * fold (rows_added T (map (fun v0 : row => (k, [<[foreign_key db:=v]> v0])) rs)).
        apply rows_added_single.
Qed.

(** The rows the statements of source [v] add to the primary table and
    to a data table are the rows of that table that belong to [v]. *)
Lemma rows_added_source (v : value) (primary_rows : list row) (T : string) :
  primary_rows = List.filter (cell_matches (key_column db primary) v) (rows_of db primary) ->
  T = primary \/ skipped db T = false ->
  rows_added T (source_statements db v primary_rows) =
  List.filter (cell_matches (key_column db T) v) (rows_of db T).
Proof.
  intros Hrows HT. unfold source_statements.
  change (rows_added T ((primary, primary_rows) :: ?l))
    with ((if String.eqb primary T then primary_rows else []) ++ rows_added T l).
  rewrite rows_added_children. destruct (String.eqb_spec T primary) as [->|Hne].
  - rewrite String.eqb_refl, app_nil_r. exact Hrows.
  - destruct (String.eqb_spec primary T) as [|_]; [congruence|]. cbn [app].
    assert (Hs : skipped db T = false) by (destruct HT; [contradiction | assumption]).
    rewrite inventory_document_lookup, Hs, entry_of_rows.
    destruct (String.eqb_spec T primary) as [|_]; [contradiction|].
    rewrite (key_column_unskipped db T Hs).
    set (matching := List.filter (cell_matches (foreign_key db) v) (rows_of db T)).
    assert (Hre : map (insert (foreign_key db) v) (map (delete (foreign_key db)) matching)
                  = matching).
    { rewrite map_map. rewrite <- (map_id matching) at 2. apply map_ext_in.
      intros r Hr. apply filter_In in Hr as [_ Hm]. apply cell_matches_true in Hm.
      now apply reattach. }
    destruct matching; [reflexivity | exact Hre].
Qed.

Variable vs : list value.
Hypothesis vs_NoDup : NoDup vs.
Hypothesis vs_identities : forall v, v ∈ vs <-> In v (identities db).
Hypothesis vs_files :
  source_files db = map (fun v => (source_name v, source_content db v)) vs.

Local Abbreviation exported := (layout (reference_files db) (source_files db)).

Lemma exported_source (v : value) :
  v ∈ vs ->
  read_file [source_directory; source_name v] exported =
  Ok (SourceJSON (dumps_document (inventory_document db v))).
Proof.
  intros Hv. unfold read_file, layout. cbn [fs_lookup dict_get].
  change (String.eqb source_directory reference_directory) with false.
  change (String.eqb source_directory source_directory) with true. cbn match.
  rewrite vs_files, (dict_get_map_injective source_name (source_content db) vs v Hv).
  - reflexivity.
  - destruct (exportable_parts db exportable_db) as (_ & _ & _ & _ & Hfn & _).
    intros y Hy E. apply vs_identities in Hv, Hy.
    destruct (filenames_ok_identity db y Hfn Hy) as (_ & _ & _ & Hinj). now apply Hinj.
Qed.

Lemma load_json_triple (done : list value) (v : value) :
  v ∈ vs ->
  triple lenient (gathered db done)
    (load_json [source_directory; source_name v] exported)
    (gathered db (done ++ [v])).
Proof.
  intros Hv d log [Hs Hrows].
  destruct (schema_fields d db Hs) as (_ & _ & Hp & Hk & Hf & _).
  destruct (identity_entry v (proj1 (vs_identities v) Hv)) as (first & rest & Hget & Hfirst & Hfilter).
  assert (Hrun := load_json_run [source_directory; source_name v] exported
                    (dumps_document (inventory_document db v)) (d, log) first rest v
                    (exported_source v Hv)).
  cbn [fst] in Hrun. rewrite exported_document, Hp, Hk, Hf in Hrun.
  rewrite (Hrun Hget Hfirst). clear Hrun.
  pose proof (triple_transaction lenient _ _ _
                (run_inserts_triple db (source_statements db v (first :: rest)) (rows_of d)
                   (source_statements_ok v (first :: rest) Hfilter ltac:(discriminate)))) as Htr.
  destruct (Htr d log) as [H1 H2]; [split; [exact Hs | reflexivity]|].
  split; [|exact H2]. intros Hok. destruct (H1 Hok) as [Hs' Hr']. split; [exact Hs'|].
  intros T HT. rewrite Hr', (Hrows T HT), (rows_added_source v (first :: rest) T Hfilter HT).
  rewrite flat_map_app. cbn [flat_map]. now rewrite app_nil_r.
Qed.

Lemma source_file_loaded (v : value) (s : Database * list event) :
  v ∈ vs ->
  (let file := source_name v in
   let core_name := py_replace ".json" "" file in
   if bool_decide (core_name ∈ reference_tables db) then mret tt
   else if negb (py_endswith ".json" file) || py_startswith "." file then mret tt
   else load_json ([source_directory] ++ [file]) exported) s =
  load_json [source_directory; source_name v] exported s.
Proof.
  intros Hv. destruct (exportable_parts db exportable_db) as (_ & _ & _ & _ & Hfn & _).
  destruct (filenames_ok_identity db v Hfn (proj1 (vs_identities v) Hv)) as (_ & Hdot & Href & _).
  cbn zeta. rewrite (bool_decide_eq_false_2 _ Href), Hdot.
  unfold source_name at 1, json_filename. rewrite py_endswith_append. reflexivity.
Qed.

(** The third block of [load_database] gathers the rows of every
    source. *)
Lemma load_sources_triple :
  triple lenient
    (fun d => schema d = schema db /\ forall T, T ∉ reference_tables db -> rows_of d T = [])
    (load_sources exported)
    (gathered db vs).
Proof.
  intros d log [Hs Hempty]. unfold load_sources. rewrite st_bind_unfold. cbn [fst].
  destruct (schema_fields d db Hs) as (_ & -> & _).
  change (path_exists [source_directory] exported) with true. cbn match.
  rewrite st_bind_unfold. unfold lift, listdir.
  change (fs_lookup [source_directory] exported) with (Some (Dir (source_files db))).
  cbn match. rewrite vs_files. unfold dict_keys. rewrite map_map. cbn [fst].
  rewrite <- vs_files, for_each_map.
  assert (Hloop : triple lenient (gathered db [])
            (for_each vs (fun v => load_json [source_directory; source_name v] exported))
            (gathered db vs)).
  { apply triple_for_each. intros done v rest Hsplit. apply load_json_triple.
    rewrite Hsplit. apply elem_of_app. right. now left. }
  destruct (Hloop d log) as [H1 H2].
  { split; [exact Hs|]. intros T HT. cbn [flat_map]. apply Hempty.
    now apply unskipped_not_reference. }
  assert (Heq : for_each vs
                  (fun x => let file := source_name x in
                            let core_name := py_replace ".json" "" file in
                            if bool_decide (core_name ∈ reference_tables db) then mret tt
                            else if negb (py_endswith ".json" file) || py_startswith "." file
                                 then mret tt
                                 else load_json ([source_directory] ++ [file]) exported)
                  (d, log) =
                for_each vs (fun v => load_json [source_directory; source_name v] exported)
                  (d, log)).
  { apply for_each_ext_in. intros v Hin s. apply source_file_loaded.
    now apply list_elem_of_In. }
  cbn zeta in Heq. rewrite Heq. split; assumption.
Qed.

(** After the whole of [load_database] the store holds, for the primary
    table and for every data table, the rows of every source. *)
Lemma load_database_triple :
  triple lenient (fun d => schema d = schema db) (load_database exported) (gathered db vs).
Proof.
  unfold load_database.
  eapply triple_seq; [apply (clear_tables_triple db exportable_db)|].
  eapply triple_seq; [apply (load_reference_tables_triple db exportable_db)|].
  apply load_sources_triple.
Qed.

Lemma gathered_inventory (d : Database) (x : value) :
  gathered db vs d -> In x (identities db) -> inventory d x = inventory db x.
Proof.
  intros [Hs Hrows] Hx. apply inventory_congruence; [exact Hs|].
  intros T HT. rewrite (Hrows T HT), (filter_gathered _ x _ vs vs_NoDup).
  now rewrite bool_decide_eq_true_2 by (now apply vs_identities).
Qed.

End SourcesPhase.

(** C1 (as amended). For a store whose sources get distinct file names
    that the directory accepts and the import does not skip, whose rows
    hold exactly the columns of their tables and, outside the reference
    tables, no string in the form of a date, whose primary table is not
    listed as a reference table and whose tables [sorted_tables] lists:
    [save_database] into a directory completes, and whenever the
    [load_database] that follows completes the reloaded store gives every
    source the inventory the store gave it before the export. *)
Theorem export_import_round_trip (db : Database) (es : list (string * node))
    (log : list event) :
  exportable db = true ->
  exists directory,
    save_database db true (Dir es) = (Ok tt, directory) /\
    ((load_database directory (db, log)).1 = Ok tt ->
     forall x, In x (identities db) ->
       inventory (load_database directory (db, log)).2.1 x = inventory db x).
Proof.
  intros Hex. exists (layout (reference_files db) (source_files db)).
  split; [now apply save_database_exported|].
  destruct (exportable_parts db Hex) as (_ & _ & _ & _ & Hfn & _).
  destruct (source_files_shape db Hfn) as (vs & Hnd & Hmem & Hfiles).
  destruct (load_database_triple db Hex vs Hmem Hfiles db log eq_refl) as [H1 _].
  intros Hok x Hx.
  exact (gathered_inventory db vs Hnd Hmem _ x (H1 Hok) Hx).
Qed.

Lemma export_import_round_trip_witness :
  exportable sample_db = true /\
  exists directory,
    save_database sample_db true (Dir []) = (Ok tt, directory) /\
    inventory (load_database directory (sample_db, [])).2.1 (VStr "2MASS J13571237+1428398") =
    inventory sample_db (VStr "2MASS J13571237+1428398").
Proof.
  split; [vm_compute; reflexivity|].
  destruct (export_import_round_trip sample_db [] []) as (directory & Hsave & Hinv);
    [vm_compute; reflexivity|].
  exists directory. split; [exact Hsave|].
  assert (Hdir : directory = sample_directory).
  { apply (f_equal snd) in Hsave. symmetry. exact Hsave. }
  subst directory. apply Hinv; [vm_compute; reflexivity | vm_compute; left; reflexivity].
Defined.

(** ["Gl 229"] and ["GL 229"] are both written to [gl_229.json]; the
    second export overwrites the first, and after the import the first
    source is gone. *)
Lemma export_import_loses_colliding_source :
  (save_database colliding_db true (Dir [])).1 = Ok tt /\
  (load_database colliding_directory (colliding_db, [])).1 = Ok tt /\
  In (VStr "Gl 229") (identities colliding_db) /\
  inventory (load_database colliding_directory (colliding_db, [])).2.1 (VStr "Gl 229") = Ok [] /\
  inventory (load_database colliding_directory (colliding_db, [])).2.1 (VStr "Gl 229") <>
  inventory colliding_db (VStr "Gl 229").
Proof.
  split; [vm_compute; reflexivity|]. split; [vm_compute; reflexivity|].
  split; [vm_compute; left; reflexivity|]. split; [vm_compute; reflexivity|].
  intros H. vm_compute in H. discriminate H.
Qed.

(* ================================================================== *)
(** ** Further properties *)
(* ================================================================== *)

(** *** When [inventory] raises *)

Lemma fold_result_steps {A B : Type} (f : B -> A -> result B) (xs : list A) :
  forall b b', fold_result f xs b = Ok b' ->
  forall a, In a xs -> exists b0 b1, f b0 a = Ok b1.
Proof.
  induction xs as [|a0 xs IH]; intros b b' H a Ha; [destruct Ha|].
  cbn [fold_result] in H. destruct (f b a0) as [b1|e] eqn:Hb; cbn in H; [|discriminate].
  destruct Ha as [<-|Ha]; [eauto | exact (IH b1 b' H a Ha)].
Qed.

Lemma fold_result_raises {A B : Type} (f : B -> A -> result B) (xs : list A) :
  forall b e, fold_result f xs b = Raise e ->
  exists b0 a, In a xs /\ f b0 a = Raise e.
Proof.
  induction xs as [|a0 xs IH]; intros b e H; [discriminate|].
  cbn [fold_result] in H. destruct (f b a0) as [b1|e0] eqn:Hb; cbn in H.
  - destruct (IH b1 e H) as (b0 & a & Ha & Hf). exists b0, a. split; [now right | exact Hf].
  - injection H as <-. exists b, a0. split; [now left | exact Hb].
Qed.

Lemma inventory_query_raises (db : Database) (d : document) (T : string) (x : value) (e : error) :
  _inventory_query db d T x = Raise e -> exists k, e = KeyError k.
Proof.
  rewrite inventory_query_eq. destruct (has_column db T (key_column db T)); [discriminate|].
  intros H. injection H as <-. destruct (dict_get T (tables db)); eauto.
Qed.

(** X1. [inventory] returns a document exactly when the schema invariant
    holds: the primary table exists and has the identity column, and every
    table that is neither the primary table nor listed as a reference table
    has the foreign key column.  Whether it raises does not depend on the
    name asked for, and what it raises is a [KeyError]. *)
Theorem inventory_raises_iff_schema_broken (db : Database) (x : value) :
  ((exists doc, inventory db x = Ok doc) <-> schema_ok db = true) /\
  (forall e, inventory db x = Raise e -> exists k, e = KeyError k).
Proof.
  split; [split|].
  - intros [doc H]. unfold inventory in H.
    rewrite inventory_query_eq, key_column_primary in H.
    destruct (has_column db (primary_table db) (primary_table_key db)) eqn:Hp; [|discriminate].
    cbn in H. unfold schema_ok. rewrite Hp. cbn. apply forallb_forall. intros T HT.
    destruct (skipped db T) eqn:Hs; [reflexivity|]. cbn.
    destruct (fold_result_steps _ _ _ _ H T HT) as (b0 & b1 & Hstep).
    fold (skipped db T) in Hstep. rewrite Hs in Hstep.
    rewrite inventory_query_eq, key_column_unskipped in Hstep by assumption.
    destruct (has_column db T (foreign_key db)); [reflexivity | discriminate].
  - intros H. eexists. now apply inventory_total.
  - intros e H. unfold inventory in H.
    destruct (_inventory_query db [] (primary_table db) x) as [d0|e0] eqn:Hq; cbn in H.
    + apply fold_result_raises in H as (b0 & T & _ & Hstep).
      destruct (bool_decide _); [discriminate|]. now apply inventory_query_raises in Hstep.
    + injection H as <-. now apply inventory_query_raises in Hq.
Qed.

(** X2. In the document [inventory] returns, a table listed as a reference
    table (and not the primary table) and a name that is no table of the
    store have no key; under the key of any other table stand all the rows
    of that table that match the name, in the order the table yields them
    (with the foreign key column deleted outside the primary table), and
    the key is absent exactly when no row matches: no key is bound to an
    empty list. *)
Theorem inventory_entries (db : Database) (x : value) (doc : document) :
  inventory db x = Ok doc ->
  (forall T, T ∈ reference_tables db -> T <> primary_table db -> dict_get T doc = None) /\
  (forall T, T ∉ dict_keys (tables db) -> dict_get T doc = None) /\
  (forall T t,
     dict_get T (tables db) = Some t ->
     T = primary_table db \/ T ∉ reference_tables db ->
     match dict_get T doc with Some rs => rs | None => [] end =
     if String.eqb T (primary_table db)
     then query_filter t (primary_table_key db) x
     else map (delete (foreign_key db)) (query_filter t (foreign_key db) x)) /\
  (forall T, dict_get T doc <> Some []).
Proof.
  intros H. apply inventory_inv in H. subst doc. split; [|split; [|split]].
  - intros T Href Hp. rewrite inventory_document_lookup.
    destruct (String.eqb_spec T (primary_table db)) as [|_]; [contradiction|].
    assert (Hs : skipped db T = true).
    { apply bool_decide_eq_true, elem_of_app. now left. }
    now rewrite Hs.
  - intros T HT. rewrite inventory_document_lookup, (entry_of_unknown db x T HT).
    now destruct (String.eqb T (primary_table db)), (skipped db T).
  - intros T t Ht HT. rewrite inventory_document_lookup.
    assert (He : (if String.eqb T (primary_table db) then entry_of db x T
                  else if skipped db T then None else entry_of db x T) = entry_of db x T).
    { destruct (String.eqb_spec T (primary_table db)) as [|Hne]; [reflexivity|].
      destruct HT as [|HT]; [contradiction|]. now rewrite (skipped_false db T Hne HT). }
    rewrite He. unfold entry_of. rewrite Ht.
    assert (Hk : key_column db T =
                 if String.eqb T (primary_table db) then primary_table_key db else foreign_key db)
      by reflexivity.
    rewrite Hk. destruct (String.eqb T (primary_table db)).
    + now destruct (query_filter t (primary_table_key db) x).
    + now destruct (query_filter t (foreign_key db) x).
  - intros T HT. rewrite inventory_document_lookup in HT.
    assert (He : entry_of db x T = Some []).
    { destruct (String.eqb T (primary_table db)); [exact HT|].
      destruct (skipped db T); [discriminate | exact HT]. }
    apply entry_of_some in He as (t & _ & Hne & Hrs).
    destruct (String.eqb T (primary_table db));
      destruct (query_filter t (key_column db T) x); try congruence; discriminate.
Qed.

Lemma inventory_entries_witness :
  inventory sample_db (VStr "2MASS J13571237+1428398") =
    Ok (inventory_document sample_db (VStr "2MASS J13571237+1428398")) /\
  dict_get "Publications" (inventory_document sample_db (VStr "2MASS J13571237+1428398")) = None.
Proof.
  assert (H : inventory sample_db (VStr "2MASS J13571237+1428398") =
              Ok (inventory_document sample_db (VStr "2MASS J13571237+1428398")))
    by (apply inventory_total; vm_compute; reflexivity).
  split; [exact H|].
  destruct (inventory_entries sample_db _ _ H) as (Href & _).
  apply Href; [vm_compute; set_solver | discriminate].
Defined.

(** *** Imports are all or nothing *)

(** X3. Whatever the file holds and whatever the store holds, a
    [load_json] that raises leaves the store as it found it: either it
    raised before it opened its transaction and nothing was sent, or the
    transaction it opened was rolled back. *)
Theorem load_json_all_or_nothing (filename : list string) (fs : node)
    (s : Database * list event) :
  (load_json filename fs s).1 <> Ok tt ->
  (load_json filename fs s).2.1 = s.1 /\
  ((load_json filename fs s).2.2 = s.2 \/
   exists sent, (load_json filename fs s).2.2 = s.2 ++ Begin :: sent ++ [Rollback]).
Proof.
  intros Hraise.
  destruct (read_file filename fs) as [[j|vs|]|e] eqn:Hread;
    try (unfold load_json in *; rewrite st_bind_unfold in *; unfold lift in *;
         rewrite Hread in *; cbn; auto; fail).
  destruct (dict_get (primary_table s.1) (loads_document j)) as [[|first rest]|] eqn:Hget.
  - unfold load_json in *. rewrite st_bind_unfold in *. unfold lift in *. rewrite Hread in *.
    rewrite st_bind_unfold in *. cbn match in *. rewrite Hget in *. cbn. auto.
  - destruct (first !! primary_table_key s.1) as [source|] eqn:Hsrc.
    + rewrite (load_json_run filename fs j s first rest source Hread Hget Hsrc) in *.
      rewrite transaction_unfold in *.
      set (stmts := (primary_table s.1, first :: rest) :: child_statements _ _ _ _) in *.
      destruct (run_inserts_log stmts (s.1, s.2 ++ [Begin])) as (sent & Hlog & _ & _).
      cbn zeta in Hlog.
      destruct (for_each stmts _ _) as [[[]|e] [db' log]]; cbn [fst snd] in *.
      * now contradiction Hraise.
      * split; [reflexivity|]. right. exists sent. rewrite Hlog, <- !app_assoc. reflexivity.
    + unfold load_json in *. rewrite st_bind_unfold in *. unfold lift in *. rewrite Hread in *.
      rewrite st_bind_unfold in *. cbn match in *. rewrite Hget, Hsrc in *. cbn. auto.
  - unfold load_json in *. rewrite st_bind_unfold in *. unfold lift in *. rewrite Hread in *.
    rewrite st_bind_unfold in *. cbn match in *. rewrite Hget in *. cbn. auto.
Qed.

Lemma load_json_all_or_nothing_witness :
  (load_json sample_source_file sample_directory (cleared_sample, [])).1 =
    Raise (IntegrityError "Sources") /\
  (load_json sample_source_file sample_directory (cleared_sample, [])).2.1 = cleared_sample.
Proof.
  split; [vm_compute; reflexivity|].
  apply (load_json_all_or_nothing sample_source_file sample_directory (cleared_sample, [])).
  vm_compute. discriminate.
Defined.

Lemma transaction_preserves (I : Database -> Prop) (body : Exec unit) :
  preserves (fun s : Database * list event => I s.1) body ->
  preserves (fun s : Database * list event => I s.1) (transaction body).
Proof.
  intros Hb s H. unfold transaction. specialize (Hb (s.1, s.2 ++ [Begin]) H).
  destruct (body _) as [[[]|e] [d log]]; [exact Hb | exact H].
Qed.

(** *** Importing one source leaves the others alone *)

Lemma complete_row_no_match (cols : list string) (c : string) (x : value) (r : row) :
  x <> VNull -> r !! c <> Some x -> cell_matches c x (complete_row cols r) = false.
Proof.
  intros Hx Hr. apply not_true_is_false. rewrite cell_matches_true.
  unfold complete_row. rewrite lookup_union. destruct (r !! c) as [v|] eqn:Hc.
  - destruct (gset_to_gmap VNull (list_to_set cols) !! c); cbn; congruence.
  - rewrite lookup_gset_to_gmap. destruct (decide (c ∈ (list_to_set cols : gset string))).
    + rewrite option_guard_True by assumption. cbn. congruence.
    + rewrite option_guard_False by assumption. cbn. congruence.
Qed.

Lemma filter_none {A : Type} (p : A -> bool) (l : list A) :
  (forall a, In a l -> p a = false) -> List.filter p l = [].
Proof.
  induction l as [|a l IH]; intros H; [reflexivity|]. cbn.
  rewrite (H a) by (now left). apply IH. intros b Hb. apply H. now right.
Qed.

Lemma execute_insert_same_matches (db : Database) (x : value) (k : string) (vs : list row) :
  x <> VNull ->
  (forall r, In r vs -> r !! key_column db k <> Some x) ->
  preserves (fun s : Database * list event => same_matches db x s.1) (execute_insert k vs).
Proof.
  intros Hx Hvs s [Hs Hm]. unfold execute_insert, get_table.
  destruct (dict_get k (tables s.1)) as [t|] eqn:Ht; [|now split].
  unfold insert_rows. destruct (forallb _ vs); [|now split].
  destruct (sqlite_foreign s.1 && negb _); [now split|]. cbn [fst snd]. split.
  - now rewrite schema_with_rows.
  - intros T. rewrite rows_of_with_rows. destruct (String.eqb_spec T k) as [->|_]; [|apply Hm].
    assert (Hk : rows t = rows_of s.1 k) by (unfold rows_of; now rewrite Ht).
    rewrite List.filter_app, <- (Hm k), Hk.
    rewrite (filter_none _ (map (complete_row (columns t)) vs)); [apply app_nil_r|].
    intros r Hr. apply in_map_iff in Hr as (r0 & <- & Hr0).
    apply complete_row_no_match; auto.
Qed.

(** X4. Importing a document does not change what [inventory] returns
    for another source: when no row of the document's primary-table entry
    carries the identity [x] (and [x] is not [None]), [inventory] of [x]
    is the same after [load_json] as before, whether the import completed
    or raised. *)
Theorem load_json_other_source (filename : list string) (fs : node)
    (s : Database * list event) (x : value) :
  x <> VNull ->
  (forall j rs r,
     read_file filename fs = Ok (SourceJSON j) ->
     dict_get (primary_table s.1) (loads_document j) = Some rs ->
     In r rs -> r !! primary_table_key s.1 <> Some x) ->
  inventory (load_json filename fs s).2.1 x = inventory s.1 x.
Proof.
  intros Hx Hdoc.
  assert (Hsame : same_matches s.1 x (load_json filename fs s).2.1);
    [|destruct Hsame as [Hs Hm]; apply inventory_congruence; auto].
  assert (H0 : same_matches s.1 x s.1) by (now split).
  destruct (read_file filename fs) as [[j|vs|]|e] eqn:Hread;
    try (unfold load_json; rewrite st_bind_unfold; unfold lift; rewrite Hread; exact H0).
  specialize (Hdoc j).
  destruct (dict_get (primary_table s.1) (loads_document j)) as [[|first rest]|] eqn:Hget;
    try (unfold load_json; rewrite st_bind_unfold; unfold lift; rewrite Hread;
         rewrite st_bind_unfold; cbn match; rewrite Hget; exact H0).
  destruct (first !! primary_table_key s.1) as [source|] eqn:Hsrc;
    [|unfold load_json; rewrite st_bind_unfold; unfold lift; rewrite Hread;
      rewrite st_bind_unfold; cbn match; rewrite Hget, Hsrc; exact H0].
  rewrite (load_json_run filename fs j s first rest source Hread Hget Hsrc).
  apply (transaction_preserves (same_matches s.1 x)); [|exact H0].
  apply (preserves_for_each (fun s0 : Database * list event => same_matches s.1 x s0.1)).
  intros [k vs] Hst. cbn [fst snd]. apply execute_insert_same_matches; [exact Hx|].
  destruct Hst as [E|Hst].
  - injection E as <- <-. rewrite key_column_primary. intros r Hr. now apply (Hdoc _ r eq_refl eq_refl).
  - unfold child_statements in Hst. apply in_flat_map in Hst as ([k0 rs0] & _ & Hst).
    cbn [fst snd] in Hst. destruct (String.eqb_spec k0 (primary_table s.1)) as [|Hne];
      [destruct Hst|].
    apply in_map_iff in Hst as (v & E & _). injection E as <- <-.
    intros r [<-|[]]. unfold key_column.
    destruct (String.eqb_spec k0 (primary_table s.1)) as [|_]; [contradiction|].
    rewrite lookup_insert_eq. intros E. injection E as ->.
    apply (Hdoc _ first eq_refl eq_refl); [now left | exact Hsrc].
Qed.

Lemma load_json_other_source_witness :
  (load_json ["gl_229.json"] second_source_file (sample_db, [])).1 = Ok tt /\
  inventory (load_json ["gl_229.json"] second_source_file (sample_db, [])).2.1
    (VStr "2MASS J13571237+1428398") =
  inventory sample_db (VStr "2MASS J13571237+1428398").
Proof.
  split; [vm_compute; reflexivity|].
  apply (load_json_other_source ["gl_229.json"] second_source_file (sample_db, [])).
  - discriminate.
  - intros j rs r Hread Hget Hr.
    assert (Hdoc : loads_document j =
                   [("Sources", [ {[ "source" := VStr "Gl 229"; "reference" := VStr "Schm10" ]} ]);
                    ("Names", [ {[ "other_name" := VStr "HD 42581" ]} ])]).
    { injection Hread as <-. vm_compute. reflexivity. }
    rewrite Hdoc in Hget. injection Hget as <-. destruct Hr as [<-|[]].
    vm_compute. discriminate.
Defined.

(** *** A reference table, exported and loaded again *)

Lemma loads_dumps_cell (v : value) : loads_scalar (dumps_scalar v) = reloaded_cell v.
Proof. now destruct v. Qed.

Lemma loads_dumps_rows (rs : list row) :
  map loads_row (map dumps_row rs) = map (fmap reloaded_cell) rs.
Proof.
  rewrite map_map. apply map_ext. intros r. unfold loads_row, dumps_row.
  rewrite <- map_fmap_compose. apply map_fmap_ext. intros k v _. apply loads_dumps_cell.
Qed.

Lemma save_reference_table_written (db : Database) (R : string) (t : table) (fs fs' : node) :
  dict_get R (tables db) = Some t ->
  rows t <> [] ->
  save_reference_table db R fs = (Ok tt, fs') ->
  fs_lookup [reference_directory; R +:+ ".json"] fs' =
  Some (File (TableJSON (map dumps_row (rows t)))).
Proof.
  intros Ht Hne. unfold save_reference_table. rewrite st_bind_unfold.
  destruct (if path_isdir [reference_directory] fs then (Ok tt, fs)
            else run_fs (makedirs [reference_directory]) fs) as [[[]|e] fs1]; [|discriminate].
  rewrite st_bind_unfold. unfold lift, get_table. rewrite Ht.
  destruct (rows t) as [|r rs] eqn:Hr; [contradiction|].
  unfold run_fs. destruct (write_file _ _ fs1) as [fs2|e] eqn:Hw; [|discriminate].
  intros H. injection H as <-. exact (write_file_found _ _ _ _ Hw).
Qed.

(** X5. When [save_reference_table] has written a table that holds rows
    and [load_table] reads the file into a store of the same schema, what
    it sends is one transaction with one insert of the exported rows as
    plain [json.load] returns them: equal to the stored rows except that
    a date or a date-time cell is now the string the serializer wrote
    ([load_table] parses without the hook [load_json] uses).  When the
    transaction commits those rows are appended to the table and no other
    table changes; when the insert is refused the transaction is rolled
    back and the store is unchanged. *)
Theorem reference_table_round_trip (db : Database) (R : string) (t : table)
    (fs fs' : node) (d : Database) (log : list event) :
  dict_get R (tables db) = Some t ->
  rows t <> [] ->
  Forall (fun r : row => dom r = list_to_set (columns t)) (rows t) ->
  save_reference_table db R fs = (Ok tt, fs') ->
  schema d = schema db ->
  let out := load_table R [reference_directory] fs' (d, log) in
  let sent := Insert R (map (fmap reloaded_cell) (rows t)) in
  (out.1 = Ok tt ->
   out.2.2 = log ++ [Begin; sent; Commit] /\
   forall T, rows_of out.2.1 T =
             rows_of d T ++ (if String.eqb T R then map (fmap reloaded_cell) (rows t) else [])) /\
  (out.1 <> Ok tt -> out.2.2 = log ++ [Begin; sent; Rollback] /\ out.2.1 = d).
Proof.
  intros Ht Hne Hdom Hsave Hs. cbn zeta.
  pose proof (save_reference_table_written db R t fs fs' Ht Hne Hsave) as Hfile.
  unfold load_table, path_exists, read_file. cbn [app]. rewrite Hfile.
  rewrite st_bind_unfold. unfold lift. cbn match. rewrite loads_dumps_rows.
  assert (Hst : statement_ok db (R, map (fmap reloaded_cell) (rows t))).
  { exists t. split; [exact Ht|]. cbn [snd]. apply Forall_forall. intros r Hr.
    apply list_elem_of_In, in_map_iff in Hr as (r0 & <- & Hr0).
    rewrite dom_fmap_L. rewrite Forall_forall in Hdom. apply Hdom. now apply list_elem_of_In. }
  pose proof (triple_transaction (sqlite_foreign db = false) _ _ _
                (execute_insert_triple db (R, map (fmap reloaded_cell) (rows t))
                   (rows_of d) Hst)) as Htr.
  destruct (Htr d log) as [H1 _]; [split; [exact Hs | reflexivity]|].
  cbn [fst snd] in H1.
  destruct (schema_table d db R t Hs Ht) as (td & Htd & _).
  assert (Hlog : forall s1 : Database * list event,
             s1.1 = d ->
             (execute_insert R (map (fmap reloaded_cell) (rows t)) s1).2.2 =
             s1.2 ++ [Insert R (map (fmap reloaded_cell) (rows t))]).
  { intros s1 E. unfold execute_insert, get_table. rewrite E, Htd.
    now destruct (insert_rows d R td _). }
  split.
  - intros Hok. split.
    + rewrite transaction_unfold in *. specialize (Hlog (d, log ++ [Begin]) eq_refl).
      cbn [fst snd] in *.
      destruct (execute_insert R _ _) as [[[]|e] [d1 log1]]; cbn [fst snd] in *;
        [|discriminate]. rewrite Hlog, <- !app_assoc. reflexivity.
    + intros T. destruct (H1 Hok) as [_ Hrows]. rewrite Hrows.
      unfold rows_added. cbn [flat_map fst snd]. rewrite app_nil_r.
      now rewrite (String.eqb_sym R T).
  - intros Hraise. rewrite transaction_unfold in *.
    specialize (Hlog (d, log ++ [Begin]) eq_refl). cbn [fst snd] in *.
    destruct (execute_insert R _ _) as [[[]|e] [d1 log1]]; cbn [fst snd] in *;
      [now contradiction Hraise|].
    rewrite Hlog, <- !app_assoc. split; reflexivity.
Qed.

Lemma reference_table_round_trip_witness :
  save_reference_table sample_db "Publications" (Dir []) =
    (Ok tt, (save_reference_table sample_db "Publications" (Dir [])).2) /\
  (load_table "Publications" [reference_directory]
     (save_reference_table sample_db "Publications" (Dir [])).2 (cleared_sample, [])).1 = Ok tt /\
  rows_of
    (load_table "Publications" [reference_directory]
       (save_reference_table sample_db "Publications" (Dir [])).2 (cleared_sample, [])).2.1
    "Publications" = rows publications.
Proof.
  split; [vm_compute; reflexivity|]. split; [vm_compute; reflexivity|].
  destruct (reference_table_round_trip sample_db "Publications" publications (Dir [])
              (save_reference_table sample_db "Publications" (Dir [])).2 cleared_sample [])
    as (Hdone & _).
  - reflexivity.
  - discriminate.
  - repeat constructor; vm_compute; reflexivity.
  - vm_compute; reflexivity.
  - vm_compute; reflexivity.
  - cbn zeta in Hdone. destruct Hdone as [_ Hrows]; [vm_compute; reflexivity|].
    rewrite Hrows. vm_compute. reflexivity.
Defined.

(** *** What an export does to the files already there *)

(** X6. With [clear_first], what [save_database] returns and leaves in
    the directory does not depend on what the directory held before. *)
Theorem save_database_clear_first (db : Database) (es : list (string * node)) :
  save_database db true (Dir es) = save_database db true (Dir []).
Proof.
  unfold save_database. rewrite (st_bind_unfold _ _ (Dir es)), (st_bind_unfold _ _ (Dir [])).
  rewrite (st_bind_unfold _ _ (Dir es)), (st_bind_unfold _ _ (Dir [])).
  cbn [listdir fs_lookup]. rewrite (clear_directory (dict_keys es) es) by auto.
  reflexivity.
Qed.

Lemma ensure_directory_keeps (d a : string) (q : list string) (n : node) :
  a <> d ->
  preserves (fun fs => fs_lookup (a :: q) fs = Some n)
    (fun fs => if path_isdir [d] fs then (Ok tt, fs) else run_fs (makedirs [d]) fs).
Proof.
  intros Hne fs H. destruct (path_isdir [d] fs); [exact H|].
  revert fs H. apply (preserves_run_fs (fun fs => fs_lookup (a :: q) fs = Some n)).
  intros fs fs' H Hm.
  rewrite (makedirs_lookup d fs fs' Hm). destruct (String.eqb_spec a d); [contradiction | exact H].
Qed.

(** X7. Without [clear_first], [save_database] removes nothing: when the
    file names the export derives are each one path component, a file of
    [source/] whose name is the file name of no source of the store is
    still there afterwards, with what it held, whether the export
    completed or raised. *)
Theorem save_database_keeps_stale_file (db : Database) (fs : node) (f : string) (n : node) :
  plain_names db = true ->
  fs_lookup [source_directory; f] fs = Some n ->
  (forall v, In v (identities db) -> source_name v <> f) ->
  fs_lookup [source_directory; f] (save_database db false fs).2 = Some n.
Proof.
  intros _ Hf Hnames. revert fs Hf. unfold save_database.
  change (preserves (fun fs => fs_lookup [source_directory; f] fs = Some n)
    (mret tt;;
     (fun fs => if path_isdir [reference_directory] fs then (Ok tt, fs)
                else run_fs (makedirs [reference_directory]) fs);;
     (fun fs => if path_isdir [source_directory] fs then (Ok tt, fs)
                else run_fs (makedirs [source_directory]) fs);;
     for_each (reference_tables db)
       (fun table_name =>
          if bool_decide (table_name ∈ dict_keys (tables db))
          then save_reference_table db table_name else mret tt);;
     primary ← lift (get_table db (primary_table db));
     for_each (rows primary) (fun r => save_json db (ByRow r) [source_directory]))).
  apply preserves_bind; [apply preserves_ret|]. intros _.
  apply preserves_bind; [apply ensure_directory_keeps; discriminate|]. intros _.
  apply preserves_bind.
  { intros fs H. unfold path_isdir.
    destruct fs as [c|es]; [discriminate|]. cbn [fs_lookup] in *.
    destruct (dict_get source_directory es) as [[c|sub]|] eqn:Hsrc; try discriminate.
    cbn [snd fs_lookup]. now rewrite Hsrc. }
  intros _. apply preserves_bind.
  { apply preserves_for_each. intros R _. destruct (bool_decide _); [|apply preserves_ret].
    unfold save_reference_table.
    apply preserves_bind; [apply ensure_directory_keeps; discriminate|]. intros _.
    apply preserves_bind; [apply preserves_lift|]. intros t.
    destruct (rows t); [apply preserves_ret|].
    apply (preserves_run_fs (fun fs => fs_lookup [source_directory; f] fs = Some n)).
    intros fs0 fs1 H Hw.
    assert (Hne : reference_directory <> source_directory) by discriminate.
    rewrite (write_file_other_top _ _ source_directory _ [f] _ _ Hne Hw). exact H. }
  intros _. apply preserves_bind_ok; [apply preserves_lift|]. intros p fs0 fs1 Hget H.
  unfold lift in Hget. injection Hget as Hget <-.
  revert fs0 H.
  apply (preserves_for_each (fun fs => fs_lookup [source_directory; f] fs = Some n)).
  intros r Hr fs0 H.
  unfold save_json. destruct (r !! primary_table_key db) as [v|] eqn:Hv; [|exact H].
  destruct (inventory db v) as [data|e]; cbn [mbind result_bind]; [|exact H].
  change ([source_directory] ++ [json_filename (py_str v)])
    with [source_directory; source_name v].
  destruct (write_file _ _ fs0) as [fs1|e] eqn:Hw; cbn [snd]; [|exact H].
  assert (Hne : source_name v <> f); [|
    rewrite (write_file_other_sub _ source_directory _ f [] [] _ _ Hne Hw); exact H].
  apply Hnames. unfold identities, rows_of. unfold get_table in Hget.
  destruct (dict_get (primary_table db) (tables db)) as [p'|]; [|discriminate].
  injection Hget as ->. apply list_elem_of_In, list_elem_of_omap. exists r.
  split; [now apply list_elem_of_In | exact Hv].
Qed.

Lemma save_database_keeps_stale_file_witness :
  fs_lookup [source_directory; "gl_229.json"] (save_database sample_db false stale_directory).2 =
  Some (File (SourceJSON [])).
Proof.
  apply (save_database_keeps_stale_file sample_db stale_directory "gl_229.json").
  - vm_compute. reflexivity.
  - reflexivity.
  - intros v Hv. vm_compute in Hv. destruct Hv as [<-|[]]. vm_compute. discriminate.
Defined.

(** X8. [save_json] does not create the directory it is given: for a
    path of plain components and a derived file name of one component,
    when the path is not a directory it raises and leaves the file system
    as it was. *)
Theorem save_json_missing_directory (db : Database) (name : source_ref)
    (directory : list string) (fs : node) :
  forallb valid_name directory = true ->
  (forall f, written_name db name = Some f -> valid_name f = true) ->
  path_isdir directory fs = false ->
  exists e, save_json db name directory fs = (Raise e, fs).
Proof.
  intros _ _ Hdir. unfold save_json.
  destruct (match name with ByName s => _ | ByRow r => _ end) as [[source data]|e]; [|eauto].
  assert (Hw : forall (p : list string) (f : string) (c : file_content) (n : node),
             path_isdir p n = false -> exists e, write_file (p ++ [f]) c n = Raise e).
  { clear. induction p as [|x p IH]; intros f c n Hd.
    - destruct n as [c0|es]; [cbn; eauto | discriminate].
    - destruct n as [c0|es]; [cbn; eauto|].
      rewrite <- app_comm_cons, write_file_cons. unfold path_isdir in Hd. cbn [fs_lookup] in Hd.
      destruct (dict_get x es) as [child|].
      + destruct (IH f c child Hd) as [e ->].
        destruct (p ++ [f]) eqn:E; [destruct p; discriminate|]. cbn. eauto.
      + destruct (p ++ [f]) eqn:E; [destruct p; discriminate|]. eauto. }
  destruct (Hw directory (json_filename source) (SourceJSON (dumps_document data)) fs Hdir)
    as [e ->].
  eauto.
Qed.

Lemma save_json_missing_directory_witness :
  exists e, save_json sample_db (ByName "2MASS J13571237+1428398") [source_directory] (Dir []) =
            (Raise e, Dir []).
Proof.
  apply (save_json_missing_directory sample_db _ [source_directory] (Dir [])).
  - reflexivity.
  - intros f Hf. injection Hf as <-. vm_compute. reflexivity.
  - reflexivity.
Defined.

(** *** What a complete export holds, and what comes back *)

(** X9. For a store that meets the conditions of the round trip,
    [save_database] with [clear_first] completes and leaves: for every
    source a file [source/<file name>] that holds the JSON of that
    source's inventory; in [source/] no other entry; and for every
    reference table of the store [reference/<table>.json] with the JSON
    of all its rows, or no such file when the table has no rows. *)
Theorem save_database_files (db : Database) (es : list (string * node)) :
  exportable db = true ->
  exists directory,
    save_database db true (Dir es) = (Ok tt, directory) /\
    (forall v, In v (identities db) ->
       exists doc,
         inventory db v = Ok doc /\
         read_file [source_directory; json_filename (py_str v)] directory =
           Ok (SourceJSON (dumps_document doc))) /\
    (exists files,
       listdir [source_directory] directory = Ok files /\
       forall f, f ∈ files <-> exists v, In v (identities db) /\ f = json_filename (py_str v)) /\
    (forall R t,
       R ∈ reference_tables db -> dict_get R (tables db) = Some t ->
       fs_lookup [reference_directory; R +:+ ".json"] directory =
       match rows t with
       | [] => None
       | _ => Some (File (TableJSON (map dumps_row (rows t))))
       end).
Proof.
  intros Hex. exists (layout (reference_files db) (source_files db)).
  split; [now apply save_database_exported|].
  destruct (exportable_parts db Hex) as (Hok & _ & _ & _ & Hfn & _).
  destruct (source_files_shape db Hfn) as (vs & Hnd & Hmem & Hfiles).
  split; [|split].
  - intros v Hv. exists (inventory_document db v). split; [now apply inventory_total|].
    apply (exported_source db Hex vs Hmem Hfiles v). now apply Hmem.
  - exists (map source_name vs). split.
    + unfold listdir, layout. cbn [fs_lookup dict_get].
      change (String.eqb source_directory reference_directory) with false.
      change (String.eqb source_directory source_directory) with true. cbn match.
      rewrite Hfiles. unfold dict_keys. now rewrite map_map.
    + intros f. rewrite list_elem_of_In, in_map_iff. split.
      * intros (v & <- & Hv). exists v. split; [|reflexivity].
        now apply Hmem, list_elem_of_In.
      * intros (v & Hv & ->). exists v. split; [reflexivity|].
        now apply list_elem_of_In, Hmem.
  - intros R t HR Ht. rewrite (exported_reference db R HR). unfold reference_content.
    now rewrite Ht.
Qed.

Lemma save_database_files_witness :
  exportable sample_db = true /\
  read_file [source_directory; "2mass_j13571237+1428398.json"] sample_directory =
    Ok (SourceJSON sample_source_json).
Proof.
  split; [vm_compute; reflexivity|].
  destruct (save_database_files sample_db []) as (directory & Hsave & Hsrc & _);
    [vm_compute; reflexivity|].
  assert (Hdir : directory = sample_directory).
  { apply (f_equal snd) in Hsave. symmetry. exact Hsave. }
  subst directory.
  destruct (Hsrc (VStr "2MASS J13571237+1428398")) as (doc & Hdoc & Hread);
    [vm_compute; left; reflexivity|].
  rewrite (inventory_total sample_db _ eq_refl) in Hdoc. injection Hdoc as <-.
  exact Hread.
Defined.



(** *** The clearing comes first *)

Lemma for_each_skip {S A : Type} (xs : list A) (body : A -> ST S unit) (s : S) :
  (forall x, In x xs -> body x s = (Ok tt, s)) -> for_each xs body s = (Ok tt, s).
Proof.
  induction xs as [|x xs IH]; intros H; [reflexivity|].
  rewrite for_each_cons, H by (now left). apply IH. intros y Hy. apply H. now right.
Qed.

Lemma rows_of_unknown (d : Database) (T : string) :
  T ∉ dict_keys (tables d) -> rows_of d T = [].
Proof.
  intros H. unfold rows_of. destruct (dict_get T (tables d)) eqn:E; [|reflexivity].
  exfalso. apply H, dict_get_keys. eauto.
Qed.

(** The first block of [load_database] on a store that meets the contract
    of [sorted_tables]. *)
Lemma clear_tables_run (db : Database) (log : list event) :
  sorted_tables_ok db = true ->
  exists d,
    clear_tables (db, log) =
      (Ok tt, (d, log ++ flat_map (fun t => [Begin; Delete t; Commit]) (reverse (sorted_tables db)))) /\
    schema d = schema db /\ forall T, rows_of d T = [].
Proof.
  intros Hok.
  destruct (clear_loop db Hok (List.length (sorted_tables db)) db log) as (d & Hrun & Hs & Hempty).
  - lia.
  - reflexivity.
  - intros u Hu. rewrite drop_all in Hu. inversion Hu.
  - rewrite firstn_all in Hrun. exists d. split; [|split; [exact Hs|]].
    + unfold clear_tables. rewrite st_bind_unfold. exact Hrun.
    + intros T. destruct (decide (T ∈ dict_keys (tables db))) as [Hin|Hnin].
      * apply Hempty. now apply (sorted_complete db Hok).
      * apply rows_of_unknown. now rewrite (schema_keys d db Hs).
Qed.

(** X11. [load_database] clears the store before it looks at the
    directory.  Pointed at a directory that holds nothing, or at a path
    that is no directory, it leaves every table without rows: in the first
    case it returns, in the second it raises, and in neither does it put
    back what the store held. *)
Theorem load_database_wipes (db : Database) (fs : node) (log : list event) :
  sorted_tables_ok db = true ->
  (forall name, fs_lookup [name] fs = None) ->
  (load_database fs (db, log)).1 =
    match fs with Dir _ => Ok tt | File _ => Raise (OSError "listdir") end /\
  schema (load_database fs (db, log)).2.1 = schema db /\
  forall T, rows_of (load_database fs (db, log)).2.1 T = [].
Proof.
  intros Hok Hnone.
  destruct (clear_tables_run db log Hok) as (d & Hclear & Hs & Hempty).
  unfold load_database. rewrite (st_bind_ok _ _ _ _ _ Hclear).
  set (log1 := log ++ _).
  assert (Habsent : forall p x, fs_lookup (x :: p) fs = None).
  { intros p x. specialize (Hnone x). destruct fs as [c|es]; [reflexivity|].
    cbn [fs_lookup] in *. now destruct (dict_get x es). }
  assert (Hrefs : load_reference_tables fs (d, log1) = (Ok tt, (d, log1))).
  { unfold load_reference_tables. rewrite st_bind_unfold. cbn [fst].
    apply for_each_skip. intros R _. unfold path_exists, load_table, path_exists. cbn [app].
    now rewrite !Habsent. }
  rewrite (st_bind_ok _ _ _ _ _ Hrefs).
  unfold load_sources. rewrite st_bind_unfold. cbn [fst]. unfold path_exists.
  rewrite Habsent. rewrite st_bind_unfold. unfold lift, listdir. cbn [fs_lookup].
  destruct fs as [c|es]; cbn [fst snd]; [auto|].
  destruct es as [|[k v] es].
  - cbn. auto.
  - specialize (Hnone k). cbn in Hnone. now rewrite String.eqb_refl in Hnone.
Qed.

Lemma load_database_wipes_witness :
  (load_database (Dir []) (sample_db, [])).1 = Ok tt /\
  rows_of (load_database (Dir []) (sample_db, [])).2.1 "Sources" = [].
Proof.
  destruct (load_database_wipes sample_db (Dir []) []) as (Hres & _ & Hrows).
  - vm_compute; reflexivity.
  - reflexivity.
  - split; [exact Hres | apply Hrows].
Defined.

Lemma forallb_pointwise {A : Type} (f g : A -> bool) (l : list A) :
  (forall x, f x = g x) -> forallb f l = forallb g l.
Proof. intros H. induction l as [|x l IH]; [reflexivity|]. cbn. now rewrite H, IH. Qed.

Lemma sorted_tables_ok_schema (d db : Database) :
  schema d = schema db -> sorted_tables_ok d = sorted_tables_ok db.
Proof.
  intros Hs. unfold sorted_tables_ok, lists_every_table.
  destruct (schema_fields d db Hs) as (-> & _). rewrite (schema_keys d db Hs).
  f_equal. apply forallb_pointwise. intros j.
  destruct (sorted_tables db !! j) as [u|]; [|reflexivity].
  now rewrite (schema_constraints d db u Hs).
Qed.

Lemma emptied_tables (ts1 ts2 : list (string * table)) :
  map (fun nt : string * table => (nt.1, declaration nt.2)) ts1 =
  map (fun nt : string * table => (nt.1, declaration nt.2)) ts2 ->
  (forall nt, In nt ts1 -> rows nt.2 = []) ->
  (forall nt, In nt ts2 -> rows nt.2 = []) ->
  ts1 = ts2.
Proof.
  revert ts2. induction ts1 as [|[k1 t1] ts1 IH]; intros [|[k2 t2] ts2] Hm H1 H2;
    try discriminate; [reflexivity|].
  cbn [map fst snd] in Hm. injection Hm as -> Hc Hk Hm.
  pose proof (H1 _ (or_introl eq_refl)) as E1. pose proof (H2 _ (or_introl eq_refl)) as E2.
  cbn [snd] in E1, E2.
  destruct t1, t2; cbn in *; subst. f_equal. apply IH; auto.
Qed.

Lemma emptied_unique (d1 d2 : Database) :
  schema d1 = schema d2 ->
  NoDup (dict_keys (tables d1)) ->
  (forall T, rows_of d1 T = []) -> (forall T, rows_of d2 T = []) ->
  d1 = d2.
Proof.
  intros Hs Hnd H1 H2.
  assert (Hnd2 : NoDup (dict_keys (tables d2))) by (now rewrite <- (schema_keys d1 d2 Hs)).
  destruct (schema_fields d1 d2 Hs) as (E1 & E2 & E3 & E4 & E5 & E6).
  assert (Et : tables d1 = tables d2).
  { apply emptied_tables.
    - unfold schema in Hs. now injection Hs.
    - intros [k t] Hin. specialize (H1 k). unfold rows_of in H1.
      now rewrite (In_dict_get k t _ Hnd Hin) in H1.
    - intros [k t] Hin. specialize (H2 k). unfold rows_of in H2.
      now rewrite (In_dict_get k t _ Hnd2 Hin) in H2. }
  destruct d1, d2; cbn in *; subst; reflexivity.
Qed.

(** X12. What [load_database] returns, and the store and the statement
    log it leaves, depend on the schema of the store and on the directory
    only, not on the rows the tables held: two stores of one schema end up
    the same. *)
Theorem load_database_forgets (db d : Database) (fs : node) (log : list event) :
  sorted_tables_ok db = true ->
  schema d = schema db ->
  load_database fs (d, log) = load_database fs (db, log).
Proof.
  intros Hok Hs.
  assert (Hokd : sorted_tables_ok d = true) by (now rewrite (sorted_tables_ok_schema d db Hs)).
  destruct (clear_tables_run db log Hok) as (e1 & Hc1 & Hs1 & He1).
  destruct (clear_tables_run d log Hokd) as (e2 & Hc2 & Hs2 & He2).
  unfold load_database. rewrite (st_bind_ok _ _ _ _ _ Hc1), (st_bind_ok _ _ _ _ _ Hc2).
  destruct (schema_fields d db Hs) as (-> & _).
  assert (E : e2 = e1).
  { apply emptied_unique; [congruence | | assumption | assumption].
    rewrite (schema_keys e2 d Hs2). destruct (lists_every_table_parts d) as (_ & Hnd & _); [|exact Hnd].
    unfold sorted_tables_ok in Hokd. now apply andb_prop in Hokd as [? _]. }
  now rewrite E.
Qed.

Lemma load_database_forgets_witness :
  load_database sample_directory (cleared_sample, []) =
  load_database sample_directory (sample_db, []).
Proof.
  apply (load_database_forgets sample_db cleared_sample sample_directory []);
    vm_compute; reflexivity.
Defined.

(** *** What no statement changes *)

Lemma execute_insert_schema (db : Database) (k : string) (vs : list row) :
  preserves (fun s : Database * list event => schema s.1 = schema db) (execute_insert k vs).
Proof.
  intros s H. unfold execute_insert, get_table.
  destruct (dict_get k (tables s.1)) as [t|] eqn:Ht; [|exact H].
  unfold insert_rows. destruct (forallb _ vs); [|exact H].
  destruct (sqlite_foreign s.1 && negb _); [exact H|]. cbn [fst snd].
  now rewrite schema_with_rows.
Qed.

Lemma execute_delete_schema (db : Database) (k : string) :
  preserves (fun s : Database * list event => schema s.1 = schema db) (execute_delete k).
Proof.
  intros s H. unfold execute_delete, get_table.
  destruct (dict_get k (tables s.1)) as [t|] eqn:Ht; [|exact H].
  unfold delete_rows. destruct (sqlite_foreign s.1 && _); [exact H|]. cbn [fst snd].
  now rewrite schema_with_rows.
Qed.

Lemma load_table_schema (db : Database) (R : string) (directory : list string) (fs : node) :
  preserves (fun s : Database * list event => schema s.1 = schema db)
    (load_table R directory fs).
Proof.
  unfold load_table. destruct (path_exists _ fs); [|apply preserves_ret].
  apply preserves_bind; [apply preserves_lift|]. intros [j|vs|].
  - apply preserves_raise.
  - apply (transaction_preserves (fun d => schema d = schema db)), execute_insert_schema.
  - apply preserves_raise.
Qed.

Lemma clear_tables_schema (db : Database) :
  preserves (fun s : Database * list event => schema s.1 = schema db) clear_tables.
Proof.
  unfold clear_tables. apply preserves_bind; [intros s H; exact H|].
  intros sorted. apply preserves_for_each. intros k _.
  apply (transaction_preserves (fun d => schema d = schema db)), execute_delete_schema.
Qed.

Lemma load_reference_tables_schema (db : Database) (fs : node) :
  preserves (fun s : Database * list event => schema s.1 = schema db)
    (load_reference_tables fs).
Proof.
  unfold load_reference_tables. apply preserves_bind; [intros s H; exact H|].
  intros refs. apply preserves_for_each. intros R _.
  destruct (path_exists _ fs); apply load_table_schema.
Qed.

(** *** Files the import passes over *)

Lemma load_table_agree (R : string) (directory : list string) (fs1 fs2 : node) :
  fs_lookup (directory ++ [R +:+ ".json"]) fs1 = fs_lookup (directory ++ [R +:+ ".json"]) fs2 ->
  load_table R directory fs1 = load_table R directory fs2.
Proof. intros H. unfold load_table, path_exists, read_file. now rewrite H. Qed.

Lemma load_json_agree (filename : list string) (fs1 fs2 : node) :
  fs_lookup filename fs1 = fs_lookup filename fs2 ->
  load_json filename fs1 = load_json filename fs2.
Proof. intros H. unfold load_json, read_file. now rewrite H. Qed.

Lemma dict_get_middle {A : Type} (k f : string) (n : A) (l1 l2 : list (string * A)) :
  k <> f -> dict_get k (l1 ++ (f, n) :: l2) = dict_get k (l1 ++ l2).
Proof.
  intros Hne. induction l1 as [|[k0 v0] l1 IH]; cbn [app dict_get].
  - destruct (String.eqb_spec k f); [contradiction | reflexivity].
  - now rewrite IH.
Qed.

Lemma layout_other (refs a b : list (string * node)) (x : string) (p : list string) :
  x <> source_directory ->
  fs_lookup (x :: p) (layout refs a) = fs_lookup (x :: p) (layout refs b).
Proof.
  intros Hne. unfold layout. cbn [fs_lookup dict_get].
  destruct (String.eqb x reference_directory); [reflexivity|].
  destruct (String.eqb_spec x source_directory); [contradiction | reflexivity].
Qed.

(** X13. A file of [source/] whose name does not end in [.json], or starts
    with a dot, or is the name of a reference table once [.json] is taken
    out of it, is never opened by [load_database]: with or without that
    file in the directory, and whatever it holds, the import returns the
    same result and leaves the same store and statement log. *)
Theorem load_database_ignores_file (refs srcs1 srcs2 : list (string * node))
    (f : string) (n : node) (db : Database) (log : list event) :
  py_endswith ".json" f = false \/ py_startswith "." f = true \/
    py_replace ".json" "" f ∈ reference_tables db ->
  load_database (layout refs (srcs1 ++ (f, n) :: srcs2)) (db, log) =
  load_database (layout refs (srcs1 ++ srcs2)) (db, log).
Proof.
  intros Hskip.
  remember (layout refs (srcs1 ++ (f, n) :: srcs2)) as fsA eqn:EA.
  remember (layout refs (srcs1 ++ srcs2)) as fsB eqn:EB.
  unfold load_database. rewrite !st_bind_unfold.
  pose proof (clear_tables_schema db (db, log) eq_refl) as Hs1.
  destruct (clear_tables (db, log)) as [[[]|e] s1]; [|reflexivity]. cbn [snd] in Hs1.
  cbv beta iota. rewrite !st_bind_unfold.
  assert (Hrefs : load_reference_tables fsA s1 = load_reference_tables fsB s1).
  { unfold load_reference_tables. rewrite !st_bind_unfold. apply for_each_ext.
    intros R s. unfold path_exists.
    assert (E1 : fs_lookup [reference_directory; R +:+ ".json"] fsA =
                 fs_lookup [reference_directory; R +:+ ".json"] fsB).
    { subst fsA fsB. apply layout_other. discriminate. }
    assert (E2 : fs_lookup [R +:+ ".json"] fsA = fs_lookup [R +:+ ".json"] fsB).
    { subst fsA fsB. apply layout_other. apply json_name_not_directory. }
    rewrite (load_table_agree R [reference_directory] fsA fsB E1).
    rewrite (load_table_agree R [] fsA fsB E2). now rewrite E1. }
  rewrite Hrefs.
  pose proof (load_reference_tables_schema db fsB s1 Hs1) as Hs2.
  destruct (load_reference_tables fsB s1) as [[[]|e] s2]; [|reflexivity]. cbn [snd] in Hs2.
  cbv beta iota.
  destruct (schema_fields s2.1 db Hs2) as (_ & Hr2 & _).
  unfold load_sources. rewrite !st_bind_unfold. cbn [fst]. rewrite Hr2.
  assert (LA : fs_lookup [source_directory] fsA = Some (Dir (srcs1 ++ (f, n) :: srcs2)))
    by (now subst fsA).
  assert (LB : fs_lookup [source_directory] fsB = Some (Dir (srcs1 ++ srcs2)))
    by (now subst fsB).
  unfold path_exists. rewrite LA, LB. cbn match.
  unfold lift, listdir. rewrite LA, LB.
  cbn match. unfold dict_keys. rewrite !map_app. cbn [map fst].
  set (bodyA := fun file : string => _). set (bodyB := fun file : string => _).
  assert (Hbody : forall file s, bodyA file s = bodyB file s).
  { intros file s. subst bodyA bodyB. cbn beta zeta.
    destruct (bool_decide (py_replace ".json" "" file ∈ reference_tables db)) eqn:Hcore;
      [reflexivity|].
    destruct (negb (py_endswith ".json" file) || py_startswith "." file) eqn:Hext;
      [reflexivity|].
    assert (Hne : file <> f).
    { intros ->. apply orb_false_elim in Hext as [He Hd]. apply negb_false_iff in He.
      apply bool_decide_eq_false in Hcore.
      destruct Hskip as [H|[H|H]]; [congruence | congruence | contradiction]. }
    rewrite (load_json_agree ([source_directory] ++ [file]) fsA fsB); [reflexivity|].
    subst fsA fsB. unfold layout. cbn [app fs_lookup dict_get].
    change (String.eqb source_directory reference_directory) with false.
    change (String.eqb source_directory source_directory) with true. cbn match.
    now rewrite (dict_get_middle file f n srcs1 srcs2 Hne). }
  assert (Hf : forall s, bodyA f s = (Ok tt, s)).
  { intros s. subst bodyA. cbn beta zeta.
    destruct (bool_decide (py_replace ".json" "" f ∈ reference_tables db)) eqn:Hcore;
      [reflexivity|].
    apply bool_decide_eq_false in Hcore.
    destruct Hskip as [H|[H|H]]; [now rewrite H | | contradiction].
    rewrite H. now rewrite orb_true_r. }
  rewrite !for_each_app, (for_each_ext _ bodyA bodyB Hbody).
  destruct (for_each (map fst srcs1) bodyB s2) as [[[]|e] s3]; [|reflexivity].
  rewrite for_each_cons, Hf. apply for_each_ext, Hbody.
Qed.

Lemma load_database_ignores_file_witness :
  load_database
    (layout (reference_files sample_db)
       (source_files sample_db ++ [("README.md", File OtherText)]))
    (sample_db, []) =
  load_database (layout (reference_files sample_db) (source_files sample_db ++ []))
    (sample_db, []).
Proof.
  apply (load_database_ignores_file (reference_files sample_db) (source_files sample_db) []
           "README.md" (File OtherText) sample_db []).
  left. vm_compute. reflexivity.
Defined.

(** *** The characters of a file name *)

Lemma drop_leading_In (p : ascii -> bool) (l : list ascii) (c : ascii) :
  In c (drop_leading p l) -> In c l.
Proof.
  induction l as [|a l IH]; [intros []|]. cbn [drop_leading].
  destruct (p a); [right; auto | auto].
Qed.

Lemma spec_strip_In (s : string) (c : ascii) :
  In c (list_ascii_of_string (spec_strip s)) -> In c (list_ascii_of_string s).
Proof.
  unfold spec_strip. rewrite list_ascii_of_string_of_list_ascii.
  intros H. apply in_rev, drop_leading_In, in_rev, drop_leading_In in H. exact H.
Qed.

Lemma string_filter_In (p : ascii -> bool) (s : string) (c : ascii) :
  In c (list_ascii_of_string (string_filter p s)) ->
  p c = true /\ In c (list_ascii_of_string s).
Proof.
  induction s as [|a s IH]; [intros []|]. cbn [string_filter list_ascii_of_string].
  destruct (p a) eqn:Hp.
  - intros [<-|H]; [split; [exact Hp | now left]|].
    destruct (IH H). split; [assumption | now right].
  - intros H. destruct (IH H). split; [assumption | now right].
Qed.

Lemma string_map_In (f : ascii -> ascii) (s : string) (c : ascii) :
  In c (list_ascii_of_string (string_map f s)) ->
  exists c0, In c0 (list_ascii_of_string s) /\ c = f c0.
Proof.
  induction s as [|a s IH]; [intros []|]. cbn [string_map list_ascii_of_string].
  intros [<-|H].
  - exists a. split; [now left | reflexivity].
  - destruct (IH H) as (c0 & Hc0 & ->). exists c0. split; [now right | reflexivity].
Qed.

Lemma py_lower_char_not_capital (c : ascii) :
  in_range 65 90 (code (py_lower_char c)) = false.
Proof. destruct c as [[] [] [] [] [] [] [] []]; vm_compute; reflexivity. Qed.

(** X14. The file name [save_json] derives from a source name is a stem
    followed by [.json], and the stem holds no space, no asterisk and no
    capital letter A-Z, whatever the source name. *)
Theorem json_filename_characters (name : string) :
  exists stem,
    json_filename name = stem +:+ ".json" /\
    forall c, In c (list_ascii_of_string stem) ->
      c <> " "%char /\ c <> "*"%char /\ in_range 65 90 (code c) = false.
Proof.
  unfold json_filename. eexists. split; [reflexivity|]. intros c Hc.
  rewrite py_strip_spec in Hc. apply spec_strip_In in Hc.
  rewrite replace_star_filter in Hc. apply string_filter_In in Hc as [Hstar Hc].
  rewrite replace_space_map in Hc. apply string_map_In in Hc as (c0 & Hc0 & ->).
  rewrite py_lower_map in Hc0. apply string_map_In in Hc0 as (c1 & _ & ->).
  pose proof (py_lower_char_not_capital c1) as Hcap.
  destruct (Ascii.eqb_spec (py_lower_char c1) " ") as [E|Hne].
  - split; [discriminate|]. split; [discriminate | reflexivity].
  - split; [exact Hne|]. split; [|exact Hcap].
    intros E. rewrite E in Hstar. discriminate Hstar.
Qed.

(** *** One source, exported and imported *)

(** X15. The per-source round trip.  When [save_json] has written the
    file of a source of a store that meets the conditions of the round
    trip, and [load_json] reads that file into a store of the same schema
    that holds no row of that source, then whenever the import completes
    [inventory] returns for that source what it returned in the exporting
    store. *)
Theorem save_json_load_json (db : Database) (name : string) (directory : list string)
    (fs fs' : node) (d : Database) (log : list event) :
  exportable db = true ->
  In (VStr name) (identities db) ->
  save_json db (ByName name) directory fs = (Ok tt, fs') ->
  schema d = schema db ->
  (forall T, T = primary_table db \/ skipped db T = false ->
             List.filter (cell_matches (key_column db T) (VStr name)) (rows_of d T) = []) ->
  (load_json (directory ++ [json_filename name]) fs' (d, log)).1 = Ok tt ->
  inventory (load_json (directory ++ [json_filename name]) fs' (d, log)).2.1 (VStr name) =
  inventory db (VStr name).
Proof.
  intros Hex Hid Hsave Hs Hnone. set (x := VStr name) in *.
  destruct (exportable_parts db Hex) as (Hok & _).
  assert (Hread : read_file (directory ++ [json_filename name]) fs' =
                  Ok (SourceJSON (dumps_document (inventory_document db x)))).
  { unfold save_json in Hsave. fold x in Hsave. rewrite (inventory_total db x Hok) in Hsave.
    cbn [mbind result_bind] in Hsave.
    destruct (write_file _ _ fs) as [fs1|e] eqn:Hw; [|discriminate].
    injection Hsave as <-. unfold read_file. now rewrite (write_file_found _ _ _ _ Hw). }
  destruct (schema_fields d db Hs) as (_ & _ & Hp & Hk & Hf & _).
  destruct (identity_entry db x Hid) as (first & rest & Hget & Hfirst & Hfilter).
  assert (Hrun := load_json_run (directory ++ [json_filename name]) fs'
                    (dumps_document (inventory_document db x)) (d, log) first rest x Hread).
  cbn [fst] in Hrun. rewrite (exported_document db Hex), Hp, Hk, Hf in Hrun.
  rewrite (Hrun Hget Hfirst). clear Hrun.
  pose proof (triple_transaction (sqlite_foreign db = false) _ _ _
                (run_inserts_triple db (source_statements db x (first :: rest)) (rows_of d)
                   (source_statements_ok db Hex x (first :: rest) Hfilter ltac:(discriminate))))
    as Htr.
  destruct (Htr d log) as [H1 _]; [split; [exact Hs | reflexivity]|].
  intros Hdone. destruct (H1 Hdone) as [Hs' Hrows].
  apply inventory_congruence; [exact Hs'|]. intros T HT.
  rewrite Hrows, (rows_added_source db x (first :: rest) T Hfilter HT).
  now rewrite List.filter_app, (Hnone T HT), filter_filter_same.
Qed.

Lemma save_json_load_json_witness :
  (load_json ([] ++ [json_filename "2MASS J13571237+1428398"])
     (save_json sample_db (ByName "2MASS J13571237+1428398") [] (Dir [])).2
     (references_loaded, [])).1 = Ok tt /\
  inventory
    (load_json ([] ++ [json_filename "2MASS J13571237+1428398"])
       (save_json sample_db (ByName "2MASS J13571237+1428398") [] (Dir [])).2
       (references_loaded, [])).2.1
    (VStr "2MASS J13571237+1428398") =
  inventory sample_db (VStr "2MASS J13571237+1428398").
Proof.
  split; [vm_compute; reflexivity|].
  apply (save_json_load_json sample_db "2MASS J13571237+1428398" [] (Dir [])
           (save_json sample_db (ByName "2MASS J13571237+1428398") [] (Dir [])).2
           references_loaded []).
  - vm_compute; reflexivity.
  - change (identities sample_db) with (omap (fun r : row => r !! "source") (rows sources)).
    left. vm_compute. reflexivity.
  - vm_compute; reflexivity.
  - reflexivity.
  - intros T _.
    destruct (String.eqb_spec T "Publications") as [->|H1]; [vm_compute; reflexivity|].
    destruct (String.eqb_spec T "Telescopes") as [->|H2]; [vm_compute; reflexivity|].
    destruct (String.eqb_spec T "Instruments") as [->|H3]; [vm_compute; reflexivity|].
    destruct (String.eqb_spec T "Sources") as [->|H4]; [vm_compute; reflexivity|].
    destruct (String.eqb_spec T "Names") as [->|H5]; [vm_compute; reflexivity|].
    destruct (String.eqb_spec T "Photometry") as [->|H6]; [vm_compute; reflexivity|].
    rewrite rows_of_unknown; [reflexivity|].
    change (dict_keys (tables references_loaded)) with
      ["Publications"; "Telescopes"; "Instruments"; "Sources"; "Names"; "Photometry"].
    intros H. apply list_elem_of_In in H.
    destruct H as [H|[H|[H|[H|[H|[H|[]]]]]]]; congruence.
  - vm_compute; reflexivity.
Defined.

(** *** A directory without sub-directories *)

Lemma load_table_lookup (R : string) (d1 d2 : list string) (fs1 fs2 : node) :
  fs_lookup (d1 ++ [R +:+ ".json"]) fs1 = fs_lookup (d2 ++ [R +:+ ".json"]) fs2 ->
  load_table R d1 fs1 = load_table R d2 fs2.
Proof. intros H. unfold load_table, path_exists, read_file. now rewrite H. Qed.

Lemma load_json_lookup (p1 p2 : list string) (fs1 fs2 : node) :
  fs_lookup p1 fs1 = fs_lookup p2 fs2 -> load_json p1 fs1 = load_json p2 fs2.
Proof. intros H. unfold load_json, read_file. now rewrite H. Qed.

Lemma dict_get_app {A : Type} (k : string) (l1 l2 : list (string * A)) :
  dict_get k (l1 ++ l2) =
  match dict_get k l1 with Some v => Some v | None => dict_get k l2 end.
Proof.
  induction l1 as [|[k0 v0] l1 IH]; [reflexivity|]. cbn [app dict_get].
  destruct (String.eqb k k0); [reflexivity | exact IH].
Qed.

Lemma dict_get_absent {A : Type} (k : string) (l : list (string * A)) :
  k ∉ dict_keys l -> dict_get k l = None.
Proof.
  intros H. destruct (dict_get k l) eqn:E; [|reflexivity].
  exfalso. apply H, dict_get_keys. eauto.
Qed.

(** X16. [load_database] also reads a directory that has no
    sub-directories: when the reference files [<table>.json] and the
    source files all lie at the top, it returns what it returns, and
    leaves the store and the statement log it leaves, for the same files
    sorted into [reference/] and [source/]. *)
Theorem load_database_flat_layout (refs srcs : list (string * node)) (db : Database)
    (log : list event) :
  (forall f, f ∈ dict_keys refs -> py_replace ".json" "" f ∈ reference_tables db) ->
  (forall f, f ∈ dict_keys srcs ->
     (f ∉ dict_keys refs) /\ forall R, R ∈ reference_tables db -> f <> R +:+ ".json") ->
  reference_directory ∉ dict_keys (refs ++ srcs) ->
  source_directory ∉ dict_keys (refs ++ srcs) ->
  load_database (Dir (refs ++ srcs)) (db, log) = load_database (layout refs srcs) (db, log).
Proof.
  intros Hrefs Hsrcs Hnr Hns.
  remember (Dir (refs ++ srcs)) as flat eqn:EF.
  remember (layout refs srcs) as nested eqn:EN.
  assert (Ftop : forall x, fs_lookup [x] flat = dict_get x (refs ++ srcs)).
  { intros x. subst flat. cbn [fs_lookup]. now destruct (dict_get x (refs ++ srcs)). }
  assert (Fsub : forall d x, d ∉ dict_keys (refs ++ srcs) -> fs_lookup [d; x] flat = None).
  { intros d x Hd. subst flat. cbn [fs_lookup]. now rewrite (dict_get_absent d _ Hd). }
  assert (Nref : forall x, fs_lookup [reference_directory; x] nested = dict_get x refs).
  { intros x. subst nested. unfold layout. cbn [fs_lookup dict_get].
    change (String.eqb reference_directory reference_directory) with true. cbn match.
    now destruct (dict_get x refs). }
  assert (Nsrc : forall x, fs_lookup [source_directory; x] nested = dict_get x srcs).
  { intros x. subst nested. unfold layout. cbn [fs_lookup dict_get].
    change (String.eqb source_directory reference_directory) with false.
    change (String.eqb source_directory source_directory) with true. cbn match.
    now destruct (dict_get x srcs). }
  assert (Ntop : forall R, fs_lookup [R +:+ ".json"] nested = None).
  { intros R. subst nested. apply exported_top_level. }
  assert (NL : fs_lookup [source_directory] nested = Some (Dir srcs)) by (now subst nested).
  assert (FL : fs_lookup [source_directory] flat = None).
  { rewrite Ftop. now apply dict_get_absent. }
  assert (FD : fs_lookup [] flat = Some (Dir (refs ++ srcs))) by (now subst flat).
  clear EF EN.
  unfold load_database. rewrite !st_bind_unfold.
  pose proof (clear_tables_schema db (db, log) eq_refl) as Hs1.
  destruct (clear_tables (db, log)) as [[[]|e] s1]; [|reflexivity]. cbn [snd] in Hs1.
  cbv beta iota. rewrite !st_bind_unfold.
  assert (Hload : load_reference_tables flat s1 = load_reference_tables nested s1).
  { unfold load_reference_tables. rewrite !st_bind_unfold. cbn [fst].
    destruct (schema_fields s1.1 db Hs1) as (_ & -> & _).
    apply for_each_ext_in. intros R HR s. apply list_elem_of_In in HR.
    unfold path_exists. rewrite (Fsub _ _ Hnr), Nref.
    destruct (dict_get (R +:+ ".json") refs) as [n|] eqn:Hn.
    - rewrite (load_table_lookup R [] [reference_directory] flat nested); [reflexivity|].
      cbn [app]. now rewrite Ftop, Nref, dict_get_app, Hn.
    - rewrite (load_table_lookup R [] [] flat nested); [reflexivity|].
      cbn [app]. rewrite Ftop, Ntop, dict_get_app, Hn. apply dict_get_absent.
      intros Hin. destruct (Hsrcs _ Hin) as [_ Hne]. now apply (Hne R). }
  rewrite Hload.
  pose proof (load_reference_tables_schema db nested s1 Hs1) as Hs2.
  destruct (load_reference_tables nested s1) as [[[]|e] s2]; [|reflexivity]. cbn [snd] in Hs2.
  cbv beta iota.
  destruct (schema_fields s2.1 db Hs2) as (_ & Hr2 & _).
  unfold load_sources. rewrite !st_bind_unfold. cbn [fst]. rewrite Hr2.
  unfold path_exists. rewrite FL, NL. cbn match.
  unfold lift, listdir. rewrite FD, NL. cbn match.
  unfold dict_keys at 1. rewrite map_app. fold (dict_keys refs). fold (dict_keys srcs).
  rewrite for_each_app, for_each_skip.
  - apply for_each_ext_in. intros file Hfile s. apply list_elem_of_In in Hfile.
    destruct (bool_decide _); [reflexivity|]. destruct (negb _ || _); [reflexivity|].
    rewrite (load_json_lookup ([] ++ [file]) ([source_directory] ++ [file]) flat nested);
      [reflexivity|].
    cbn [app]. rewrite Ftop, Nsrc, dict_get_app.
    destruct (Hsrcs _ Hfile) as [Hnot _]. now rewrite (dict_get_absent file refs Hnot).
  - intros file Hfile. apply list_elem_of_In, Hrefs in Hfile.
    now rewrite (bool_decide_eq_true_2 _ Hfile).
Qed.

Lemma load_database_flat_layout_witness :
  load_database (Dir (reference_files sample_db ++ source_files sample_db)) (sample_db, []) =
  load_database sample_directory (sample_db, []).
Proof.
  assert (Kr : dict_keys (reference_files sample_db) = ["Publications.json"; "Telescopes.json"])
    by (vm_compute; reflexivity).
  assert (Ks : dict_keys (source_files sample_db) = ["2mass_j13571237+1428398.json"])
    by (vm_compute; reflexivity).
  change sample_directory with (layout (reference_files sample_db) (source_files sample_db)).
  apply (load_database_flat_layout (reference_files sample_db) (source_files sample_db)
           sample_db []).
  - intros f Hf. rewrite Kr in Hf. apply list_elem_of_In in Hf. apply list_elem_of_In.
    destruct Hf as [<-|[<-|[]]]; vm_compute; auto.
  - intros f Hf. rewrite Ks in Hf. apply list_elem_of_In in Hf. destruct Hf as [<-|[]].
    split.
    + rewrite Kr. intros H. apply list_elem_of_In in H.
      destruct H as [H|[H|[]]]; discriminate H.
    + intros R HR. apply list_elem_of_In in HR.
      destruct HR as [<-|[<-|[<-|[]]]]; discriminate.
  - unfold dict_keys. rewrite map_app. fold (dict_keys (reference_files sample_db)).
    fold (dict_keys (source_files sample_db)). rewrite Kr, Ks. intros H.
    apply list_elem_of_In in H. destruct H as [H|[H|[H|[]]]]; discriminate H.
  - unfold dict_keys. rewrite map_app. fold (dict_keys (reference_files sample_db)).
    fold (dict_keys (source_files sample_db)). rewrite Kr, Ks. intros H.
    apply list_elem_of_In in H. destruct H as [H|[H|[H|[]]]]; discriminate H.
Defined.

(** *** An import that stops half-way *)

Lemma dict_get_prefix {A : Type} (k : string) (l1 l2 : list (string * A)) :
  k ∈ dict_keys l1 -> dict_get k (l1 ++ l2) = dict_get k l1.
Proof.
  intros H. rewrite dict_get_app. apply dict_get_keys in H as [v ->]. reflexivity.
Qed.

Lemma load_json_unreadable (filename : list string) (fs : node) (s : Database * list event) :
  (forall j, fs_lookup filename fs <> Some (File (SourceJSON j))) ->
  exists e, load_json filename fs s = (Raise e, s).
Proof.
  intros H. unfold load_json, read_file. rewrite st_bind_unfold. unfold lift.
  destruct (fs_lookup filename fs) as [[[j|vs|]|es]|]; cbn; eauto.
  now contradiction (H j).
Qed.

(** X17. [load_database] stops at the first source file it cannot read as
    a document (text that is no JSON, a JSON array, a directory): it
    raises there, the files listed before it stay imported and committed,
    the files after it are never read, and nothing is rolled back.  The
    store and the statement log are those of a complete import of the
    files listed before the unreadable one. *)
Theorem load_database_stops_at_unreadable_file (refs srcs1 srcs2 : list (string * node))
    (f : string) (n : node) (db : Database) (log : list event) :
  f ∉ dict_keys srcs1 ->
  (forall j, n <> File (SourceJSON j)) ->
  py_endswith ".json" f = true ->
  py_startswith "." f = false ->
  py_replace ".json" "" f ∉ reference_tables db ->
  (load_database (layout refs srcs1) (db, log)).1 = Ok tt ->
  (exists e, (load_database (layout refs (srcs1 ++ (f, n) :: srcs2)) (db, log)).1 = Raise e) /\
  (load_database (layout refs (srcs1 ++ (f, n) :: srcs2)) (db, log)).2 =
  (load_database (layout refs srcs1) (db, log)).2.
Proof.
  intros Hfresh Hbad Hjson Hdot Hcore.
  remember (layout refs (srcs1 ++ (f, n) :: srcs2)) as fsA eqn:EA.
  remember (layout refs srcs1) as fsB eqn:EB.
  assert (LA : fs_lookup [source_directory] fsA = Some (Dir (srcs1 ++ (f, n) :: srcs2)))
    by (now subst fsA).
  assert (LB : fs_lookup [source_directory] fsB = Some (Dir srcs1)) by (now subst fsB).
  assert (Hother : forall x p, x <> source_directory ->
                     fs_lookup (x :: p) fsA = fs_lookup (x :: p) fsB).
  { intros x p Hx. subst fsA fsB. now apply layout_other. }
  assert (Hsrc : forall x, fs_lookup [source_directory; x] fsA =
                           dict_get x (srcs1 ++ (f, n) :: srcs2)).
  { intros x. subst fsA. unfold layout. cbn [fs_lookup dict_get].
    change (String.eqb source_directory reference_directory) with false.
    change (String.eqb source_directory source_directory) with true. cbn match.
    now destruct (dict_get x _). }
  assert (HsrcB : forall x, fs_lookup [source_directory; x] fsB = dict_get x srcs1).
  { intros x. subst fsB. unfold layout. cbn [fs_lookup dict_get].
    change (String.eqb source_directory reference_directory) with false.
    change (String.eqb source_directory source_directory) with true. cbn match.
    now destruct (dict_get x _). }
  clear EA EB.
  unfold load_database. rewrite !st_bind_unfold.
  pose proof (clear_tables_schema db (db, log) eq_refl) as Hs1.
  destruct (clear_tables (db, log)) as [[[]|e] s1]; [|discriminate]. cbn [snd] in Hs1.
  cbv beta iota. rewrite !st_bind_unfold.
  assert (Hrefs : load_reference_tables fsA s1 = load_reference_tables fsB s1).
  { unfold load_reference_tables. rewrite !st_bind_unfold. apply for_each_ext.
    intros R s. unfold path_exists.
    rewrite (Hother reference_directory [R +:+ ".json"]) by discriminate.
    rewrite (load_table_lookup R [reference_directory] [reference_directory] fsA fsB)
      by (apply Hother; discriminate).
    rewrite (load_table_lookup R [] [] fsA fsB); [reflexivity|].
    apply Hother, json_name_not_directory. }
  rewrite Hrefs.
  pose proof (load_reference_tables_schema db fsB s1 Hs1) as Hs2.
  destruct (load_reference_tables fsB s1) as [[[]|e] s2]; [|discriminate]. cbn [snd] in Hs2.
  cbv beta iota.
  destruct (schema_fields s2.1 db Hs2) as (_ & Hr2 & _).
  unfold load_sources. rewrite !st_bind_unfold. cbn [fst]. rewrite Hr2.
  unfold path_exists. rewrite LA, LB. cbn match.
  unfold lift, listdir. rewrite LA, LB. cbn match.
  assert (Hkeys : dict_keys (srcs1 ++ (f, n) :: srcs2) =
                  dict_keys srcs1 ++ f :: dict_keys srcs2).
  { unfold dict_keys. now rewrite map_app. }
  rewrite Hkeys, for_each_app.
  set (bodyB := fun file : string => _). set (bodyA := fun file : string => _).
  assert (Hbody : forall file, In file (dict_keys srcs1) -> forall s, bodyA file s = bodyB file s).
  { intros file Hfile s. subst bodyA bodyB. cbn beta zeta.
    destruct (bool_decide _); [reflexivity|]. destruct (negb _ || _); [reflexivity|].
    rewrite (load_json_lookup ([source_directory] ++ [file]) ([source_directory] ++ [file])
               fsA fsB); [reflexivity|].
    cbn [app]. rewrite Hsrc, HsrcB. apply dict_get_prefix. now apply list_elem_of_In. }
  rewrite (for_each_ext_in _ bodyA bodyB Hbody).
  destruct (for_each (dict_keys srcs1) bodyB s2) as [[[]|e] s3]; [|discriminate].
  intros _. rewrite for_each_cons.
  assert (Hf : exists e, bodyA f s3 = (Raise e, s3)).
  { subst bodyA. cbn beta zeta. rewrite (bool_decide_eq_false_2 _ Hcore), Hjson, Hdot.
    cbn [negb orb]. apply load_json_unreadable. intros j. cbn [app].
    rewrite Hsrc, dict_get_app, (dict_get_absent f srcs1 Hfresh). cbn [dict_get].
    rewrite String.eqb_refl. intros E. injection E as E. exact (Hbad j E). }
  destruct Hf as [e ->]. split; [eauto | reflexivity].
Qed.

Lemma load_database_stops_at_unreadable_file_witness :
  (exists e,
     (load_database
        (layout (reference_files sample_db)
           (source_files sample_db ++ [("broken.json", File OtherText)]))
        (sample_db, [])).1 = Raise e) /\
  rows_of
    (load_database
       (layout (reference_files sample_db)
          (source_files sample_db ++ [("broken.json", File OtherText)]))
       (sample_db, [])).2.1 "Sources" = rows sources.
Proof.
  destruct (load_database_stops_at_unreadable_file (reference_files sample_db)
              (source_files sample_db) [] "broken.json" (File OtherText) sample_db [])
    as [Hraise Hstate].
  - assert (Ks : dict_keys (source_files sample_db) = ["2mass_j13571237+1428398.json"])
      by (vm_compute; reflexivity).
    rewrite Ks. intros H. apply list_elem_of_In in H. destruct H as [H|[]]. discriminate H.
  - discriminate.
  - vm_compute. reflexivity.
  - vm_compute. reflexivity.
  - intros H. apply list_elem_of_In in H. vm_compute in H.
    destruct H as [H|[H|[H|[]]]]; discriminate H.
  - vm_compute. reflexivity.
  - split; [exact Hraise|]. rewrite Hstate. vm_compute. reflexivity.
Defined.

(** *** Constructing a [Database] *)

Example py_split_column : py_split "." "Spectra.spectrum" = ["Spectra"; "spectrum"].
Proof. reflexivity. Qed.

Example py_split_no_separator : py_split "." "spectrum" = ["spectrum"].
Proof. reflexivity. Qed.

(** The test [test_nodatabase]: nothing to reflect, [RuntimeError]. *)
Example init_without_tables :
  (__init__ "sqlite:///:memory:" ["Publications"; "Telescopes"; "Instruments"]
     "Sources" "source" "source" [] true None None []
     {| default_connection_arguments := []; calls := [] |}).1.1 =
  inl (RuntimeError "Create database first.").
Proof. reflexivity. Qed.

Example init_column_type_override :
  calls
    (__init__ "sqlite:///temp.db" ["Publications"; "Telescopes"; "Instruments"]
       "Sources" "source" "source" [("Sources.comments", "TEXT")] true None None
       (tables sample_db) {| default_connection_arguments := []; calls := [] |}).2 =
  [ CreateEngine "sqlite:///temp.db" []; BindMetadata NewBase; ListenForConnect; Reflect;
    SetColumnType "Sources" "comments" "TEXT" ].
Proof. vm_compute. reflexivity. Qed.

Example init_override_without_dot :
  (__init__ "sqlite:///temp.db" ["Publications"; "Telescopes"; "Instruments"]
     "Sources" "source" "source" [("comments", "TEXT")] true None None
     (tables sample_db) {| default_connection_arguments := []; calls := [] |}).1.1 =
  inl ValueError.
Proof. vm_compute. reflexivity. Qed.

Lemma override_types_appends (found : list (string * table)) (overrides : list (string * string)) :
  forall p, exists rest,
    calls (override_types found overrides p).2 = calls p ++ rest /\
    default_connection_arguments (override_types found overrides p).2 =
      default_connection_arguments p.
Proof.
  induction overrides as [|[k v] overrides IH]; intros p; cbn [override_types].
  - exists []. now rewrite app_nil_r.
  - destruct (py_split "." k) as [|tab [|col [|x l]]];
      try (exists []; now rewrite app_nil_r).
    destruct (dict_get tab found) as [t|]; [|exists []; now rewrite app_nil_r].
    destruct (bool_decide (col ∈ columns t)); [|exists []; now rewrite app_nil_r].
    destruct (IH (call_library (SetColumnType tab col v) p)) as (rest & Hc & Hd).
    exists (SetColumnType tab col v :: rest). rewrite Hc, Hd. cbn. now rewrite <- app_assoc.
Qed.

Lemma load_connection_calls (cs : string) (sf : bool) (base : option base_ref)
    (args : arguments) (p : process) :
  exists rest,
    calls (load_connection cs sf base args p).2 = calls p ++ CreateEngine cs args :: rest /\
    default_connection_arguments (load_connection cs sf base args p).2 =
      default_connection_arguments p.
Proof.
  unfold load_connection. cbn zeta. destruct (py_startswith "sqlite" cs && sf).
  - eexists. cbn. rewrite <- !app_assoc. split; reflexivity.
  - eexists. cbn. rewrite <- !app_assoc. split; reflexivity.
Qed.

(** What a construction that leaves [connection_arguments] out, for a
    connection string other than ["sqlite://"], does to the process. *)
Lemma init_with_default (cs : string) (rt : list string) (pt pk fk : string)
    (ov : list (string * string)) (sf : bool) (schema : option string)
    (found : list (string * table)) (p : process) :
  cs <> "sqlite://" ->
  let args := with_search_path cs schema (default_connection_arguments p) in
  exists rest,
    calls (__init__ cs rt pt pk fk ov sf None schema found p).2 =
      calls p ++ CreateEngine cs args :: rest /\
    default_connection_arguments (__init__ cs rt pt pk fk ov sf None schema found p).2 = args.
Proof.
  intros Hcs. cbn zeta. unfold __init__. cbn zeta.
  destruct (String.eqb_spec cs "sqlite://") as [|_]; [contradiction|].
  set (args := with_search_path cs schema (default_connection_arguments p)).
  set (p0 := {| default_connection_arguments := args; calls := calls p |}).
  destruct (load_connection_calls cs sf None args p0) as (r1 & Hc1 & Hd1).
  destruct (load_connection cs sf None args p0) as [b p1]. cbn [snd] in Hc1, Hd1.
  destruct found as [|f0 found].
  - exists (r1 ++ [Reflect]). cbn. rewrite Hc1, Hd1. cbn. now rewrite <- app_assoc.
  - destruct (override_types_appends (f0 :: found) ov (call_library Reflect p1)) as (r2 & Hc2 & Hd2).
    destruct (override_types (f0 :: found) ov (call_library Reflect p1)) as [[e|] p2];
      cbn [snd] in *; exists (r1 ++ [Reflect] ++ r2); rewrite Hc2, Hd2; cbn;
      rewrite Hc1, Hd1; cbn; now rewrite <- !app_assoc.
Qed.

(** X18. The default of [connection_arguments] is one dict shared by all
    constructions.  After a [Database] was constructed for a PostgreSQL
    connection with [schema=a] and without [connection_arguments], a later
    construction without [connection_arguments] creates its engine with
    the search path of [a], whatever [schema] it names. *)
Theorem connection_arguments_default_is_shared
    (cs1 cs2 a b : string) (rt1 rt2 : list string) (pt1 pk1 fk1 pt2 pk2 fk2 : string)
    (ov1 ov2 : list (string * string)) (sf1 sf2 : bool)
    (found1 found2 : list (string * table)) (p : process) :
  py_startswith "postgres" cs1 = true ->
  cs2 <> "sqlite://" ->
  dict_get "options" (default_connection_arguments p) = None ->
  let p1 := (__init__ cs1 rt1 pt1 pk1 fk1 ov1 sf1 None (Some a) found1 p).2 in
  let p2 := (__init__ cs2 rt2 pt2 pk2 fk2 ov2 sf2 None (Some b) found2 p1).2 in
  exists args rest,
    calls p2 = calls p1 ++ CreateEngine cs2 args :: rest /\
    dict_get "options" args = Some (search_path a).
Proof.
  intros Hpg Hcs2 Hnone. cbn zeta.
  assert (Hcs1 : cs1 <> "sqlite://") by (intros ->; discriminate Hpg).
  destruct (init_with_default cs1 rt1 pt1 pk1 fk1 ov1 sf1 (Some a) found1 p Hcs1)
    as (r1 & _ & Hd1).
  set (p1 := (__init__ cs1 rt1 pt1 pk1 fk1 ov1 sf1 None (Some a) found1 p).2) in *.
  destruct (init_with_default cs2 rt2 pt2 pk2 fk2 ov2 sf2 (Some b) found2 p1 Hcs2)
    as (r2 & Hc2 & _).
  exists (with_search_path cs2 (Some b) (default_connection_arguments p1)), r2.
  split; [exact Hc2|]. rewrite Hd1. cbn zeta.
  assert (Hopt : dict_get "options"
                   (with_search_path cs1 (Some a) (default_connection_arguments p)) =
                 Some (search_path a)).
  { unfold with_search_path. rewrite Hpg, Hnone. now rewrite dict_get_set. }
  unfold with_search_path at 1. destruct (py_startswith "postgres" cs2); [|exact Hopt].
  now rewrite Hopt.
Qed.

Lemma connection_arguments_default_is_shared_witness :
  exists args rest,
    calls
      (__init__ "postgresql://host/simple" [] "Sources" "source" "source" [] true None
         (Some "other") (tables sample_db)
         (__init__ "postgresql://host/simple" [] "Sources" "source" "source" [] true None
            (Some "simple") (tables sample_db)
            {| default_connection_arguments := []; calls := [] |}).2).2 =
    calls
      (__init__ "postgresql://host/simple" [] "Sources" "source" "source" [] true None
         (Some "simple") (tables sample_db)
         {| default_connection_arguments := []; calls := [] |}).2 ++
    CreateEngine "postgresql://host/simple" args :: rest /\
    dict_get "options" args = Some (VStr "-csearch_path=simple").
Proof.
  apply (connection_arguments_default_is_shared
           "postgresql://host/simple" "postgresql://host/simple" "simple" "other"
           [] [] "Sources" "source" "source" "Sources" "source" "source" [] [] true true
           (tables sample_db) (tables sample_db)
           {| default_connection_arguments := []; calls := [] |}).
  - reflexivity.
  - discriminate.
  - reflexivity.
Defined.

(** X19. For the in-memory connection string ["sqlite://"],
    [Database.__init__] goes through [create_database]: the engine is
    created without connection arguments and the handler that switches
    foreign keys on is registered; what the construction returns and the
    process it leaves are the same whatever [sqlite_foreign],
    [connection_arguments] and [schema] the caller gave. *)
Theorem in_memory_database_ignores_flags (rt : list string) (pt pk fk : string)
    (ov : list (string * string)) (sf sf' : bool) (ca ca' : option arguments)
    (schema schema' : option string) (found : list (string * table)) (p : process) :
  (exists rest,
     calls (__init__ "sqlite://" rt pt pk fk ov sf ca schema found p).2 =
     calls p ++
     CreateEngine "sqlite://" [] :: BindMetadata ModuleBase :: ListenForConnect ::
     CreateAll :: Reflect :: rest) /\
  (__init__ "sqlite://" rt pt pk fk ov sf ca schema found p).1.1 =
    (__init__ "sqlite://" rt pt pk fk ov sf' ca' schema' found p).1.1 /\
  (__init__ "sqlite://" rt pt pk fk ov sf ca schema found p).2 =
    (__init__ "sqlite://" rt pt pk fk ov sf' ca' schema' found p).2.
Proof.
  assert (Hrun : forall s c sch,
             ((__init__ "sqlite://" rt pt pk fk ov s c sch found p).1.1,
              (__init__ "sqlite://" rt pt pk fk ov s c sch found p).2) =
             let p1 := call_library Reflect (create_database "sqlite://" false p).2 in
             match found with
             | [] => (inl (RuntimeError "Create database first."), p1)
             | _ =>
                 match override_types found ov p1 with
                 | (Some e, p2) => (inl e, p2)
                 | (None, p2) =>
                     (inr {| _reference_tables := rt; _primary_table := pt;
                             _primary_table_key := pk; _foreign_key := fk;
                             table_attributes := dict_keys found |}, p2)
                 end
             end).
  { intros s c sch. unfold __init__. cbn zeta.
    change (String.eqb "sqlite://" "sqlite://") with true. cbn match.
    assert (Hp : match c with
                 | Some _ => p
                 | None =>
                     {| default_connection_arguments :=
                          with_search_path "sqlite://" sch
                            match c with
                            | Some args => args
                            | None => default_connection_arguments p
                            end;
                        calls := calls p |}
                 end = p).
    { destruct c as [a|]; [reflexivity|]. now destruct p. }
    rewrite Hp.
    destruct (create_database "sqlite://" false p) as [b p1]. cbn [snd].
    destruct found as [|f0 found]; [reflexivity|].
    destruct (override_types (f0 :: found) ov (call_library Reflect p1)) as [[e|] p2];
      reflexivity. }
  split; [|split].
  - pose proof (Hrun sf ca schema) as H. apply (f_equal snd) in H. cbn [snd] in H.
    rewrite H. cbn zeta.
    set (p1 := call_library Reflect _).
    assert (Hp1 : calls p1 = calls p ++ [CreateEngine "sqlite://" []; BindMetadata ModuleBase;
                                         ListenForConnect; CreateAll; Reflect]).
    { subst p1. cbn. rewrite <- !app_assoc. reflexivity. }
    destruct found as [|f0 found].
    + exists []. exact Hp1.
    + destruct (override_types_appends (f0 :: found) ov p1) as (r & Hc & _).
      destruct (override_types (f0 :: found) ov p1) as [[e|] p2]; cbn [snd] in *;
        exists r; rewrite Hc, Hp1, <- app_assoc; reflexivity.
  - pose proof (Hrun sf ca schema) as H1. pose proof (Hrun sf' ca' schema') as H2.
    apply (f_equal fst) in H1, H2. cbn [fst] in H1, H2. now rewrite H1, H2.
  - pose proof (Hrun sf ca schema) as H1. pose proof (Hrun sf' ca' schema') as H2.
    apply (f_equal snd) in H1, H2. cbn [snd] in H1, H2. now rewrite H1, H2.
Qed.
